(** * dropspy: the NET_DM session engine and its drop-event model

    A shallow embedding of package [dropspy]: the protocol constants,
    the attribute decoding of alerts and configuration replies, the
    [Session] methods ([NewSession], [Config], [Start], [Stop],
    [ReadUntil]) and the [PacketAlert] accessors, from the source file
    that defines [ReadUntil] and [PacketAlert].  (netlink.go is an
    earlier copy of that file; its [decodeAlert] is kept in module
    [Earlier] for comparison.)

    The Go packages the file imports are not part of the repository.
    They are modelled in the modules [netlink] (the attribute codec of
    github.com/mdlayher/netlink, with attributes decoded on demand and
    a sticky decoder error) and [genetlink] (the connection, as a log
    of the calls made on it, answered by an arbitrary [World]).
    Integers are [Z] in native (little-endian) byte order, byte slices
    and Go strings are [list byte], [map[int]interface{}] is a
    [gmap Z Value]. *)

From Stdlib Require Import ZArith List Lia String Bool.
From coqutil Require Import Byte Word.LittleEndianList.
From stdpp Require Import base option gmap.
Import ListNotations.
Local Open Scope Z_scope.

#[local] Set Warnings "-register-all".

(** ** Go values *)

(** Go [error] values.  [Errorf p e] is [fmt.Errorf(p + ": %w", e)];
    [NetError] is an error that implements [net.Error] (such as
    [*netlink.OpError]), with the answer of its [Timeout()] method;
    [PlainError] is any other error.  A wrapped error does not
    implement [net.Error]. *)
Inductive error : Type :=
| NetError (timeout : bool) (msg : string)
| PlainError (msg : string)
| errInvalidAttribute
| errNotUint (bits : Z) (typ : Z) (len : Z)
| errMartian (ngroups : Z)
| Errorf (prefix : string) (e : error).

(** [nerr, ok := err.(net.Error); ok && nerr.Timeout()] *)
Definition isTimeout (e : error) : bool :=
  match e with
  | NetError t _ => t
  | _ => false
  end.

(** The outcome of code that can panic (index out of range, failed
    type assertion). *)
Inductive outcome (A : Type) : Type :=
| Ok (a : A)
| Panic (why : string).
Arguments Ok {A} a.
Arguments Panic {A} why.

(** The dynamic values stored in a [map[int]interface{}] by the decoders. *)
Inductive Value : Type :=
| VUint8 (v : Z)
| VUint16 (v : Z)
| VUint32 (v : Z)
| VUint64 (v : Z)
| VString (s : list byte)
| VBytes (b : list byte)
| VMap (m : gmap Z Value)
| VFunc (name : string).       (* a method value *)

(** [len(b)] *)
Definition len {A : Type} (b : list A) : Z := Z.of_nat (length b).

(** [b[lo:hi]] and [b[lo:]] (for [0 <= lo <= hi <= len(b)]). *)
Definition slice {A : Type} (b : list A) (lo hi : Z) : list A :=
  firstn (Z.to_nat (hi - lo)) (skipn (Z.to_nat lo) b).
Definition sliceFrom {A : Type} (b : list A) (lo : Z) : list A :=
  skipn (Z.to_nat lo) b.

(** ** Protocol constants (include/uapi/linux/net_dropmon.h) *)

Definition CMD_UNSPEC : Z := 0.
Definition CMD_ALERT : Z := 1.
Definition CMD_CONFIG : Z := 2.
Definition CMD_START : Z := 3.
Definition CMD_STOP : Z := 4.
Definition CMD_PACKET_ALERT : Z := 5.
Definition CMD_CONFIG_GET : Z := 6.
Definition CMD_CONFIG_NEW : Z := 7.
Definition CMD_STATS_GET : Z := 8.
Definition CMD_STATS_NEW : Z := 9.

Definition ATTR_UNSPEC : Z := 0.
Definition ATTR_ALERT_MODE : Z := 1.
Definition ATTR_PC : Z := 2.
Definition ATTR_SYMBOL : Z := 3.
Definition ATTR_IN_PORT : Z := 4.
Definition ATTR_TIMESTAMP : Z := 5.
Definition ATTR_PROTO : Z := 6.
Definition ATTR_PAYLOAD : Z := 7.
Definition ATTR_PAD : Z := 8.
Definition ATTR_TRUNC_LEN : Z := 9.
Definition ATTR_ORIG_LEN : Z := 10.
Definition ATTR_QUEUE_LEN : Z := 11.
Definition ATTR_STATS : Z := 12.
Definition ATTR_HW_STATS : Z := 13.
Definition ATTR_ORIGIN : Z := 14.
Definition ATTR_HW_TRAP_GROUP_NAME : Z := 15.
Definition ATTR_HW_TRAP_NAME : Z := 16.
Definition ATTR_HW_ENTRIES : Z := 17.
Definition ATTR_HW_ENTRY : Z := 18.
Definition ATTR_HW_TRAP_COUNT : Z := 19.
Definition ATTR_SW_DROPS : Z := 20.
Definition ATTR_HW_DROPS : Z := 21.

Definition GRP_ALERT : Z := 1.
Definition ALERT_MODE_SUMMARY : Z := 0.
Definition ALERT_MODE_PACKET : Z := 1.
Definition NATTR_PORT_NETDEV_IFINDEX : Z := 0.
Definition NATTR_PORT_NETDEV_NAME : Z := 1.

(** ** The attribute codec of package netlink *)

Module netlink.

Definition Request : Z := 1.
Definition Acknowledge : Z := 4.

Definition nlaHeaderLen : Z := 4.
Definition nlaAlignTo : Z := 4.
Definition attrTypeMask : Z := 0x3fff.

(** [(len + nlaAlignTo - 1) & ^(nlaAlignTo - 1)] *)
Definition nlaAlign (n : Z) : Z :=
  Z.land (n + nlaAlignTo - 1) (Z.lnot (nlaAlignTo - 1)).

Record Attribute : Type := mkAttribute {
  Length : Z;         (* uint16 *)
  Type_ : Z;          (* uint16 *)
  Data : list byte
}.

(** [nlenc.Uint16] and friends, native byte order. *)
Definition nlencUint (b : list byte) : Z := le_combine b.
Definition nlencPutUint (n : nat) (v : Z) : list byte := le_split n v.

(** [nlenc.String]: the bytes without their trailing NULs. *)
Fixpoint trimRightNul (b : list byte) : list byte :=
  match b with
  | [] => []
  | x :: t =>
      match trimRightNul t with
      | [] => if Byte.eqb x Byte.x00 then [] else [x]
      | t' => x :: t'
      end
  end.

(** [Attribute.unmarshal] *)
Definition unmarshal (b : list byte) : Attribute + error :=
  if len b <? nlaHeaderLen then inr errInvalidAttribute
  else
    let l := nlencUint (slice b 0 2) in
    let t := nlencUint (slice b 2 4) in
    if len b <? l then inr errInvalidAttribute
    else if l =? 0 then inl (mkAttribute l t [])
    else if l <? nlaHeaderLen then inr errInvalidAttribute
    else inl (mkAttribute l t (slice b nlaHeaderLen l)).

(** [AttributeDecoder]: the bytes, the offset of the next attribute,
    the current attribute and the first error met. *)
Record AttributeDecoder : Type := mkDecoder {
  ad_b : list byte;
  ad_i : Z;
  ad_a : Attribute;
  ad_err : option error
}.

Definition setErr (ad : AttributeDecoder) (e : option error) : AttributeDecoder :=
  mkDecoder (ad_b ad) (ad_i ad) (ad_a ad) e.

(** [NewAttributeDecoder]: never fails, decoding is on demand. *)
Definition NewAttributeDecoder (b : list byte) : AttributeDecoder * option error :=
  (mkDecoder b 0 (mkAttribute 0 0 []) None, None).

(** How far [Next] moves the offset over the attribute it read: at
    least one header. *)
Definition advance (a : Attribute) : Z :=
  if Length a <? nlaHeaderLen then nlaHeaderLen else nlaAlign (Length a).

(** [AttributeDecoder.Next] *)
Definition Next (ad : AttributeDecoder) : bool * AttributeDecoder :=
  match ad_err ad with
  | Some _ => (false, ad)
  | None =>
      if len (ad_b ad) <=? ad_i ad then (false, ad)
      else
        match unmarshal (sliceFrom (ad_b ad) (ad_i ad)) with
        | inr e => (false, setErr ad (Some e))
        | inl a => (true, mkDecoder (ad_b ad) (ad_i ad + advance a) a None)
        end
  end.

Definition Type' (ad : AttributeDecoder) : Z :=
  Z.land (Type_ (ad_a ad)) attrTypeMask.

Definition data (ad : AttributeDecoder) : list byte := Data (ad_a ad).

Definition Err (ad : AttributeDecoder) : option error := ad_err ad.

(** [Uint8], [Uint16], [Uint32], [Uint64]: zero and a sticky error
    when the attribute does not have the width asked for. *)
Definition UintN (n : nat) (ad : AttributeDecoder) : Z * AttributeDecoder :=
  match ad_err ad with
  | Some _ => (0, ad)
  | None =>
      let b := data ad in
      if len b =? Z.of_nat n then (nlencUint b, ad)
      else (0, setErr ad (Some (errNotUint (8 * Z.of_nat n) (Type' ad) (len b))))
  end.
Definition Uint8 := UintN 1.
Definition Uint16 := UintN 2.
Definition Uint32 := UintN 4.
Definition Uint64 := UintN 8.

Definition String' (ad : AttributeDecoder) : list byte :=
  match ad_err ad with
  | Some _ => []
  | None => trimRightNul (data ad)
  end.

Definition Bytes (ad : AttributeDecoder) : list byte :=
  match ad_err ad with
  | Some _ => []
  | None => data ad
  end.

(** [for ad.Next() { body }], with the state [S] the body updates.
    Every round moves the offset forward, so [fuel] rounds, for
    [fuel] above the number of bytes, always suffice
    ([forNext_total] below). *)
Fixpoint forNext {S : Type} (fuel : nat)
    (body : AttributeDecoder -> S -> AttributeDecoder * S)
    (ad : AttributeDecoder) (s : S) : option (AttributeDecoder * S) :=
  match fuel with
  | O => None
  | Datatypes.S n =>
      let '(more, ad1) := Next ad in
      if more then
        let '(ad2, s2) := body ad1 s in forNext n body ad2 s2
      else Some (ad1, s)
  end.

(** [Nested(fn)] for the [fn] that runs a [for d.Next()] loop with
    [body] and returns nil: the nested decoder's error becomes the
    outer one.  ([Do] does nothing once the decoder has an error.) *)
Definition Nested {S : Type}
    (body : AttributeDecoder -> S -> AttributeDecoder * S)
    (ad : AttributeDecoder) (s : S) : AttributeDecoder * S :=
  match ad_err ad with
  | Some _ => (ad, s)
  | None =>
      let b := data ad in
      let '(nad, _) := NewAttributeDecoder b in
      match forNext (Datatypes.S (length b)) body nad s with
      | Some (nad', s') =>
          match Err nad' with
          | Some e => (setErr ad (Some e), s')
          | None => (ad, s')
          end
      | None => (ad, s)
      end
  end.

(** *** The encoder *)

(** [AttributeEncoder]: the attributes appended so far. *)
Definition AttributeEncoder : Type := list Attribute.
Definition NewAttributeEncoder : AttributeEncoder := [].

Definition encFlag (typ : Z) (v : bool) (ae : AttributeEncoder) : AttributeEncoder :=
  if v then ae ++ [mkAttribute 0 typ []] else ae.
Definition encUint8 (typ v : Z) (ae : AttributeEncoder) : AttributeEncoder :=
  ae ++ [mkAttribute 0 typ (nlencPutUint 1 v)].
Definition encUint32 (typ v : Z) (ae : AttributeEncoder) : AttributeEncoder :=
  ae ++ [mkAttribute 0 typ (nlencPutUint 4 v)].
Definition encBytes (typ : Z) (b : list byte) (ae : AttributeEncoder) : AttributeEncoder :=
  ae ++ [mkAttribute 0 typ b].
Definition encUint64 (typ v : Z) (ae : AttributeEncoder) : AttributeEncoder :=
  ae ++ [mkAttribute 0 typ (nlencPutUint 8 v)].

Definition padding (n : Z) : list byte :=
  repeat Byte.x00 (Z.to_nat (nlaAlign n - n)).

(** [Attribute.marshal]: length and type, the data, zero padding. *)
Definition marshal (a : Attribute) : list byte :=
  nlencPutUint 2 (nlaHeaderLen + len (Data a))
    ++ nlencPutUint 2 (Type_ a) ++ Data a ++ padding (len (Data a)).

(** [Encode] / [MarshalAttributes]; an attribute above 65535 bytes
    does not fit its length field. *)
Definition Encode (ae : AttributeEncoder) : list byte * option error :=
  if forallb (fun a => nlaHeaderLen + len (Data a) <=? 0xffff) ae
  then (concat (map marshal ae), None)
  else ([], Some errInvalidAttribute).

End netlink.

(** ** decodeConfig and decodeAlert *)

Definition attrs_t : Type := gmap Z Value.

(** The body of the loop of [decodeConfig]. *)
Definition decodeConfig_body (dec : netlink.AttributeDecoder) (ret : gmap Z Value)
  : netlink.AttributeDecoder * gmap Z Value :=
  let t := netlink.Type' dec in
  if t =? ATTR_ALERT_MODE then
    let '(v, dec) := netlink.Uint8 dec in (dec, <[ATTR_ALERT_MODE := VUint8 v]> ret)
  else if t =? ATTR_TRUNC_LEN then
    let '(v, dec) := netlink.Uint32 dec in (dec, <[ATTR_TRUNC_LEN := VUint32 v]> ret)
  else if t =? ATTR_QUEUE_LEN then
    let '(v, dec) := netlink.Uint32 dec in (dec, <[ATTR_QUEUE_LEN := VUint32 v]> ret)
  else (dec, ret).

(** The result of a Go function returning [(map[int]interface{}, error)]:
    the map is [None] when the function returns a nil map. *)
Definition decoded : Type := option (gmap Z Value) * option error.

(** What the decoders do once the loop has ended: the decoder's error
    if it has one, the map otherwise.  ([None]: the bound on the rounds
    of the loop was reached; this does not happen, see
    [decodeAlert_returns].) *)
Definition decode_finish (r : option (netlink.AttributeDecoder * gmap Z Value)) : decoded :=
  match r with
  | Some (dec, ret) =>
      match netlink.Err dec with
      | Some err => (None, Some err)
      | None => (Some ret, None)
      end
  | None => (None, None)
  end.

Definition decodeConfig (raw : list byte) : decoded :=
  match netlink.NewAttributeDecoder raw with
  | (_, Some err) => (None, Some (Errorf "decode" err))
  | (dec, None) =>
      decode_finish (netlink.forNext (S (length raw)) decodeConfig_body dec ∅)
  end.

(** The body of the loop inside [dec.Nested] in [decodeAlert]. *)
Definition decodeAlert_port_body (d : netlink.AttributeDecoder) (a : gmap Z Value)
  : netlink.AttributeDecoder * gmap Z Value :=
  let t := netlink.Type' d in
  if t =? NATTR_PORT_NETDEV_IFINDEX then
    let '(v, d) := netlink.Uint32 d in (d, <[NATTR_PORT_NETDEV_IFINDEX := VUint32 v]> a)
  else if t =? NATTR_PORT_NETDEV_NAME then
    (d, <[NATTR_PORT_NETDEV_NAME := VString (netlink.String' d)]> a)
  else (d, a).

(** The body of the loop of [decodeAlert]. *)
Definition decodeAlert_body (dec : netlink.AttributeDecoder) (ret : gmap Z Value)
  : netlink.AttributeDecoder * gmap Z Value :=
  let t := netlink.Type' dec in
  if t =? ATTR_PC then
    let '(v, dec) := netlink.Uint64 dec in (dec, <[ATTR_PC := VUint64 v]> ret)
  else if t =? ATTR_SYMBOL then
    (dec, <[ATTR_SYMBOL := VString (netlink.String' dec)]> ret)
  else if t =? ATTR_IN_PORT then
    let '(dec, a) := netlink.Nested decodeAlert_port_body dec ∅ in
    (dec, <[ATTR_IN_PORT := VMap a]> ret)
  else if t =? ATTR_TIMESTAMP then
    let '(v, dec) := netlink.Uint64 dec in (dec, <[ATTR_TIMESTAMP := VUint64 v]> ret)
  else if t =? ATTR_PROTO then
    let '(v, dec) := netlink.Uint16 dec in (dec, <[ATTR_PROTO := VUint16 v]> ret)
  else if t =? ATTR_PAYLOAD then
    (dec, <[ATTR_PAYLOAD := VBytes (netlink.Bytes dec)]> ret)
  else if t =? ATTR_ORIG_LEN then
    let '(v, dec) := netlink.Uint32 dec in (dec, <[ATTR_ORIG_LEN := VUint32 v]> ret)
  else if t =? ATTR_ORIGIN then
    let '(v, dec) := netlink.Uint16 dec in (dec, <[ATTR_ORIGIN := VUint16 v]> ret)
  else (dec, ret).

Definition decodeAlert (raw : list byte) : decoded :=
  match netlink.NewAttributeDecoder raw with
  | (_, Some err) => (None, Some (Errorf "decode" err))
  | (dec, None) =>
      decode_finish (netlink.forNext (S (length raw)) decodeAlert_body dec ∅)
  end.

(** ** The earlier copy in netlink.go

    [netlink.go] holds an earlier revision of the same file (its
    [Start] and [Stop] only send their request, and it has no
    [ReadUntil] and no [PacketAlert]).  Its [decodeAlert] differs from
    the one above in three places: it prints each attribute type as it
    goes, it stores the method value [dec.Uint64] under
    ATTR_TIMESTAMP, and it returns the map without asking the decoder
    for its error. *)
Module Earlier.

Definition decodeAlert_body (dec : netlink.AttributeDecoder) (ret : gmap Z Value)
  : netlink.AttributeDecoder * gmap Z Value :=
  let t := netlink.Type' dec in
  if t =? ATTR_PC then
    let '(v, dec) := netlink.Uint64 dec in (dec, <[ATTR_PC := VUint64 v]> ret)
  else if t =? ATTR_SYMBOL then
    (dec, <[ATTR_SYMBOL := VString (netlink.String' dec)]> ret)
  else if t =? ATTR_IN_PORT then
    let '(dec, a) := netlink.Nested decodeAlert_port_body dec ∅ in
    (dec, <[ATTR_IN_PORT := VMap a]> ret)
  else if t =? ATTR_TIMESTAMP then
    (dec, <[ATTR_TIMESTAMP := VFunc "dec.Uint64"]> ret)
  else if t =? ATTR_PROTO then
    let '(v, dec) := netlink.Uint16 dec in (dec, <[ATTR_PROTO := VUint16 v]> ret)
  else if t =? ATTR_PAYLOAD then
    (dec, <[ATTR_PAYLOAD := VBytes (netlink.Bytes dec)]> ret)
  else if t =? ATTR_ORIG_LEN then
    let '(v, dec) := netlink.Uint32 dec in (dec, <[ATTR_ORIG_LEN := VUint32 v]> ret)
  else if t =? ATTR_ORIGIN then
    let '(v, dec) := netlink.Uint16 dec in (dec, <[ATTR_ORIGIN := VUint16 v]> ret)
  else (dec, ret).

Definition decodeAlert (raw : list byte) : decoded :=
  match netlink.NewAttributeDecoder raw with
  | (_, Some err) => (None, Some (Errorf "decode" err))
  | (dec, None) =>
      match netlink.forNext (S (length raw)) decodeAlert_body dec ∅ with
      | Some (_, ret) => (Some ret, None)
      | None => (None, None)
      end
  end.

End Earlier.

(** ** PacketAlert *)

Record PacketAlert : Type := mkPacketAlert {
  attrs : option (gmap Z Value)   (* nil in the zero PacketAlert *)
}.

(** [pa.attrs[k]]: reading a nil map finds nothing. *)
Definition attr (pa : PacketAlert) (k : Z) : option Value :=
  match attrs pa with
  | Some m => m !! k
  | None => None
  end.

Definition PacketAlertFromRaw (raw : list byte) : PacketAlert * option error :=
  match decodeAlert raw with
  | (_, Some err) => (mkPacketAlert None, Some (Errorf "decode" err))
  | (attrs, None) => (mkPacketAlert attrs, None)
  end.

Definition Packet (pa : PacketAlert) : outcome (list byte) :=
  match attr pa ATTR_PAYLOAD with
  | None => Ok []
  | Some (VBytes b) => Ok b
  | Some _ => Panic "interface conversion: not []byte"
  end.

Definition L3Packet (pa : PacketAlert) : outcome (list byte) :=
  match Packet pa with
  | Panic why => Panic why
  | Ok packet =>
      if len packet <=? 14 then Ok []
      else Ok (sliceFrom packet 14)
  end.

Definition Symbol (pa : PacketAlert) : outcome (list byte) :=
  match attr pa ATTR_SYMBOL with
  | None => Ok []
  | Some (VString s) => Ok s
  | Some _ => Panic "interface conversion: not string"
  end.

Definition PC (pa : PacketAlert) : outcome Z :=
  match attr pa ATTR_PC with
  | None => Ok 0
  | Some (VUint64 v) => Ok v
  | Some _ => Panic "interface conversion: not uint64"
  end.

Definition Proto (pa : PacketAlert) : outcome Z :=
  match attr pa ATTR_PROTO with
  | None => Ok 0
  | Some (VUint16 v) => Ok v
  | Some _ => Panic "interface conversion: not uint16"
  end.

Definition Is4 (pa : PacketAlert) : outcome bool :=
  match Proto pa with
  | Ok p => Ok (p =? 0x0800)
  | Panic why => Panic why
  end.

Definition Is16 (pa : PacketAlert) : outcome bool :=
  match Proto pa with
  | Ok p => Ok (p =? 0x86DD)
  | Panic why => Panic why
  end.

Definition Length (pa : PacketAlert) : outcome Z :=
  match attr pa ATTR_ORIG_LEN with
  | None => Ok 0
  | Some (VUint32 v) => Ok v
  | Some _ => Panic "interface conversion: not uint32"
  end.

Definition Link (pa : PacketAlert) : outcome Z :=
  match attr pa ATTR_IN_PORT with
  | None => Ok 0
  | Some (VMap a) =>
      match a !! 0 with
      | None => Ok 0
      | Some (VUint32 v) => Ok v
      | Some _ => Panic "interface conversion: not uint32"
      end
  | Some _ => Panic "interface conversion: not map[int]interface {}"
  end.


(** ** The connection of package genetlink *)

Module genetlink.

Record Message : Type := mkMessage {
  Command : Z;        (* Header.Command, uint8 *)
  Version : Z;        (* Header.Version, uint8 *)
  Data : list byte
}.

Record MulticastGroup : Type := mkGroup {
  GroupID : Z;        (* uint32 *)
  GroupName : string
}.

Record Family : Type := mkFamily {
  ID : Z;             (* uint16 *)
  FamilyVersion : Z;
  Name : string;
  Groups : list MulticastGroup
}.

(** A call made on the connection, with what it returned. *)
Inductive Call : Type :=
| GetFamily (name : string) (f : Family) (err : option error)
| Send (m : Message) (family : Z) (flags : Z) (err : option error)
| Receive (ms : list Message) (err : option error)
| JoinGroup (group : Z) (err : option error)
| LeaveGroup (group : Z) (err : option error)
| SetReadBuffer (bytes : Z) (err : option error)
| SetReadDeadline (t : Z) (err : option error).

(** The state of a [*genetlink.Conn]: the calls made so far, oldest
    first. *)
Definition Conn : Type := list Call.

(** The kernel and the socket behind the connection: what each call
    returns, given everything that happened on the connection before. *)
Record World : Type := mkWorld {
  onDial : option error;
  onGetFamily : Conn -> string -> Family * option error;
  onSend : Conn -> Message -> Z -> Z -> option error;
  onReceive : Conn -> list Message * option error;
  onJoinGroup : Conn -> Z -> option error;
  onLeaveGroup : Conn -> Z -> option error;
  onSetReadBuffer : Conn -> Z -> option error;
  onSetReadDeadline : Conn -> Z -> option error
}.

End genetlink.

Import genetlink.

(** ** Session *)

Record Session : Type := mkSession {
  conn : Conn;
  fam : Z;      (* uint16 *)
  group : Z     (* uint32 *)
}.

(** Methods on [*Session]: they read and update the session they are
    called on. *)
Definition M (A : Type) : Type := Session -> A * Session.

Definition ret {A : Type} (a : A) : M A := fun s => (a, s).
Definition bind {A B : Type} (m : M A) (k : A -> M B) : M B :=
  fun s => let '(a, s') := m s in k a s'.

Notation "'let*' x := m 'in' k" := (bind m (fun x => k))
  (at level 10, x pattern, m at level 100, k at level 200).

(** [time.Time], as the distance from the zero Time. *)
Definition Time : Type := Z.
Definition IsZero (t : Time) : bool := t =? 0.

(** [type PacketAlertFunc func(PacketAlert) bool].  The function may
    be a closure with a state of its own: it is given the alerts it was
    called on before. *)
Definition PacketAlertFunc : Type := list PacketAlert -> PacketAlert -> bool.

Section WithWorld.

Variable w : World.

(** Calls on [s.conn]: ask the world, log the call. *)
Definition call {A : Type} (answer : Conn -> A) (entry : A -> Call) : M A :=
  fun s =>
    let a := answer (conn s) in
    (a, mkSession (conn s ++ [entry a]) (fam s) (group s)).

Definition connGetFamily (name : string) : M (Family * option error) :=
  call (fun c => onGetFamily w c name) (fun r => GetFamily name (fst r) (snd r)).
Definition connSend (m : Message) (family flags : Z) : M (option error) :=
  call (fun c => onSend w c m family flags) (Send m family flags).
Definition connReceive : M (list Message * option error) :=
  call (onReceive w) (fun r => Receive (fst r) (snd r)).
Definition connJoinGroup (g : Z) : M (option error) :=
  call (fun c => onJoinGroup w c g) (JoinGroup g).
Definition connLeaveGroup (g : Z) : M (option error) :=
  call (fun c => onLeaveGroup w c g) (LeaveGroup g).
Definition connSetReadBuffer (n : Z) : M (option error) :=
  call (fun c => onSetReadBuffer w c n) (SetReadBuffer n).
Definition connSetReadDeadline (t : Time) : M (option error) :=
  call (fun c => onSetReadDeadline w c t) (SetReadDeadline t).

Definition dropMonitorLookup : M (Z * Z * option error) :=
  let* (fam, err) := connGetFamily "NET_DM" in
  match err with
  | Some err => ret (0, 0, Some (Errorf "lookup" err))
  | None =>
      match Groups fam with
      | [g] => ret (ID fam, GroupID g, None)
      | gs => ret (0, 0, Some (errMartian (len gs)))
      end
  end.

Definition NewSession : option Session * option error :=
  match onDial w with
  | Some err => (None, Some (Errorf "session" err))
  | None =>
      let s := mkSession [] 0 0 in
      let '((f, g, err), s) := dropMonitorLookup s in
      match err with
      | Some err => (None, Some (Errorf "session" err))
      | None => (Some (mkSession (conn s) f g), None)
      end
  end.

Definition req (cmd : Z) (data : list byte) (ack : bool) : M (option error) :=
  fun s =>
    let flags := netlink.Request in
    let flags := if ack then Z.lor flags netlink.Acknowledge else flags in
    connSend (mkMessage cmd 0 data) (fam s) flags s.

(** [Config]: the reply is [ms[0]], whatever [ms] holds. *)
Definition Config : M (outcome decoded) :=
  let* err := req CMD_CONFIG_GET [] false in
  match err with
  | Some err => ret (Ok (None, Some (Errorf "config" err)))
  | None =>
      let* (ms, err) := connReceive in
      match err with
      | Some err => ret (Ok (None, Some (Errorf "config" err)))
      | None =>
          match ms with
          | [] => ret (Panic "index out of range [0] with length 0")
          | m0 :: _ =>
              match decodeConfig (Data m0) with
              | (_, Some err) => ret (Ok (None, Some (Errorf "config" err)))
              | (conf, None) => ret (Ok (conf, None))
              end
          end
      end
  end.

(** The attributes [Start] and [Stop] send: the two drop flags. *)
Definition dropFlags (sw hw : bool) : list byte * option error :=
  let enc := netlink.NewAttributeEncoder in
  let enc := netlink.encFlag ATTR_SW_DROPS sw enc in
  let enc := netlink.encFlag ATTR_HW_DROPS hw enc in
  netlink.Encode enc.

(** The attributes [setPacketMode] sends. *)
Definition packetMode : list byte * option error :=
  let enc := netlink.NewAttributeEncoder in
  let enc := netlink.encUint8 ATTR_ALERT_MODE ALERT_MODE_PACKET enc in
  let enc := netlink.encUint32 ATTR_TRUNC_LEN 100 enc in
  let enc := netlink.encUint32 ATTR_QUEUE_LEN 4096 enc in
  netlink.Encode enc.

Definition setPacketMode : M (option error) :=
  match packetMode with
  | (_, Some err) => ret (Some (Errorf "encode" err))
  | (raw, None) =>
      let* err := req CMD_CONFIG raw true in
      match err with
      | Some err => ret (Some (Errorf "req" err))
      | None =>
          let* (_, err) := connReceive in
          match err with
          | Some err => ret (Some (Errorf "req ack" err))
          | None => ret None
          end
      end
  end.

Definition Stop (sw hw : bool) : M (option error) :=
  let* _ := connLeaveGroup GRP_ALERT in
  match dropFlags sw hw with
  | (_, Some err) => ret (Some (Errorf "encode" err))
  | (raw, None) =>
      let* err := req CMD_STOP raw false in
      match err with
      | Some err => ret (Some (Errorf "req" err))
      | None => ret None
      end
  end.

Definition Start (sw hw : bool) : M (option error) :=
  match dropFlags sw hw with
  | (_, Some err) => ret (Some (Errorf "encode" err))
  | (raw, None) =>
      let* err := setPacketMode in
      match err with
      | Some err => ret (Some (Errorf "packet mode" err))
      | None =>
          let* err := req CMD_START raw true in
          match err with
          | Some err => ret (Some (Errorf "req" err))
          | None =>
              let* (_, err) := connReceive in
              match err with
              | Some err =>
                  let* _ := Stop sw hw in
                  ret (Some (Errorf "req ack" err))
              | None =>
                  let* err := connJoinGroup GRP_ALERT in
                  match err with
                  | Some err =>
                      let* _ := Stop sw hw in
                      ret (Some (Errorf "join" err))
                  | None => ret None
                  end
              end
          end
      end
  end.

(** The [for _, m := range ms] loop of [ReadUntil].  [seen] are the
    alerts [f] has been called on; the result is [Some r] when the
    loop returns [r] from [ReadUntil], [None] when it runs to its
    end. *)
Fixpoint rangeMessages (f : PacketAlertFunc) (ms : list Message)
    (seen : list PacketAlert) : option (option error) * list PacketAlert :=
  match ms with
  | [] => (None, seen)
  | m :: ms' =>
      if negb (Command m =? CMD_PACKET_ALERT) then rangeMessages f ms' seen
      else
        match PacketAlertFromRaw (Data m) with
        | (_, Some err) => (Some (Some (Errorf "parse alert packet" err)), seen)
        | (pa, None) =>
            if negb (f seen pa) then (Some None, seen ++ [pa])
            else rangeMessages f ms' (seen ++ [pa])
        end
  end.

(** The [for] loop of [ReadUntil], for at most [fuel] rounds; the
    result is [None] when the loop is still running after them. *)
Fixpoint readLoop (fuel : nat) (deadline : Time) (f : PacketAlertFunc)
    (seen : list PacketAlert) : M (option (option error) * list PacketAlert) :=
  match fuel with
  | O => ret (None, seen)
  | S fuel' =>
      let* _ := (if negb (IsZero deadline) then connSetReadDeadline deadline
                else ret None) in
      let* (ms, err) := connReceive in
      match err with
      | Some err =>
          if isTimeout err then ret (Some None, seen)
          else ret (Some (Some (Errorf "recv" err)), seen)
      | None =>
          match rangeMessages f ms seen with
          | (Some r, seen') => ret (Some r, seen')
          | (None, seen') => readLoop fuel' deadline f seen'
          end
      end
  end.

Definition ReadUntil (fuel : nat) (deadline : Time) (f : PacketAlertFunc)
  : M (option (option error) * list PacketAlert) :=
  let* _ := connSetReadBuffer 4096 in
  readLoop fuel deadline f [].

End WithWorld.

(** ** Auxiliary notions for the statements *)

(** The session [s] with the log [c] on its connection. *)
Definition withConn (s : Session) (c : Conn) : Session :=
  mkSession c (fam s) (group s).

(** [nil] or the error wrapped by [fmt.Errorf(prefix + ": %w", err)]. *)
Definition wrap (prefix : string) (err : option error) : option error :=
  match err with
  | Some e => Some (Errorf prefix e)
  | None => None
  end.

(** Two sessions with the same family and group identifiers. *)
Definition sameIds (s s' : Session) : Prop :=
  fam s' = fam s /\ group s' = group s.

(** The flags of an acknowledged request. *)
Definition ackFlags : Z := Z.lor netlink.Request netlink.Acknowledge.

(** The bytes [Start], [Stop] and [setPacketMode] put in their requests. *)
Definition flagBytes (sw hw : bool) : list byte := fst (dropFlags sw hw).
Definition packetModeBytes : list byte := fst packetMode.

(** ** Malformed attribute streams *)

(** A byte stream that cannot be read to its end as attribute records:
    after some complete records comes a record that
    [netlink.unmarshal] refuses (fewer bytes than a header, a declared
    length beyond the bytes that are left, or below a header). *)
Inductive Truncated : list byte -> Prop :=
| Truncated_here (b : list byte) (e : error) :
    b <> [] -> netlink.unmarshal b = inr e -> Truncated b
| Truncated_later (b : list byte) (a : netlink.Attribute) :
    netlink.unmarshal b = inl a ->
    Truncated (sliceFrom b (netlink.advance a)) -> Truncated b.

(** A loop body that leaves the decoder's bytes and offset alone, as
    the accessors do. *)
Definition Framed {S : Type}
    (body : netlink.AttributeDecoder -> S -> netlink.AttributeDecoder * S) : Prop :=
  forall ad s,
    netlink.ad_b (fst (body ad s)) = netlink.ad_b ad /\
    netlink.ad_i (fst (body ad s)) = netlink.ad_i ad.

(** An attribute the encoder can marshal: a 16-bit type and data that
    fit the 16-bit length. *)
Definition fits (a : netlink.Attribute) : Prop :=
  0 <= netlink.Type_ a < 2 ^ 16 /\
  netlink.nlaHeaderLen + len (netlink.Data a) <= 0xffff.

(** The bytes of an alert that holds a program counter and a payload
    and nothing else. *)
Definition pcPayloadAlert (pc : Z) (payload : list byte) : list byte :=
  let enc := netlink.NewAttributeEncoder in
  let enc := netlink.encUint64 ATTR_PC pc enc in
  let enc := netlink.encBytes ATTR_PAYLOAD payload enc in
  fst (netlink.Encode enc).

(** ** The two states of a session

    The [Session] struct has no field for a monitoring state: whether
    the kernel is alerting and whether the socket is in the alert
    group is decided by the calls the connection has carried.  The
    state is read off its log: alerting is on once a CMD_START request
    was accepted and its reply received, and off once a CMD_STOP
    request was accepted; the group is joined by a JoinGroup that
    returned nil and left by a LeaveGroup that returned nil.  (Which
    of the two drop flags a request carries is not tracked.) *)

Record Tracked : Type := mkTracked {
  alerting : bool;      (* kernel-side alerting enabled *)
  joined : bool;        (* socket in the alert group *)
  starting : bool       (* CMD_START accepted, reply not yet received *)
}.

Definition track (t : Tracked) (c : Call) : Tracked :=
  match c with
  | Send m _ _ None =>
      if Command m =? CMD_START then mkTracked (alerting t) (joined t) true
      else if Command m =? CMD_STOP then mkTracked false (joined t) false
      else mkTracked (alerting t) (joined t) false
  | Receive _ None =>
      if starting t then mkTracked true (joined t) false else t
  | Receive _ (Some _) => mkTracked (alerting t) (joined t) false
  | JoinGroup g None =>
      if g =? GRP_ALERT then mkTracked (alerting t) true (starting t) else t
  | LeaveGroup g None =>
      if g =? GRP_ALERT then mkTracked (alerting t) false (starting t) else t
  | _ => t
  end.

Definition tracked (c : Conn) : Tracked :=
  fold_left track c (mkTracked false false false).

Inductive State : Type :=
| Idle            (* not alerting, group not joined *)
| Monitoring      (* alerting, group joined *)
| HalfStarted.    (* one without the other *)

Definition stateOf (c : Conn) : State :=
  match alerting (tracked c), joined (tracked c) with
  | false, false => Idle
  | true, true => Monitoring
  | _, _ => HalfStarted
  end.

(** ** What a read loop has received *)



(** The log after the [SetReadDeadline] a round of the loop makes when
    the deadline is not the zero Time. *)
Definition armed (w : World) (deadline : Time) (c : Conn) : Conn :=
  if IsZero deadline then c
  else c ++ [SetReadDeadline deadline (onSetReadDeadline w c deadline)].



(** ** Examples: streams, alerts, worlds, callbacks *)

(** A stream of two records: a complete program counter, then a
    payload record that declares 60 bytes where 8 are left. *)
Definition truncatedAlert : list byte :=
  map byte.of_Z [12; 0; 2; 0;  1; 2; 3; 4; 5; 6; 7; 8;
                 60; 0; 7; 0;  9; 9; 9; 9].

(** Alerts used as examples below. *)
Definition emptyAlert : PacketAlert := mkPacketAlert (Some ∅).
Definition alertWithProto (p : Z) : PacketAlert :=
  mkPacketAlert (Some (<[ATTR_PROTO := VUint16 p]> ∅)).
Definition alertWithPayload (b : list byte) : PacketAlert :=
  mkPacketAlert (Some (<[ATTR_PAYLOAD := VBytes b]> ∅)).

Definition payload10 : list byte := map byte.of_Z [0; 1; 2; 3; 4; 5; 6; 7; 8; 9].
Definition payload20 : list byte :=
  map byte.of_Z [0; 1; 2; 3; 4; 5; 6; 7; 8; 9; 10; 11; 12; 13; 14; 15; 16; 17; 18; 19].

Definition NET_DM : Family :=
  mkFamily 0x1f 2 "NET_DM" [mkGroup 1 "events"].

Definition idleSession : Session := mkSession [] 0x1f 1.

(** Every call succeeds; nothing is ever received. *)
Definition quietWorld : World :=
  mkWorld None (fun _ _ => (NET_DM, None)) (fun _ _ _ _ => None)
    (fun _ => ([], None)) (fun _ _ => None) (fun _ _ => None)
    (fun _ _ => None) (fun _ _ => None).

(** The socket is gone: sending and leaving the group fail. *)
Definition closedWorld : World :=
  mkWorld None (fun _ _ => (NET_DM, None))
    (fun _ _ _ _ => Some (PlainError "use of closed file"))
    (fun _ => ([], None)) (fun _ _ => None)
    (fun _ _ => Some (PlainError "use of closed file"))
    (fun _ _ => None) (fun _ _ => None).

(** Requests are accepted, leaving the group fails. *)
Definition noLeaveWorld : World :=
  mkWorld None (fun _ _ => (NET_DM, None)) (fun _ _ _ _ => None)
    (fun _ => ([], None)) (fun _ _ => None)
    (fun _ _ => Some (PlainError "no such file or directory"))
    (fun _ _ => None) (fun _ _ => None).

(** The join fails after the start was acknowledged, and the socket
    refuses the CMD_STOP of the rollback. *)
Definition refusingWorld : World :=
  mkWorld None (fun _ _ => (NET_DM, None))
    (fun _ m _ _ => if Command m =? CMD_STOP
                    then Some (PlainError "no buffer space available") else None)
    (fun _ => ([], None))
    (fun _ _ => Some (PlainError "no buffer space available"))
    (fun _ _ => None) (fun _ _ => None) (fun _ _ => None).

(** The join fails once, on the first attempt. *)
Definition joinFailsOnceWorld : World :=
  mkWorld None (fun _ _ => (NET_DM, None)) (fun _ _ _ _ => None)
    (fun _ => ([], None))
    (fun c _ => if existsb (fun x => match x with JoinGroup _ _ => true | _ => false end) c
                then None else Some (PlainError "no buffer space available"))
    (fun _ _ => None) (fun _ _ => None) (fun _ _ => None).

(** The reply to CMD_CONFIG_GET is one message with the three
    configuration attributes. *)
Definition configWorld : World :=
  mkWorld None (fun _ _ => (NET_DM, None)) (fun _ _ _ _ => None)
    (fun _ => ([mkMessage CMD_CONFIG_NEW 2 packetModeBytes], None))
    (fun _ _ => None) (fun _ _ => None) (fun _ _ => None) (fun _ _ => None).

(** The lookup finds a family with two groups. *)
Definition martianWorld : World :=
  mkWorld None
    (fun _ _ => (mkFamily 0x1f 2 "NET_DM" [mkGroup 1 "events"; mkGroup 2 "more"], None))
    (fun _ _ _ _ => None) (fun _ => ([], None)) (fun _ _ => None)
    (fun _ _ => None) (fun _ _ => None) (fun _ _ => None).


(** The answers to the successive Receive calls are scripted; after
    the script, every Receive times out. *)
Definition receives (c : Conn) : nat :=
  length (List.filter (fun x => match x with Receive _ _ => true | _ => false end) c).

Definition scriptedWorld (script : list (list Message * option error)) : World :=
  mkWorld None (fun _ _ => (NET_DM, None)) (fun _ _ _ _ => None)
    (fun c => nth (receives c) script ([], Some (NetError true "i/o timeout")))
    (fun _ _ => None) (fun _ _ => None) (fun _ _ => None) (fun _ _ => None).

(** Example messages: a summary alert (not a packet alert), and two
    packet alerts. *)
Definition summaryMessage : Message := mkMessage CMD_ALERT 2 [].
Definition packetMessage1 : Message :=
  mkMessage CMD_PACKET_ALERT 2 (pcPayloadAlert 0xffffffff81000010 [Byte.x45; Byte.x00]).
Definition packetMessage2 : Message :=
  mkMessage CMD_PACKET_ALERT 2 (pcPayloadAlert 0xffffffff81000020 [Byte.x60]).
Definition badPacketMessage : Message :=
  mkMessage CMD_PACKET_ALERT 2 truncatedAlert.

(** Callbacks: go on for ever; stop at the second alert. *)
Definition always : PacketAlertFunc := fun _ _ => true.
Definition upTo2 : PacketAlertFunc := fun seen _ => (length seen <? 1)%nat.

(** ** Streams of encoded records

    What the decoders do on a stream that is a sequence of marshalled
    attributes, told record by record. *)

(** The bytes of a sequence of attributes ([netlink.MarshalAttributes]). *)
Definition encodeRecords (records : list netlink.Attribute) : list byte :=
  concat (map netlink.marshal records).

(** The attribute [netlink.unmarshal] reads back from [netlink.marshal a]. *)
Definition asRead (a : netlink.Attribute) : netlink.Attribute :=
  netlink.mkAttribute (netlink.nlaHeaderLen + len (netlink.Data a))
    (netlink.Type_ a) (netlink.Data a).

(** What a loop body does with the attribute [a]: the error it leaves
    in the decoder, and the new state. *)
Definition stepOf {S : Type}
    (body : netlink.AttributeDecoder -> S -> netlink.AttributeDecoder * S)
    (a : netlink.Attribute) (s : S) : option error * S :=
  let '(ad, s') := body (netlink.mkDecoder [] 0 a None) s in
  (netlink.ad_err ad, s').

(** The body applied to the records in turn, up to the first error. *)
Fixpoint runRecords {S : Type}
    (body : netlink.AttributeDecoder -> S -> netlink.AttributeDecoder * S)
    (records : list netlink.Attribute) (s : S) : option error * S :=
  match records with
  | [] => (None, s)
  | a :: rest =>
      match stepOf body (asRead a) s with
      | (Some e, s') => (Some e, s')
      | (None, s') => runRecords body rest s'
      end
  end.

(** A loop body that looks at the current attribute only, and changes
    nothing of the decoder but its error. *)
Definition PlaceFree {S : Type}
    (body : netlink.AttributeDecoder -> S -> netlink.AttributeDecoder * S) : Prop :=
  forall b i a s,
    body (netlink.mkDecoder b i a None) s
      = (netlink.mkDecoder b i a (fst (stepOf body a s)), snd (stepOf body a s)).

(** Records as the kernel writes them: scalars in native byte order,
    strings with their terminating NUL, nested records as the bytes of
    the inner records. *)
Definition uintRecord (n : nat) (typ v : Z) : netlink.Attribute :=
  netlink.mkAttribute 0 typ (netlink.nlencPutUint n v).
Definition bytesRecord (typ : Z) (b : list byte) : netlink.Attribute :=
  netlink.mkAttribute 0 typ b.
Definition stringRecord (typ : Z) (s : list byte) : netlink.Attribute :=
  netlink.mkAttribute 0 typ (s ++ [Byte.x00]).
Definition nestedRecord (typ : Z) (inner : list netlink.Attribute) : netlink.Attribute :=
  netlink.mkAttribute 0 typ (encodeRecords inner).

(** The attribute types [decodeAlert] stores a value for, and the
    width of those it reads as a number. *)
Definition handledByAlert (typ : Z) : bool :=
  existsb (Z.eqb (Z.land typ netlink.attrTypeMask))
    [ATTR_PC; ATTR_SYMBOL; ATTR_IN_PORT; ATTR_TIMESTAMP; ATTR_PROTO;
     ATTR_PAYLOAD; ATTR_ORIG_LEN; ATTR_ORIGIN].

Definition alertWidth (typ : Z) : option Z :=
  let t := Z.land typ netlink.attrTypeMask in
  if (t =? ATTR_PC) || (t =? ATTR_TIMESTAMP) then Some 8
  else if (t =? ATTR_PROTO) || (t =? ATTR_ORIGIN) then Some 2
  else if t =? ATTR_ORIG_LEN then Some 4
  else None.

(** The attribute types [decodeConfig] stores a value for. *)
Definition handledByConfig (typ : Z) : bool :=
  existsb (Z.eqb (Z.land typ netlink.attrTypeMask))
    [ATTR_ALERT_MODE; ATTR_TRUNC_LEN; ATTR_QUEUE_LEN].

(** An alert as the kernel fills it: origin, program counter, symbol,
    input port (interface index and name), timestamp, original length,
    protocol, payload. *)
Definition alertRecords (origin pc : Z) (symbol : list byte) (ifindex : Z)
    (ifname : list byte) (timestamp origlen proto : Z) (payload : list byte)
  : list netlink.Attribute :=
  [uintRecord 2 ATTR_ORIGIN origin;
   uintRecord 8 ATTR_PC pc;
   stringRecord ATTR_SYMBOL symbol;
   nestedRecord ATTR_IN_PORT
     [uintRecord 4 NATTR_PORT_NETDEV_IFINDEX ifindex;
      stringRecord NATTR_PORT_NETDEV_NAME ifname];
   uintRecord 8 ATTR_TIMESTAMP timestamp;
   uintRecord 4 ATTR_ORIG_LEN origlen;
   uintRecord 2 ATTR_PROTO proto;
   bytesRecord ATTR_PAYLOAD payload].

(** A configuration reply as the kernel fills it. *)
Definition configRecords (mode trunc queue : Z) : list netlink.Attribute :=
  [uintRecord 1 ATTR_ALERT_MODE mode;
   uintRecord 4 ATTR_TRUNC_LEN trunc;
   uintRecord 4 ATTR_QUEUE_LEN queue].

(** The dynamic type and the range of the value [decodeAlert] stores
    under each key. *)
Definition portValueOK (k : Z) (v : Value) : Prop :=
  if k =? NATTR_PORT_NETDEV_IFINDEX then exists n, v = VUint32 n /\ 0 <= n < 2 ^ 32
  else if k =? NATTR_PORT_NETDEV_NAME then exists s, v = VString s
  else False.

Definition alertValueOK (k : Z) (v : Value) : Prop :=
  if k =? ATTR_PC then exists n, v = VUint64 n /\ 0 <= n < 2 ^ 64
  else if k =? ATTR_SYMBOL then exists s, v = VString s
  else if k =? ATTR_IN_PORT then
    exists a, v = VMap a /\ forall k' v', a !! k' = Some v' -> portValueOK k' v'
  else if k =? ATTR_TIMESTAMP then exists n, v = VUint64 n /\ 0 <= n < 2 ^ 64
  else if k =? ATTR_PROTO then exists n, v = VUint16 n /\ 0 <= n < 2 ^ 16
  else if k =? ATTR_PAYLOAD then exists b, v = VBytes b
  else if k =? ATTR_ORIG_LEN then exists n, v = VUint32 n /\ 0 <= n < 2 ^ 32
  else if k =? ATTR_ORIGIN then exists n, v = VUint16 n /\ 0 <= n < 2 ^ 16
  else False.

Definition WellTyped (OK : Z -> Value -> Prop) (m : gmap Z Value) : Prop :=
  forall k v, m !! k = Some v -> OK k v.

(** The width of the attributes [decodeConfig] reads as a number. *)
Definition configWidth (typ : Z) : option Z :=
  let t := Z.land typ netlink.attrTypeMask in
  if t =? ATTR_ALERT_MODE then Some 1
  else if (t =? ATTR_TRUNC_LEN) || (t =? ATTR_QUEUE_LEN) then Some 4
  else None.

(** The reply to CMD_CONFIG_GET is a malformed attribute stream. *)
Definition malformedReplyWorld : World :=
  mkWorld None (fun _ _ => (NET_DM, None)) (fun _ _ _ _ => None)
    (fun _ => ([mkMessage CMD_CONFIG_NEW 2 truncatedAlert], None))
    (fun _ _ => None) (fun _ _ => None) (fun _ _ => None) (fun _ _ => None).

(** ** Calls of the session methods *)

(** The calls [Config], [Start] and [Stop] make on a session of family
    [family]: requests to that family with one of their four commands,
    receives, and joining or leaving the alert group. *)
Definition sessionCall (family : Z) (c : Call) : Prop :=
  match c with
  | Send m f flags _ =>
      f = family /\ Z.land flags netlink.Request = netlink.Request /\
      Version m = 0 /\
      (Command m = CMD_CONFIG \/ Command m = CMD_START \/ Command m = CMD_STOP \/
       Command m = CMD_CONFIG_GET)
  | Receive _ _ => True
  | JoinGroup g _ => g = GRP_ALERT
  | LeaveGroup g _ => g = GRP_ALERT
  | _ => False
  end.

(** The calls of the rounds of [ReadUntil]: a Receive, with the read
    deadline set right before it unless the deadline is the zero Time. *)
Inductive Rounds (deadline : Time) : list Call -> Prop :=
| Rounds_nil : Rounds deadline []
| Rounds_receive (ms : list Message) (e : option error) (rest : list Call) :
    IsZero deadline = true -> Rounds deadline rest ->
    Rounds deadline (Receive ms e :: rest)
| Rounds_deadline (r : option error) (ms : list Message) (e : option error)
    (rest : list Call) :
    IsZero deadline = false -> Rounds deadline rest ->
    Rounds deadline (SetReadDeadline deadline r :: Receive ms e :: rest).

(** Every alert of [seen] on which [f] was called got the answer true. *)
Definition AllTrue (f : PacketAlertFunc) (seen : list PacketAlert) : Prop :=
  forall pre pa post, seen = pre ++ pa :: post -> f pre pa = true.

(** The same, but for the last alert. *)
Definition TrueButLast (f : PacketAlertFunc) (seen : list PacketAlert) : Prop :=
  forall pre pa post, seen = pre ++ pa :: post -> post <> [] -> f pre pa = true.

(** Two sessions that differ at most in their group identifier. *)
Definition sameButGroup (s s' : Session) : Prop :=
  conn s = conn s' /\ fam s = fam s'.

(** The error [e], if any, was made by [fmt.Errorf] with one of the
    prefixes [ps] and the verb %w. *)
Definition prefixed (ps : list string) (e : option error) : Prop :=
  match e with
  | None => True
  | Some (Errorf p _) => In p ps
  | Some _ => False
  end.

(** ** ifaces.go: the interface list

    [LinkList] asks package rtnetlink for the links of the host.  That
    package is not part of the repository: a world gives what its
    three calls return. *)

Module rtnetlink.

Record LinkAttributes : Type := mkLinkAttributes {
  Name : string
}.

(** [LinkMessage]: [Attributes] is a pointer, nil in a message that
    carried no attributes. *)
Record LinkMessage : Type := mkLinkMessage {
  Index : Z;                                (* uint32 *)
  Attributes : option LinkAttributes
}.

Inductive Call : Type :=
| Dial (r : option error)
| List (msg : list LinkMessage) (r : option error)
| Close (r : option error).

Record World : Type := mkWorld {
  onDial : option error;
  onList : list LinkMessage * option error;
  onClose : option error
}.

End rtnetlink.

(** [for _, link := range msg { ret[link.Index] = link.Attributes.Name }] *)
Fixpoint rangeLinks (msg : list rtnetlink.LinkMessage) (ret : gmap Z string)
  : outcome (gmap Z string) :=
  match msg with
  | [] => Ok ret
  | link :: rest =>
      match rtnetlink.Attributes link with
      | None => Panic "invalid memory address or nil pointer dereference"
      | Some a => rangeLinks rest (<[rtnetlink.Index link := rtnetlink.Name a]> ret)
      end
  end.

(** [LinkList], with the calls it makes; the deferred [conn.Close()]
    runs on every way out once the dial has succeeded, a panic
    included. *)
Definition LinkList (w : rtnetlink.World)
  : outcome (option (gmap Z string) * option error) * list rtnetlink.Call :=
  match rtnetlink.onDial w with
  | Some err => (Ok (None, Some (Errorf "link list" err)), [rtnetlink.Dial (Some err)])
  | None =>
      let deferred := [rtnetlink.Close (rtnetlink.onClose w)] in
      match rtnetlink.onList w with
      | (msg, Some err) =>
          (Ok (None, Some (Errorf "link list" err)),
           [rtnetlink.Dial None; rtnetlink.List msg (Some err)] ++ deferred)
      | (msg, None) =>
          (match rangeLinks msg ∅ with
           | Ok ret => Ok (Some ret, None)
           | Panic why => Panic why
           end,
           [rtnetlink.Dial None; rtnetlink.List msg None] ++ deferred)
      end
  end.

(** The last link of [msg] with index [i]. *)
Definition lastLink (msg : list rtnetlink.LinkMessage) (i : Z)
  : option rtnetlink.LinkMessage :=
  find (fun l => rtnetlink.Index l =? i) (rev msg).

Definition hasAttributes (l : rtnetlink.LinkMessage) : bool :=
  match rtnetlink.Attributes l with Some _ => true | None => false end.

(** Two loopback-and-ethernet answers: a well-formed one (index 2 is
    listed twice), and one with a link without attributes. *)
Definition twoLinks : list rtnetlink.LinkMessage :=
  [rtnetlink.mkLinkMessage 1 (Some (rtnetlink.mkLinkAttributes "lo"));
   rtnetlink.mkLinkMessage 2 (Some (rtnetlink.mkLinkAttributes "eth0"));
   rtnetlink.mkLinkMessage 2 (Some (rtnetlink.mkLinkAttributes "wan0"))].
Definition linkWorld : rtnetlink.World := rtnetlink.mkWorld None (twoLinks, None) None.

(** The map the earlier [decodeAlert] builds where the later one
    builds [m]: under ATTR_TIMESTAMP it holds the method value. *)
Definition timestampAsMethod (m : gmap Z Value) : gmap Z Value :=
  alter (fun _ => VFunc "dec.Uint64") ATTR_TIMESTAMP m.

(** An alert with a timestamp and a protocol. *)
Definition timedAlert : list byte :=
  encodeRecords [uintRecord 8 ATTR_TIMESTAMP 1700000000; uintRecord 2 ATTR_PROTO 0x0800].

(** ** The earlier session methods of netlink.go

    The earlier revision's [req] has no acknowledge parameter, its
    [Start] and [Stop] only send their request, and its
    [decodeConfig] does not ask the decoder for its error. *)

Module EarlierSession.

Section WithWorld.

Variable w : World.

Definition decodeConfig (raw : list byte) : decoded :=
  match netlink.NewAttributeDecoder raw with
  | (_, Some err) => (None, Some (Errorf "decode" err))
  | (dec, None) =>
      match netlink.forNext (S (length raw)) decodeConfig_body dec ∅ with
      | Some (_, ret) => (Some ret, None)
      | None => (None, None)
      end
  end.

Definition req (cmd : Z) (data : list byte) : M (option error) :=
  fun s => connSend w (mkMessage cmd 0 data) (fam s) netlink.Request s.

Definition Config : M (outcome decoded) :=
  let* err := req CMD_CONFIG_GET [] in
  match err with
  | Some err => ret (Ok (None, Some (Errorf "config" err)))
  | None =>
      let* (ms, err) := connReceive w in
      match err with
      | Some err => ret (Ok (None, Some (Errorf "config" err)))
      | None =>
          match ms with
          | [] => ret (Panic "index out of range [0] with length 0")
          | m0 :: _ =>
              match decodeConfig (Data m0) with
              | (_, Some err) => ret (Ok (None, Some (Errorf "config" err)))
              | (conf, None) => ret (Ok (conf, None))
              end
          end
      end
  end.

Definition Start (sw hw : bool) : M (option error) :=
  match dropFlags sw hw with
  | (_, Some err) => ret (Some (Errorf "encode" err))
  | (raw, None) => req CMD_START raw
  end.

Definition Stop (sw hw : bool) : M (option error) :=
  match dropFlags sw hw with
  | (_, Some err) => ret (Some (Errorf "encode" err))
  | (raw, None) => req CMD_STOP raw
  end.

End WithWorld.

End EarlierSession.

(** * Properties *)

(** ** The attribute codec *)

Lemma len_nonneg {A : Type} (b : list A) : 0 <= len b.
Proof. unfold len. lia. Qed.

Lemma len_app {A : Type} (a b : list A) : len (a ++ b) = len a + len b.
Proof. unfold len. rewrite length_app. lia. Qed.

Lemma nlaAlign_eq (n : Z) : netlink.nlaAlign n = 4 * ((n + 3) / 4).
Proof.
  unfold netlink.nlaAlign, netlink.nlaAlignTo.
  replace (n + 4 - 1) with (n + 3) by lia.
  change (4 - 1) with (Z.ones 2).
  rewrite <- Z.ldiff_land, Z.ldiff_ones_r by lia.
  rewrite Z.shiftr_div_pow2, Z.shiftl_mul_pow2 by lia.
  change (2 ^ 2) with 4. lia.
Qed.

Lemma nlaAlign_bounds (n : Z) : n <= netlink.nlaAlign n < n + 4.
Proof. rewrite nlaAlign_eq. Z.div_mod_to_equations. lia. Qed.

Lemma nlencUint_nonneg (b : list byte) : 0 <= netlink.nlencUint b.
Proof.
  unfold netlink.nlencUint. pose proof (le_combine_bound b). lia.
Qed.

Lemma advance_ge (a : netlink.Attribute) : 4 <= netlink.advance a.
Proof.
  unfold netlink.advance, netlink.nlaHeaderLen.
  destruct (Z.ltb_spec (netlink.Length a) 4); [lia|].
  pose proof (nlaAlign_bounds (netlink.Length a)). lia.
Qed.

(** What a successful [Next] leaves: the same bytes, an offset at
    least a header further, no error. *)
Lemma Next_true (ad ad' : netlink.AttributeDecoder) :
  netlink.Next ad = (true, ad') ->
  exists a,
    netlink.ad_err ad = None /\
    netlink.ad_i ad < len (netlink.ad_b ad) /\
    netlink.unmarshal (sliceFrom (netlink.ad_b ad) (netlink.ad_i ad)) = inl a /\
    ad' = netlink.mkDecoder (netlink.ad_b ad)
            (netlink.ad_i ad + netlink.advance a) a None.
Proof.
  unfold netlink.Next. intros H.
  destruct (netlink.ad_err ad); [discriminate|].
  destruct (Z.leb_spec (len (netlink.ad_b ad)) (netlink.ad_i ad)); [discriminate|].
  destruct (netlink.unmarshal _) as [a|e]; [|discriminate].
  exists a. inversion H. auto.
Qed.

(** What an unsuccessful [Next] leaves: the bytes and the offset, and
    an error unless the offset is at the end. *)
Lemma Next_false (ad ad' : netlink.AttributeDecoder) :
  netlink.Next ad = (false, ad') ->
  netlink.ad_b ad' = netlink.ad_b ad /\
  netlink.ad_i ad' = netlink.ad_i ad /\
  (netlink.ad_err ad' = netlink.ad_err ad \/
   (netlink.ad_err ad = None /\ exists e, netlink.ad_err ad' = Some e /\
      netlink.unmarshal (sliceFrom (netlink.ad_b ad) (netlink.ad_i ad)) = inr e)).
Proof.
  unfold netlink.Next. intros H.
  destruct (netlink.ad_err ad) eqn:E.
  - inversion H; subst. rewrite E. auto.
  - destruct (Z.leb_spec (len (netlink.ad_b ad)) (netlink.ad_i ad)).
    + inversion H; subst. rewrite E. auto.
    + destruct (netlink.unmarshal _) as [a|e] eqn:U; [discriminate|].
      inversion H; subst. simpl. repeat split. right. split; [reflexivity|].
      exists e. auto.
Qed.

(** The loop ends: more rounds than bytes left are never needed. *)
Lemma forNext_total {S : Type}
    (body : netlink.AttributeDecoder -> S -> netlink.AttributeDecoder * S) :
  Framed body ->
  forall fuel ad s,
    (Z.to_nat (len (netlink.ad_b ad) - netlink.ad_i ad) < fuel)%nat ->
    exists r, netlink.forNext fuel body ad s = Some r.
Proof.
  intros HF. induction fuel as [|fuel IH]; intros ad s Hlt; [lia|].
  simpl. destruct (netlink.Next ad) as [more ad1] eqn:EN.
  destruct more; [|eauto].
  apply Next_true in EN as (a & _ & Hi & _ & ->).
  destruct (body _ s) as [ad2 s2] eqn:EB.
  destruct (HF (netlink.mkDecoder (netlink.ad_b ad)
                  (netlink.ad_i ad + netlink.advance a) a None) s) as [Hb Hi2].
  rewrite EB in Hb, Hi2. simpl in Hb, Hi2.
  apply IH. rewrite Hb, Hi2. pose proof (advance_ge a). lia.
Qed.

(** More fuel does not change a result. *)
Lemma forNext_more {S : Type}
    (body : netlink.AttributeDecoder -> S -> netlink.AttributeDecoder * S) :
  forall fuel fuel' ad s r,
    netlink.forNext fuel body ad s = Some r -> (fuel <= fuel')%nat ->
    netlink.forNext fuel' body ad s = Some r.
Proof.
  induction fuel as [|fuel IH]; intros fuel' ad s r H Hle; [discriminate|].
  destruct fuel' as [|fuel']; [lia|].
  simpl in *. destruct (netlink.Next ad) as [more ad1].
  destruct more; [|assumption].
  destruct (body ad1 s) as [ad2 s2]. apply IH with (fuel' := fuel') in H; [assumption|lia].
Qed.

Lemma UintN_framed (n : nat) (ad : netlink.AttributeDecoder) :
  netlink.ad_b (snd (netlink.UintN n ad)) = netlink.ad_b ad /\
  netlink.ad_i (snd (netlink.UintN n ad)) = netlink.ad_i ad.
Proof.
  unfold netlink.UintN.
  destruct (netlink.ad_err ad); [auto|].
  destruct (_ =? _); auto.
Qed.

Lemma Nested_framed {S : Type}
    (body : netlink.AttributeDecoder -> S -> netlink.AttributeDecoder * S)
    (ad : netlink.AttributeDecoder) (s : S) :
  netlink.ad_b (fst (netlink.Nested body ad s)) = netlink.ad_b ad /\
  netlink.ad_i (fst (netlink.Nested body ad s)) = netlink.ad_i ad.
Proof.
  unfold netlink.Nested.
  destruct (netlink.ad_err ad); [auto|].
  unfold netlink.NewAttributeDecoder.
  match goal with
  | |- context [netlink.forNext ?n ?b ?d ?x] =>
      destruct (netlink.forNext n b d x) as [[nad' s']|]; [|auto]
  end.
  destruct (netlink.Err nad'); auto.
Qed.

Ltac framed_uint n dec :=
  let H := fresh in
  pose proof (UintN_framed n dec) as H;
  unfold netlink.Uint8, netlink.Uint16, netlink.Uint32, netlink.Uint64;
  destruct (netlink.UintN n dec); exact H.

Lemma decodeConfig_body_framed : Framed decodeConfig_body.
Proof.
  intros dec ret. unfold decodeConfig_body.
  destruct (_ =? ATTR_ALERT_MODE); [framed_uint 1%nat dec|].
  destruct (_ =? ATTR_TRUNC_LEN); [framed_uint 4%nat dec|].
  destruct (_ =? ATTR_QUEUE_LEN); [framed_uint 4%nat dec|].
  auto.
Qed.

Lemma decodeAlert_port_body_framed : Framed decodeAlert_port_body.
Proof.
  intros d a. unfold decodeAlert_port_body.
  destruct (_ =? NATTR_PORT_NETDEV_IFINDEX); [framed_uint 4%nat d|].
  destruct (_ =? NATTR_PORT_NETDEV_NAME); auto.
Qed.

Lemma decodeAlert_body_framed : Framed decodeAlert_body.
Proof.
  intros dec ret. unfold decodeAlert_body.
  destruct (_ =? ATTR_PC); [framed_uint 8%nat dec|].
  destruct (_ =? ATTR_SYMBOL); [auto|].
  destruct (_ =? ATTR_IN_PORT).
  { pose proof (Nested_framed decodeAlert_port_body dec ∅) as H.
    destruct (netlink.Nested _ _ _). exact H. }
  destruct (_ =? ATTR_TIMESTAMP); [framed_uint 8%nat dec|].
  destruct (_ =? ATTR_PROTO); [framed_uint 2%nat dec|].
  destruct (_ =? ATTR_PAYLOAD); [auto|].
  destruct (_ =? ATTR_ORIG_LEN); [framed_uint 4%nat dec|].
  destruct (_ =? ATTR_ORIGIN); [framed_uint 2%nat dec|].
  auto.
Qed.

Lemma sliceFrom_sliceFrom {A : Type} (b : list A) (i j : Z) :
  0 <= i -> 0 <= j -> sliceFrom (sliceFrom b i) j = sliceFrom b (i + j).
Proof.
  intros Hi Hj. unfold sliceFrom. rewrite skipn_skipn. f_equal. lia.
Qed.

(** Once the bytes from the decoder's offset on are malformed, or the
    decoder already has an error, the loop ends with an error. *)
Lemma forNext_truncated {S : Type}
    (body : netlink.AttributeDecoder -> S -> netlink.AttributeDecoder * S) :
  Framed body ->
  forall fuel ad s ad' s',
    0 <= netlink.ad_i ad ->
    Truncated (sliceFrom (netlink.ad_b ad) (netlink.ad_i ad))
      \/ netlink.ad_err ad <> None ->
    netlink.forNext fuel body ad s = Some (ad', s') ->
    netlink.ad_err ad' <> None.
Proof.
  intros HF. induction fuel as [|fuel IH]; intros ad s ad' s' Hi Hbad H;
    [discriminate|].
  simpl in H. destruct (netlink.Next ad) as [more ad1] eqn:EN.
  destruct more.
  - apply Next_true in EN as (a & Herr & Hlt & Hun & ->).
    destruct (body _ s) as [ad2 s2] eqn:EB.
    destruct (HF (netlink.mkDecoder (netlink.ad_b ad)
                    (netlink.ad_i ad + netlink.advance a) a None) s) as [Hb Hi2].
    rewrite EB in Hb, Hi2. simpl in Hb, Hi2.
    pose proof (advance_ge a).
    apply (IH ad2 s2 ad' s'); [lia| |exact H].
    destruct Hbad as [Ht|Hne]; [|congruence].
    left. rewrite Hb, Hi2.
    inversion Ht as [b e Hnil Hun'|b a' Hun' Hrest]; subst.
    + congruence.
    + rewrite Hun in Hun'. inversion Hun'; subst a'.
      rewrite sliceFrom_sliceFrom in Hrest by lia. exact Hrest.
  - inversion H; subst ad' s'. clear H.
    unfold netlink.Next in EN.
    destruct (netlink.ad_err ad) eqn:Herr; [inversion EN; subst; congruence|].
    destruct Hbad as [Ht|Hne]; [|congruence].
    destruct (Z.leb_spec (len (netlink.ad_b ad)) (netlink.ad_i ad)) as [Hend|Hin].
    + (* the offset is at the end: nothing is left to be malformed *)
      exfalso. unfold sliceFrom in Ht.
      rewrite skipn_all2 in Ht by (unfold len in Hend; lia).
      inversion Ht as [b e Hnil Hun'|b a' Hun' Hrest]; subst;
        [congruence|discriminate].
    + destruct (netlink.unmarshal _) as [a|e]; [discriminate|].
      inversion EN; subst. simpl. discriminate.
Qed.

(** The bound on the rounds is never reached: the decoders always
    come back with a set or with an error, and so does the loop inside
    [Nested]. *)
Lemma forNext_new_total {S : Type}
    (body : netlink.AttributeDecoder -> S -> netlink.AttributeDecoder * S)
    (raw : list byte) (s : S) :
  Framed body ->
  exists r, netlink.forNext (Datatypes.S (length raw)) body
              (fst (netlink.NewAttributeDecoder raw)) s = Some r.
Proof.
  intros HF. apply forNext_total; [exact HF|]. cbn. unfold len. lia.
Qed.

Lemma decodeAlert_returns (raw : list byte) :
  (exists ret, decodeAlert raw = (Some ret, None)) \/
  (exists err, decodeAlert raw = (None, Some err)).
Proof.
  unfold decodeAlert.
  destruct (forNext_new_total decodeAlert_body raw ∅ decodeAlert_body_framed)
    as [[dec ret] H].
  cbn [netlink.NewAttributeDecoder fst] in *. rewrite H. cbn [decode_finish].
  destruct (netlink.Err dec); eauto.
Qed.

Lemma decodeConfig_returns (raw : list byte) :
  (exists ret, decodeConfig raw = (Some ret, None)) \/
  (exists err, decodeConfig raw = (None, Some err)).
Proof.
  unfold decodeConfig.
  destruct (forNext_new_total decodeConfig_body raw ∅ decodeConfig_body_framed)
    as [[dec ret] H].
  cbn [netlink.NewAttributeDecoder fst] in *. rewrite H. cbn [decode_finish].
  destruct (netlink.Err dec); eauto.
Qed.

(** ** Reading back what the encoder wrote *)

Lemma le_split_2 (v : Z) : exists x y, le_split 2 v = [x; y].
Proof.
  pose proof (length_le_split 2 v) as H.
  destruct (le_split 2 v) as [|x [|y [|z t]]]; try discriminate. eauto.
Qed.

Lemma nlencUint_Put (n : nat) (v : Z) :
  0 <= v < 2 ^ (Z.of_nat n * 8) ->
  netlink.nlencUint (netlink.nlencPutUint n v) = v.
Proof.
  intros H. unfold netlink.nlencUint, netlink.nlencPutUint.
  rewrite le_combine_split. apply Z.mod_small. exact H.
Qed.

Lemma nlaAlign_header (n : Z) :
  netlink.nlaAlign (netlink.nlaHeaderLen + n) = netlink.nlaHeaderLen + netlink.nlaAlign n.
Proof.
  unfold netlink.nlaHeaderLen. rewrite !nlaAlign_eq.
  Z.div_mod_to_equations. lia.
Qed.

Lemma len_marshal (a : netlink.Attribute) :
  len (netlink.marshal a)
    = netlink.nlaHeaderLen + netlink.nlaAlign (len (netlink.Data a)).
Proof.
  unfold netlink.marshal, netlink.padding, netlink.nlencPutUint, netlink.nlaHeaderLen.
  rewrite !len_app. unfold len.
  rewrite !length_le_split, repeat_length.
  pose proof (nlaAlign_bounds (Z.of_nat (length (netlink.Data a)))). lia.
Qed.

(** [unmarshal] reads a marshalled attribute back, whatever follows it. *)
Lemma unmarshal_marshal (a : netlink.Attribute) (rest : list byte) :
  fits a ->
  netlink.unmarshal (netlink.marshal a ++ rest)
    = inl (netlink.mkAttribute (netlink.nlaHeaderLen + len (netlink.Data a))
             (netlink.Type_ a) (netlink.Data a)).
Proof.
  intros [Ht Hl]. unfold netlink.nlaHeaderLen in *.
  pose proof (len_nonneg (netlink.Data a)) as Hd.
  assert (HL : netlink.nlencUint (netlink.nlencPutUint 2 (4 + len (netlink.Data a)))
               = 4 + len (netlink.Data a)).
  { apply nlencUint_Put. change (2 ^ (Z.of_nat 2 * 8)) with 65536. lia. }
  assert (HT : netlink.nlencUint (netlink.nlencPutUint 2 (netlink.Type_ a))
               = netlink.Type_ a).
  { apply nlencUint_Put. exact Ht. }
  unfold netlink.unmarshal, netlink.marshal, netlink.nlaHeaderLen.
  unfold netlink.nlencPutUint in *.
  destruct (le_split_2 (4 + len (netlink.Data a))) as (l0 & l1 & El).
  destruct (le_split_2 (netlink.Type_ a)) as (t0 & t1 & Et).
  rewrite El, Et in *. cbn [app].
  set (tail := netlink.Data a ++ netlink.padding (len (netlink.Data a)) ++ rest).
  replace ((netlink.Data a ++ netlink.padding (len (netlink.Data a))) ++ rest)
    with tail by (unfold tail; rewrite app_assoc; reflexivity).
  assert (Hlen : len (l0 :: l1 :: t0 :: t1 :: tail)
                 = 4 + len (netlink.Data a)
                   + len (netlink.padding (len (netlink.Data a)) ++ rest)).
  { unfold tail. unfold len. cbn [length]. rewrite !length_app. lia. }
  pose proof (len_nonneg (netlink.padding (len (netlink.Data a)) ++ rest)) as Hp.
  destruct (Z.ltb_spec (len (l0 :: l1 :: t0 :: t1 :: tail)) 4); [lia|].
  change (slice (l0 :: l1 :: t0 :: t1 :: tail) 0 2) with [l0; l1].
  change (slice (l0 :: l1 :: t0 :: t1 :: tail) 2 4) with [t0; t1].
  rewrite HL, HT.
  destruct (Z.ltb_spec (len (l0 :: l1 :: t0 :: t1 :: tail)) (4 + len (netlink.Data a)));
    [lia|].
  destruct (Z.eqb_spec (4 + len (netlink.Data a)) 0); [lia|].
  destruct (Z.ltb_spec (4 + len (netlink.Data a)) 4); [lia|].
  f_equal. f_equal.
  unfold slice. change (Z.to_nat 4) with 4%nat. cbn [skipn].
  replace (Z.to_nat (4 + len (netlink.Data a) - 4)) with (length (netlink.Data a))
    by (unfold len; lia).
  rewrite skipn_O. unfold tail. rewrite firstn_app, Nat.sub_diag, firstn_O, app_nil_r.
  apply firstn_all.
Qed.

(** One round of the loop over a marshalled attribute: the body runs
    on that attribute, and the loop goes on behind it. *)
Lemma forNext_marshal {S : Type}
    (body : netlink.AttributeDecoder -> S -> netlink.AttributeDecoder * S)
    (fuel : nat) (pre rest : list byte) (a a0 : netlink.Attribute) (s : S) :
  fits a ->
  netlink.forNext (Datatypes.S fuel) body
      (netlink.mkDecoder (pre ++ netlink.marshal a ++ rest) (len pre) a0 None) s
  = let '(ad2, s2) :=
        body (netlink.mkDecoder (pre ++ netlink.marshal a ++ rest)
                (len (pre ++ netlink.marshal a))
                (netlink.mkAttribute (netlink.nlaHeaderLen + len (netlink.Data a))
                   (netlink.Type_ a) (netlink.Data a)) None) s in
    netlink.forNext fuel body ad2 s2.
Proof.
  intros Hfit. cbn [netlink.forNext].
  unfold netlink.Next. cbn [netlink.ad_err netlink.ad_b netlink.ad_i].
  assert (Hm : 4 <= len (netlink.marshal a)).
  { rewrite len_marshal. unfold netlink.nlaHeaderLen.
    pose proof (nlaAlign_bounds (len (netlink.Data a))).
    pose proof (len_nonneg (netlink.Data a)). lia. }
  pose proof (len_nonneg rest).
  destruct (Z.leb_spec (len (pre ++ netlink.marshal a ++ rest)) (len pre)) as [Hle|_].
  { rewrite !len_app in Hle. lia. }
  replace (sliceFrom (pre ++ netlink.marshal a ++ rest) (len pre))
    with (netlink.marshal a ++ rest).
  2:{ unfold sliceFrom, len. rewrite Nat2Z.id, skipn_app, Nat.sub_diag, skipn_all.
      reflexivity. }
  rewrite unmarshal_marshal by exact Hfit.
  replace (len pre + netlink.advance _) with (len (pre ++ netlink.marshal a));
    [reflexivity|].
  rewrite len_app, len_marshal. unfold netlink.advance. cbn [netlink.Length].
  destruct Hfit as [_ Hl]. pose proof (len_nonneg (netlink.Data a)).
  destruct (Z.ltb_spec (netlink.nlaHeaderLen + len (netlink.Data a)) netlink.nlaHeaderLen);
    [lia|].
  rewrite nlaAlign_header. reflexivity.
Qed.

(** The loop stops at the end of the bytes. *)
Lemma forNext_end {S : Type}
    (body : netlink.AttributeDecoder -> S -> netlink.AttributeDecoder * S)
    (fuel : nat) (b : list byte) (a0 : netlink.Attribute) (s : S) :
  netlink.forNext (Datatypes.S fuel) body (netlink.mkDecoder b (len b) a0 None) s
  = Some (netlink.mkDecoder b (len b) a0 None, s).
Proof.
  cbn [netlink.forNext]. unfold netlink.Next.
  cbn [netlink.ad_err netlink.ad_b netlink.ad_i].
  rewrite Z.leb_refl. reflexivity.
Qed.

(** ** decodeAlert on malformed streams *)





Lemma truncatedAlert_Truncated : Truncated truncatedAlert.
Proof.
  eapply Truncated_later; [reflexivity|].
  eapply Truncated_here; [discriminate|reflexivity].
Defined.


(** The same stream without its bad record decodes to a set that holds
    the program counter; with the bad record, nothing comes back. *)
Example truncatedAlert_prefix :
  decodeAlert (firstn 12 truncatedAlert)
    = (Some (<[ATTR_PC := VUint64 0x0807060504030201]> ∅), None) /\
  decodeAlert truncatedAlert = (None, Some errInvalidAttribute).
Proof. split; vm_compute; reflexivity. Qed.

(** ** PacketAlert accessors *)

Lemma pcPayloadAlert_decodes (pc : Z) (payload : list byte) :
  0 <= pc < 2 ^ 64 ->
  netlink.nlaHeaderLen + len payload <= 0xffff ->
  decodeAlert (pcPayloadAlert pc payload)
    = (Some (<[ATTR_PAYLOAD := VBytes payload]> (<[ATTR_PC := VUint64 pc]> ∅)), None).
Proof.
  intros Hpc Hpl.
  set (a1 := netlink.mkAttribute 0 ATTR_PC (netlink.nlencPutUint 8 pc)).
  set (a2 := netlink.mkAttribute 0 ATTR_PAYLOAD payload).
  assert (F1 : fits a1).
  { split; [split; [compute; discriminate|compute; reflexivity]|].
    unfold a1, netlink.nlencPutUint, len. cbn [netlink.Data].
    rewrite length_le_split. compute. discriminate. }
  assert (F2 : fits a2).
  { split; [split; [compute; discriminate|compute; reflexivity]|exact Hpl]. }
  assert (Hraw : pcPayloadAlert pc payload
                 = [] ++ netlink.marshal a1 ++ netlink.marshal a2 ++ []).
  { unfold pcPayloadAlert, netlink.Encode, netlink.encBytes, netlink.encUint64,
      netlink.NewAttributeEncoder.
    cbn [app forallb netlink.Data].
    destruct F1 as [_ F1]. destruct F2 as [_ F2]. cbn [netlink.Data a1 a2] in F1, F2.
    unfold a1 in F1. cbn [netlink.Data] in F1.
    apply Z.leb_le in F1, F2. rewrite F1, F2. reflexivity. }
  unfold decodeAlert, netlink.NewAttributeDecoder.
  pose proof (forNext_total decodeAlert_body decodeAlert_body_framed
                (S (length (pcPayloadAlert pc payload)))
                (netlink.mkDecoder (pcPayloadAlert pc payload) 0
                   (netlink.mkAttribute 0 0 []) None) ∅) as [r Hr].
  { cbn. unfold len. lia. }
  rewrite Hr.
  (* three rounds are enough: two attributes and the end *)
  assert (H3 : netlink.forNext 3 decodeAlert_body
                 (netlink.mkDecoder (pcPayloadAlert pc payload) 0
                    (netlink.mkAttribute 0 0 []) None) ∅
               = Some (netlink.mkDecoder (pcPayloadAlert pc payload)
                         (len (pcPayloadAlert pc payload))
                         (netlink.mkAttribute (netlink.nlaHeaderLen + len payload)
                            ATTR_PAYLOAD payload) None,
                       <[ATTR_PAYLOAD := VBytes payload]> (<[ATTR_PC := VUint64 pc]> ∅))).
  { rewrite Hraw.
    change 0 with (len (@nil byte)) at 1.
    rewrite (forNext_marshal decodeAlert_body 2 [] _ a1 _ ∅ F1).
    unfold decodeAlert_body at 1. unfold netlink.Type'.
    cbn [netlink.ad_a netlink.Type_ a1].
    change (Z.land ATTR_PC netlink.attrTypeMask =? ATTR_PC) with true. cbv iota.
    unfold netlink.Uint64, netlink.UintN, netlink.data.
    cbn [netlink.ad_err netlink.ad_a netlink.Data a1].
    replace (len (netlink.nlencPutUint 8 pc) =? Z.of_nat 8) with true
      by (unfold netlink.nlencPutUint, len; rewrite length_le_split; reflexivity).
    rewrite nlencUint_Put by (change (2 ^ (Z.of_nat 8 * 8)) with (2 ^ 64); exact Hpc).
    rewrite (app_assoc [] (netlink.marshal a1)).
    rewrite (forNext_marshal decodeAlert_body 1 _ [] a2 _ _ F2).
    unfold decodeAlert_body at 1. unfold netlink.Type'.
    cbn [netlink.ad_a netlink.Type_ a2].
    change (Z.land ATTR_PAYLOAD netlink.attrTypeMask =? ATTR_PC) with false.
    change (Z.land ATTR_PAYLOAD netlink.attrTypeMask =? ATTR_SYMBOL) with false.
    change (Z.land ATTR_PAYLOAD netlink.attrTypeMask =? ATTR_IN_PORT) with false.
    change (Z.land ATTR_PAYLOAD netlink.attrTypeMask =? ATTR_TIMESTAMP) with false.
    change (Z.land ATTR_PAYLOAD netlink.attrTypeMask =? ATTR_PROTO) with false.
    change (Z.land ATTR_PAYLOAD netlink.attrTypeMask =? ATTR_PAYLOAD) with true.
    cbv iota. unfold netlink.Bytes, netlink.data.
    cbn [netlink.ad_err netlink.ad_a netlink.Data a2].
    rewrite !app_nil_r.
    apply forNext_end. }
  apply forNext_more with (fuel' := S (length (pcPayloadAlert pc payload))) in H3.
  - rewrite Hr in H3. inversion H3; subst r. reflexivity.
  - rewrite Hraw. cbn [app]. rewrite length_app.
    assert (4 <= len (netlink.marshal a1)).
    { rewrite len_marshal. pose proof (nlaAlign_bounds (len (netlink.Data a1))).
      pose proof (len_nonneg (netlink.Data a1)). unfold netlink.nlaHeaderLen. lia. }
    unfold len in *. lia.
Qed.

(** C7.  An accessor whose attribute is absent from the alert's
    attribute set returns the zero value of its type and does not
    fail: the empty string for Symbol, 0 for PC, Proto, Length and
    Link (also when the port attribute is there without an interface
    index), no bytes for Packet.  An alert decoded from a message that
    holds only a program counter and a payload has the empty Symbol,
    Length 0 and exactly the payload bytes as Packet. *)
Theorem accessors_zero_when_absent :
  (forall pa : PacketAlert,
     (attr pa ATTR_SYMBOL = None -> Symbol pa = Ok []) /\
     (attr pa ATTR_PC = None -> PC pa = Ok 0) /\
     (attr pa ATTR_PROTO = None -> Proto pa = Ok 0) /\
     (attr pa ATTR_ORIG_LEN = None -> Length pa = Ok 0) /\
     (attr pa ATTR_IN_PORT = None -> Link pa = Ok 0) /\
     (forall a, attr pa ATTR_IN_PORT = Some (VMap a) ->
        a !! NATTR_PORT_NETDEV_IFINDEX = None -> Link pa = Ok 0) /\
     (attr pa ATTR_PAYLOAD = None -> Packet pa = Ok [])) /\
  (forall (pc : Z) (payload : list byte),
     0 <= pc < 2 ^ 64 ->
     netlink.nlaHeaderLen + len payload <= 0xffff ->
     exists pa,
       PacketAlertFromRaw (pcPayloadAlert pc payload) = (pa, None) /\
       Symbol pa = Ok [] /\ Length pa = Ok 0 /\ PC pa = Ok pc /\
       Packet pa = Ok payload).
Proof.
  split.
  - intros pa.
    unfold Symbol, PC, Proto, Length, Link, Packet.
    repeat split; try (intros ->; reflexivity).
    intros a -> Ha. unfold NATTR_PORT_NETDEV_IFINDEX in Ha. rewrite Ha. reflexivity.
  - intros pc payload Hpc Hpl.
    unfold PacketAlertFromRaw. rewrite (pcPayloadAlert_decodes pc payload Hpc Hpl).
    eexists. split; [reflexivity|].
    unfold Symbol, Length, PC, Packet, attr. cbn [attrs].
    repeat split.
Qed.

Lemma accessors_zero_when_absent_witness :
  (Symbol emptyAlert = Ok [] /\ PC emptyAlert = Ok 0 /\ Proto emptyAlert = Ok 0 /\
   Length emptyAlert = Ok 0 /\ Link emptyAlert = Ok 0 /\ Packet emptyAlert = Ok []) /\
  exists pa,
    PacketAlertFromRaw (pcPayloadAlert 0xffffffff81234567 [Byte.x45; Byte.x00; Byte.x2a])
      = (pa, None) /\
    Symbol pa = Ok [] /\ Length pa = Ok 0 /\ PC pa = Ok 0xffffffff81234567 /\
    Packet pa = Ok [Byte.x45; Byte.x00; Byte.x2a].
Proof.
  destruct accessors_zero_when_absent as [Habs Hdec].
  split.
  - destruct (Habs emptyAlert) as (H1 & H2 & H3 & H4 & H5 & _ & H7).
    exact (conj (H1 eq_refl) (conj (H2 eq_refl) (conj (H3 eq_refl)
             (conj (H4 eq_refl) (conj (H5 eq_refl) (H7 eq_refl)))))).
  - apply Hdec; [lia|]. vm_compute. discriminate.
Defined.

(** C8.  L3Packet is the payload without its first 14 bytes when the
    payload is longer than 14 bytes, and empty when the payload has at
    most 14 bytes: empty for a 10-byte payload, the six bytes at
    offsets 14 to 19 for a 20-byte payload. *)
Theorem L3Packet_skips_14 (pa : PacketAlert) (payload : list byte) :
  Packet pa = Ok payload ->
  (len payload <= 14 -> L3Packet pa = Ok []) /\
  (14 < len payload ->
     exists hdr l3, payload = hdr ++ l3 /\ len hdr = 14 /\ L3Packet pa = Ok l3) /\
  (len payload = 10 -> L3Packet pa = Ok []) /\
  (len payload = 20 ->
     exists l3, L3Packet pa = Ok l3 /\ len l3 = 6 /\
       forall i : nat, (i < 6)%nat -> l3 !! i = payload !! (14 + i)%nat).
Proof.
  intros HP. unfold L3Packet. rewrite HP.
  assert (Hlong : 14 < len payload ->
            (len payload <=? 14) = false /\
            payload = firstn 14 payload ++ sliceFrom payload 14 /\
            len (firstn 14 payload) = 14).
  { intros H. split; [apply Z.leb_gt; exact H|]. split.
    - unfold sliceFrom. change (Z.to_nat 14) with 14%nat.
      symmetry. apply firstn_skipn.
    - unfold len in *. rewrite length_firstn. lia. }
  repeat split.
  - intros H. apply Z.leb_le in H. rewrite H. reflexivity.
  - intros H. destruct (Hlong H) as (-> & Hsplit & Hhdr).
    exists (firstn 14 payload), (sliceFrom payload 14). auto.
  - intros H. replace (len payload <=? 14) with true; [reflexivity|].
    symmetry. apply Z.leb_le. lia.
  - intros H. destruct Hlong as (-> & Hsplit & Hhdr); [lia|].
    exists (sliceFrom payload 14). split; [reflexivity|].
    unfold sliceFrom. change (Z.to_nat 14) with 14%nat. split.
    + unfold len in *. rewrite length_skipn. lia.
    + intros i _. apply lookup_drop.
Qed.

Lemma L3Packet_skips_14_witness :
  L3Packet (alertWithPayload payload10) = Ok [] /\
  exists l3,
    L3Packet (alertWithPayload payload20) = Ok l3 /\
    len l3 = 6 /\
    forall i : nat, (i < 6)%nat ->
      l3 !! i = payload20 !! (14 + i)%nat.
Proof.
  split.
  - apply (L3Packet_skips_14 (alertWithPayload payload10)
             payload10); reflexivity.
  - apply (L3Packet_skips_14 (alertWithPayload payload20)
             payload20); reflexivity.
Defined.

Example L3Packet_20 :
  L3Packet (alertWithPayload payload20)
    = Ok (map byte.of_Z [14; 15; 16; 17; 18; 19]).
Proof. vm_compute. reflexivity. Qed.

(** C9.  Is4 answers true exactly when the alert's protocol attribute
    is 0x0800, and Is16 (the IPv6 test) exactly when it is 0x86DD. *)
Theorem Is4_Is16_classify (pa : PacketAlert) :
  (Is4 pa = Ok true <-> attr pa ATTR_PROTO = Some (VUint16 0x0800)) /\
  (Is16 pa = Ok true <-> attr pa ATTR_PROTO = Some (VUint16 0x86DD)) /\
  (Is4 pa = Ok true <-> Proto pa = Ok 0x0800) /\
  (Is16 pa = Ok true <-> Proto pa = Ok 0x86DD).
Proof.
  unfold Is4, Is16, Proto.
  destruct (attr pa ATTR_PROTO) as [[v|v|v|v|v|v|v|v]|];
    repeat split; intros H; try discriminate;
    try (inversion H; subst; reflexivity);
    try (inversion H as [H']; apply Z.eqb_eq in H'; subst; reflexivity).
Qed.

Lemma Is4_Is16_classify_witness :
  Is4 (alertWithProto 0x0800) = Ok true /\ Is16 (alertWithProto 0x86DD) = Ok true.
Proof.
  split.
  - apply (proj1 (Is4_Is16_classify (alertWithProto 0x0800))). reflexivity.
  - apply (proj1 (proj2 (Is4_Is16_classify (alertWithProto 0x86DD)))). reflexivity.
Defined.

(** ** Start and Stop *)

Lemma dropFlags_eq (sw hw : bool) : dropFlags sw hw = (flagBytes sw hw, None).
Proof. destruct sw, hw; reflexivity. Qed.

Lemma packetMode_eq : packetMode = (packetModeBytes, None).
Proof. reflexivity. Qed.

(** The bytes of the two requests. *)
Lemma flagBytes_eq (sw hw : bool) :
  flagBytes sw hw
    = (if sw then map byte.of_Z [4; 0; 20; 0] else [])
        ++ (if hw then map byte.of_Z [4; 0; 21; 0] else []).
Proof. destruct sw, hw; reflexivity. Qed.

Lemma packetModeBytes_decode :
  decodeConfig packetModeBytes
    = (Some (<[ATTR_ALERT_MODE := VUint8 ALERT_MODE_PACKET]>
               (<[ATTR_TRUNC_LEN := VUint32 100]>
                  (<[ATTR_QUEUE_LEN := VUint32 4096]> ∅))), None).
Proof. vm_compute. reflexivity. Qed.

Ltac run_session :=
  unfold Start, Stop, setPacketMode, Config, dropMonitorLookup, req,
    connGetFamily, connSend, connReceive, connJoinGroup, connLeaveGroup,
    connSetReadBuffer, connSetReadDeadline, call, bind, ret, withConn;
  cbn [conn fam group fst snd].

Lemma Stop_eq (w : World) (s : Session) (sw hw : bool) :
  let r1 := onLeaveGroup w (conn s) GRP_ALERT in
  let c1 := conn s ++ [LeaveGroup GRP_ALERT r1] in
  let m2 := mkMessage CMD_STOP 0 (flagBytes sw hw) in
  let r2 := onSend w c1 m2 (fam s) netlink.Request in
  let c2 := c1 ++ [Send m2 (fam s) netlink.Request r2] in
  Stop w sw hw s = (wrap "req" r2, withConn s c2).
Proof.
  run_session. rewrite dropFlags_eq.
  destruct (onSend w _ _ _ _); reflexivity.
Qed.

(** C3, as the code has it.  Stop leaves the alert group and ignores
    what that returns, then sends one CMD_STOP request with the two
    drop flags and without the acknowledge flag, and makes no other
    call: it never receives.  Its result is nil exactly when that send
    is accepted.  So on a connection that accepts the requests, two
    calls in a row both return nil, whatever leaving the group
    returns. *)
Theorem Stop_sequence (w : World) (s : Session) (sw hw : bool) :
  let r1 := onLeaveGroup w (conn s) GRP_ALERT in
  let c1 := conn s ++ [LeaveGroup GRP_ALERT r1] in
  let m2 := mkMessage CMD_STOP 0 (flagBytes sw hw) in
  let r2 := onSend w c1 m2 (fam s) netlink.Request in
  let c2 := c1 ++ [Send m2 (fam s) netlink.Request r2] in
  Stop w sw hw s = (wrap "req" r2, withConn s c2) /\
  Z.land netlink.Request netlink.Acknowledge = 0 /\
  flagBytes sw hw
    = (if sw then map byte.of_Z [4; 0; 20; 0] else [])
        ++ (if hw then map byte.of_Z [4; 0; 21; 0] else []) /\
  (fst (Stop w sw hw s) = None <-> r2 = None) /\
  ((forall c m f fl, onSend w c m f fl = None) ->
   fst (Stop w sw hw s) = None /\
   fst (Stop w sw hw (snd (Stop w sw hw s))) = None).
Proof.
  cbv zeta. rewrite !Stop_eq. cbn [fst snd].
  split; [reflexivity|]. split; [reflexivity|]. split; [apply flagBytes_eq|].
  split.
  - destruct (onSend w _ _ _ _); cbn; split; congruence.
  - intros Hsend. rewrite !Hsend. split; reflexivity.
Qed.

Lemma Stop_sequence_witness :
  fst (Stop noLeaveWorld true true idleSession) = None /\
  fst (Stop noLeaveWorld true true (snd (Stop noLeaveWorld true true idleSession)))
    = None.
Proof.
  apply (Stop_sequence noLeaveWorld idleSession true true).
  intros c m f fl. reflexivity.
Defined.

(** Calling Stop on a connection that refuses the request returns an
    error, on the first call and on the second. *)
Lemma Stop_twice_error :
  ~ (fst (Stop closedWorld true true idleSession) = None /\
     fst (Stop closedWorld true true (snd (Stop closedWorld true true idleSession)))
       = None).
Proof. intros [H _]. vm_compute in H. discriminate. Qed.

Lemma Start_eq (w : World) (s : Session) (sw hw : bool) :
  let m1 := mkMessage CMD_CONFIG 0 packetModeBytes in
  let r1 := onSend w (conn s) m1 (fam s) ackFlags in
  let c1 := conn s ++ [Send m1 (fam s) ackFlags r1] in
  let r2 := onReceive w c1 in
  let c2 := c1 ++ [Receive (fst r2) (snd r2)] in
  let m3 := mkMessage CMD_START 0 (flagBytes sw hw) in
  let r3 := onSend w c2 m3 (fam s) ackFlags in
  let c3 := c2 ++ [Send m3 (fam s) ackFlags r3] in
  let r4 := onReceive w c3 in
  let c4 := c3 ++ [Receive (fst r4) (snd r4)] in
  let r5 := onJoinGroup w c4 GRP_ALERT in
  let c5 := c4 ++ [JoinGroup GRP_ALERT r5] in
  Start w sw hw s =
    match r1, snd r2, r3, snd r4, r5 with
    | Some e, _, _, _, _ =>
        (Some (Errorf "packet mode" (Errorf "req" e)), withConn s c1)
    | None, Some e, _, _, _ =>
        (Some (Errorf "packet mode" (Errorf "req ack" e)), withConn s c2)
    | None, None, Some e, _, _ =>
        (Some (Errorf "req" e), withConn s c3)
    | None, None, None, Some e, _ =>
        (Some (Errorf "req ack" e), snd (Stop w sw hw (withConn s c4)))
    | None, None, None, None, Some e =>
        (Some (Errorf "join" e), snd (Stop w sw hw (withConn s c5)))
    | None, None, None, None, None =>
        (None, withConn s c5)
    end.
Proof.
  cbv zeta.
  unfold Start, setPacketMode. rewrite dropFlags_eq, packetMode_eq.
  unfold req, connSend, connReceive, connJoinGroup, call, bind, ret, withConn.
  cbn [conn fam group fst snd].
  change (Z.lor netlink.Request netlink.Acknowledge) with ackFlags.
  destruct (onSend w (conn s) _ _ _) as [e1|]; [reflexivity|].
  destruct (onReceive w _) as [ms2 [e2|]]; cbn [fst snd]; [reflexivity|].
  destruct (onSend w _ _ _ _) as [e3|]; [reflexivity|].
  destruct (onReceive w _) as [ms4 [e4|]]; cbn [fst snd].
  { destruct (Stop w sw hw _). reflexivity. }
  destruct (onJoinGroup w _ _) as [e5|]; [|reflexivity].
  destruct (Stop w sw hw _). reflexivity.
Qed.

(** C1.  Start sends an acknowledged CMD_CONFIG request that sets
    alert mode packet (1), truncation length 100 and queue length 4096
    and receives its reply, sends an acknowledged CMD_START request
    with the two drop flags and receives its reply, and joins the
    alert group, in this order.  When the configuration step fails
    Start returns its error and makes no further call; when the reply
    to CMD_START cannot be received, or the join fails, Start runs
    Stop with the same flags, drops what Stop returns and returns the
    error that made it stop. *)
Theorem Start_sequence (w : World) (s : Session) (sw hw : bool) :
  let m1 := mkMessage CMD_CONFIG 0 packetModeBytes in
  let r1 := onSend w (conn s) m1 (fam s) ackFlags in
  let c1 := conn s ++ [Send m1 (fam s) ackFlags r1] in
  let r2 := onReceive w c1 in
  let c2 := c1 ++ [Receive (fst r2) (snd r2)] in
  let m3 := mkMessage CMD_START 0 (flagBytes sw hw) in
  let r3 := onSend w c2 m3 (fam s) ackFlags in
  let c3 := c2 ++ [Send m3 (fam s) ackFlags r3] in
  let r4 := onReceive w c3 in
  let c4 := c3 ++ [Receive (fst r4) (snd r4)] in
  let r5 := onJoinGroup w c4 GRP_ALERT in
  let c5 := c4 ++ [JoinGroup GRP_ALERT r5] in
  decodeConfig packetModeBytes
    = (Some (<[ATTR_ALERT_MODE := VUint8 ALERT_MODE_PACKET]>
               (<[ATTR_TRUNC_LEN := VUint32 100]>
                  (<[ATTR_QUEUE_LEN := VUint32 4096]> ∅))), None) /\
  flagBytes sw hw
    = (if sw then map byte.of_Z [4; 0; 20; 0] else [])
        ++ (if hw then map byte.of_Z [4; 0; 21; 0] else []) /\
  Z.land ackFlags netlink.Acknowledge = netlink.Acknowledge /\
  Start w sw hw s =
    match r1, snd r2, r3, snd r4, r5 with
    | Some e, _, _, _, _ =>
        (Some (Errorf "packet mode" (Errorf "req" e)), withConn s c1)
    | None, Some e, _, _, _ =>
        (Some (Errorf "packet mode" (Errorf "req ack" e)), withConn s c2)
    | None, None, Some e, _, _ =>
        (Some (Errorf "req" e), withConn s c3)
    | None, None, None, Some e, _ =>
        (Some (Errorf "req ack" e), snd (Stop w sw hw (withConn s c4)))
    | None, None, None, None, Some e =>
        (Some (Errorf "join" e), snd (Stop w sw hw (withConn s c5)))
    | None, None, None, None, None =>
        (None, withConn s c5)
    end.
Proof.
  cbv zeta.
  split; [exact packetModeBytes_decode|].
  split; [apply flagBytes_eq|]. split; [reflexivity|].
  apply Start_eq.
Qed.

(** ** Config *)

(** C10.  Config decodes ms[0] of what Receive returned without
    looking at the length of ms.  When the request was sent and the
    receive succeeded, a non-empty ms gives the decoded first message,
    and an empty ms makes the index expression panic; Config panics in
    no other case. *)
Theorem Config_first_message (w : World) (s : Session) :
  let m := mkMessage CMD_CONFIG_GET 0 [] in
  let r1 := onSend w (conn s) m (fam s) netlink.Request in
  let c1 := conn s ++ [Send m (fam s) netlink.Request r1] in
  let r2 := onReceive w c1 in
  let c2 := c1 ++ [Receive (fst r2) (snd r2)] in
  (r1 = None -> snd r2 = None ->
   match fst r2 with
   | [] => exists why, Config w s = (Panic why, withConn s c2)
   | m0 :: _ =>
       Config w s
         = (Ok match decodeConfig (Data m0) with
               | (_, Some err) => (None, Some (Errorf "config" err))
               | (conf, None) => (conf, None)
               end, withConn s c2)
   end) /\
  ((exists why s', Config w s = (Panic why, s')) <->
   r1 = None /\ r2 = ([], None)).
Proof.
  cbv zeta. run_session.
  destruct (onSend w (conn s) _ _ _) as [e1|].
  { split; [discriminate|]. split.
    - intros (why & s' & H). discriminate.
    - intros [H _]. discriminate. }
  destruct (onReceive w _) as [ms [e2|]]; cbn [fst snd].
  { split; [discriminate|]. split.
    - intros (why & s' & H). discriminate.
    - intros [_ H]. discriminate. }
  destruct ms as [|m0 ms].
  - split; [intros _ _; eexists; reflexivity|].
    split; [auto|]. intros _. eexists. eexists. reflexivity.
  - split.
    + intros _ _. destruct (decodeConfig (Data m0)) as [conf [err|]]; reflexivity.
    + split.
      * intros (why & s' & H).
        destruct (decodeConfig (Data m0)) as [conf [err|]]; discriminate.
      * intros [_ H]. discriminate.
Qed.

Lemma Config_first_message_witness :
  (exists why,
     Config quietWorld idleSession
       = (Panic why,
          withConn idleSession
            [Send (mkMessage CMD_CONFIG_GET 0 []) 0x1f netlink.Request None;
             Receive [] None])) /\
  Config configWorld idleSession
    = (Ok (Some (<[ATTR_ALERT_MODE := VUint8 ALERT_MODE_PACKET]>
                   (<[ATTR_TRUNC_LEN := VUint32 100]>
                      (<[ATTR_QUEUE_LEN := VUint32 4096]> ∅))), None),
       withConn idleSession
         [Send (mkMessage CMD_CONFIG_GET 0 []) 0x1f netlink.Request None;
          Receive [mkMessage CMD_CONFIG_NEW 2 packetModeBytes] None]).
Proof.
  split.
  - exact (proj1 (Config_first_message quietWorld idleSession) eq_refl eq_refl).
  - exact (proj1 (Config_first_message configWorld idleSession) eq_refl eq_refl).
Defined.

(** ** NewSession, and the identifiers afterwards *)

Lemma sameIds_refl (s : Session) : sameIds s s.
Proof. split; reflexivity. Qed.

Lemma sameIds_trans (s1 s2 s3 : Session) :
  sameIds s1 s2 -> sameIds s2 s3 -> sameIds s1 s3.
Proof. unfold sameIds. intros [] []. split; congruence. Qed.

Lemma sameIds_withConn (s : Session) (c : Conn) : sameIds s (withConn s c).
Proof. split; reflexivity. Qed.

Lemma call_sameIds (w : World) {A : Type} (answer : Conn -> A) (entry : A -> Call)
    (s : Session) :
  sameIds s (snd (call answer entry s)).
Proof. split; reflexivity. Qed.

Lemma Stop_sameIds (w : World) (sw hw : bool) (s : Session) :
  sameIds s (snd (Stop w sw hw s)).
Proof. rewrite Stop_eq. apply sameIds_withConn. Qed.

Lemma Start_sameIds (w : World) (sw hw : bool) (s : Session) :
  sameIds s (snd (Start w sw hw s)).
Proof.
  rewrite Start_eq.
  destruct (onSend w (conn s) _ _ _); [apply sameIds_withConn|].
  destruct (snd (onReceive w _)); [apply sameIds_withConn|].
  destruct (onSend w _ _ _ _); [apply sameIds_withConn|].
  destruct (snd (onReceive w _)).
  { cbn [snd]. eapply sameIds_trans; [|apply Stop_sameIds]. apply sameIds_withConn. }
  destruct (onJoinGroup w _ _); [|apply sameIds_withConn].
  cbn [snd]. eapply sameIds_trans; [|apply Stop_sameIds]. apply sameIds_withConn.
Qed.

Lemma Config_sameIds (w : World) (s : Session) :
  sameIds s (snd (Config w s)).
Proof.
  run_session.
  destruct (onSend w _ _ _ _); [split; reflexivity|].
  destruct (onReceive w _) as [ms [e|]]; [split; reflexivity|].
  destruct ms as [|m0 ms]; [split; reflexivity|].
  destruct (decodeConfig _) as [conf [e|]]; split; reflexivity.
Qed.

Lemma readLoop_sameIds (w : World) (deadline : Time) (f : PacketAlertFunc) :
  forall fuel seen s, sameIds s (snd (readLoop w fuel deadline f seen s)).
Proof.
  induction fuel as [|fuel IH]; intros seen s; [apply sameIds_refl|].
  cbn [readLoop]. unfold bind.
  destruct ((if negb (IsZero deadline) then connSetReadDeadline w deadline
             else ret None) s) as [x s1] eqn:E1.
  assert (H1 : sameIds s s1).
  { destruct (negb (IsZero deadline)); inversion E1; subst; split; reflexivity. }
  destruct (connReceive w s1) as [[ms err] s2] eqn:E2.
  assert (H2 : sameIds s s2).
  { eapply sameIds_trans; [exact H1|].
    unfold connReceive, call in E2. inversion E2; subst. split; reflexivity. }
  destruct err as [e|].
  - destruct (isTimeout e); exact H2.
  - destruct (rangeMessages f ms seen) as [[r|] seen']; [exact H2|].
    eapply sameIds_trans; [exact H2|apply IH].
Qed.

Lemma ReadUntil_sameIds (w : World) (fuel : nat) (deadline : Time)
    (f : PacketAlertFunc) (s : Session) :
  sameIds s (snd (ReadUntil w fuel deadline f s)).
Proof.
  unfold ReadUntil, bind, connSetReadBuffer, call.
  eapply sameIds_trans; [|apply readLoop_sameIds]. split; reflexivity.
Qed.

(** C5.  NewSession fails when the lookup of the NET_DM family fails,
    and when the family found does not have exactly one multicast
    group.  When it succeeds, the session's family identifier is the
    identifier of the family found and its group identifier is the
    identifier of that family's only group; and no method of the
    session (Config, Start, Stop, ReadUntil) changes either. *)
Theorem NewSession_identifiers (w : World) :
  let r := onGetFamily w [] "NET_DM" in
  (snd r <> None -> exists e, NewSession w = (None, Some e)) /\
  (length (Groups (fst r)) <> 1%nat -> exists e, NewSession w = (None, Some e)) /\
  (forall s, fst (NewSession w) = Some s ->
     snd (NewSession w) = None /\
     onDial w = None /\ snd r = None /\
     exists g, Groups (fst r) = [g] /\ fam s = ID (fst r) /\ group s = GroupID g) /\
  (forall g, onDial w = None -> snd r = None -> Groups (fst r) = [g] ->
     NewSession w
       = (Some (mkSession [GetFamily "NET_DM" (fst r) None] (ID (fst r)) (GroupID g)),
          None)) /\
  (forall (s : Session) (sw hw : bool) (fuel : nat) (deadline : Time)
          (f : PacketAlertFunc),
     sameIds s (snd (Config w s)) /\
     sameIds s (snd (Start w sw hw s)) /\
     sameIds s (snd (Stop w sw hw s)) /\
     sameIds s (snd (ReadUntil w fuel deadline f s))).
Proof.
  cbv zeta. unfold NewSession. run_session.
  destruct (onGetFamily w [] "NET_DM") as [family err]. cbn [fst snd].
  repeat split.
  - intros Herr. destruct (onDial w); [eauto|].
    destruct err; [eauto|congruence].
  - intros Hlen. destruct (onDial w); [eauto|].
    destruct err; [eauto|].
    destruct (Groups family) as [|g [|g' gs]]; cbn in Hlen; [eauto|lia|eauto].
  - destruct (onDial w); [discriminate H|].
    destruct err; [discriminate H|].
    destruct (Groups family) as [|g [|g' gs]]; try discriminate H. reflexivity.
  - destruct (onDial w); [discriminate H|reflexivity].
  - destruct (onDial w); [discriminate H|].
    destruct err; [discriminate H|reflexivity].
  - destruct (onDial w); [discriminate H|].
    destruct err; [discriminate H|].
    destruct (Groups family) as [|g [|g' gs]]; try discriminate H.
    exists g. inversion H; subst. auto.
  - intros g Hdial Herr Hg. rewrite Hdial, Herr, Hg. reflexivity.
  - apply Config_sameIds.
  - apply Config_sameIds.
  - apply Start_sameIds.
  - apply Start_sameIds.
  - apply Stop_sameIds.
  - apply Stop_sameIds.
  - apply ReadUntil_sameIds.
  - apply ReadUntil_sameIds.
Qed.

Lemma NewSession_identifiers_witness :
  (exists e, NewSession martianWorld = (None, Some e)) /\
  NewSession quietWorld
    = (Some (mkSession [GetFamily "NET_DM" NET_DM None] 0x1f 1), None).
Proof.
  split.
  - apply (NewSession_identifiers martianWorld). cbn. lia.
  - destruct (NewSession_identifiers quietWorld) as (_ & _ & _ & H & _).
    apply (H (mkGroup 1 "events")); reflexivity.
Defined.

(** ** The state a Start leaves *)

Lemma tracked_snoc (c : Conn) (x : Call) :
  tracked (c ++ [x]) = track (tracked c) x.
Proof. unfold tracked. rewrite fold_left_app. reflexivity. Qed.

Lemma stateOf_Idle (c : Conn) :
  stateOf c = Idle -> alerting (tracked c) = false /\ joined (tracked c) = false.
Proof.
  unfold stateOf. destruct (alerting (tracked c)), (joined (tracked c));
    intros H; try discriminate; auto.
Qed.

Ltac track_log :=
  cbn [conn snd fst withConn];
  unfold stateOf; rewrite ?tracked_snoc;
  cbn [track Command Z.eqb Pos.eqb CMD_CONFIG CMD_START CMD_STOP GRP_ALERT
       alerting joined starting].

(** The answer named by a hypothesis is nil: use it everywhere. *)
Ltac know_nil H :=
  match type of H with
  | ?t = None =>
      let r := fresh "r" in set (r := t) in *; clearbody r; subst r
  end.
Ltac know_received H :=
  match type of H with
  | snd ?t = None =>
      let r := fresh "r" in
      let ms := fresh "ms" in
      let x := fresh "x" in
      set (r := t) in *; clearbody r; destruct r as [ms x];
      cbn [fst snd] in *; subst x
  end.

(** C4, as the code has it.  The Session struct holds no monitoring
    state; read off the calls its connection carried, the state is
    Idle, Monitoring or half-started.  Start returns nil exactly when
    the configuration, the acknowledged start and the join all
    succeeded, and the state is then Monitoring; a Start that fails on
    an idle session never leaves it Monitoring.  When the join fails
    on an idle session and the CMD_STOP of the rollback is accepted,
    Start returns the join error and the state is Idle again; the
    identifiers of the session are unchanged, so the next Start is
    judged by the same rule. *)
Theorem Start_states (w : World) (s : Session) (sw hw : bool) :
  let m1 := mkMessage CMD_CONFIG 0 packetModeBytes in
  let r1 := onSend w (conn s) m1 (fam s) ackFlags in
  let c1 := conn s ++ [Send m1 (fam s) ackFlags r1] in
  let r2 := onReceive w c1 in
  let c2 := c1 ++ [Receive (fst r2) (snd r2)] in
  let m3 := mkMessage CMD_START 0 (flagBytes sw hw) in
  let r3 := onSend w c2 m3 (fam s) ackFlags in
  let c3 := c2 ++ [Send m3 (fam s) ackFlags r3] in
  let r4 := onReceive w c3 in
  let c4 := c3 ++ [Receive (fst r4) (snd r4)] in
  let r5 := onJoinGroup w c4 GRP_ALERT in
  let c5 := c4 ++ [JoinGroup GRP_ALERT r5] in
  let r6 := onLeaveGroup w c5 GRP_ALERT in
  let c6 := c5 ++ [LeaveGroup GRP_ALERT r6] in
  let m7 := mkMessage CMD_STOP 0 (flagBytes sw hw) in
  let r7 := onSend w c6 m7 (fam s) netlink.Request in
  let after := snd (Start w sw hw s) in
  (fst (Start w sw hw s) = None <->
     r1 = None /\ snd r2 = None /\ r3 = None /\ snd r4 = None /\ r5 = None) /\
  (fst (Start w sw hw s) = None -> stateOf (conn after) = Monitoring) /\
  (stateOf (conn s) = Idle -> fst (Start w sw hw s) <> None ->
     stateOf (conn after) <> Monitoring) /\
  (stateOf (conn s) = Idle ->
   r1 = None -> snd r2 = None -> r3 = None -> snd r4 = None ->
   r5 <> None -> r7 = None ->
     fst (Start w sw hw s) = wrap "join" r5 /\ stateOf (conn after) = Idle) /\
  sameIds s after.
Proof.
  cbv zeta.
  split; [|split; [|split; [|split; [|apply Start_sameIds]]]].
  - rewrite Start_eq.
    destruct (onSend w (conn s) _ _ _) as [e1|];
      [split; [discriminate|intros (H & _); discriminate]|].
    destruct (snd (onReceive w _)) as [e2|];
      [split; [discriminate|intros (_ & H & _); discriminate]|].
    destruct (onSend w _ _ _ _) as [e3|];
      [split; [discriminate|intros (_ & _ & H & _); discriminate]|].
    destruct (snd (onReceive w _)) as [e4|];
      [split; [discriminate|intros (_ & _ & _ & H & _); discriminate]|].
    destruct (onJoinGroup w _ _) as [e5|];
      [split; [discriminate|intros (_ & _ & _ & _ & H); discriminate]|].
    split; auto.
  - rewrite Start_eq.
    destruct (onSend w (conn s) _ _ _) as [e1|]; [discriminate|].
    destruct (onReceive w _) as [ms2 [e2|]]; cbn [fst snd]; [discriminate|].
    destruct (onSend w _ _ _ _) as [e3|]; [discriminate|].
    destruct (onReceive w _) as [ms4 [e4|]]; cbn [fst snd]; [discriminate|].
    destruct (onJoinGroup w _ _) as [e5|]; [discriminate|].
    intros _. track_log.
    destruct (tracked (conn s)) as [a j p]. cbn. destruct p; reflexivity.
  - intros Hidle. apply stateOf_Idle in Hidle as [Ha Hj].
    rewrite Start_eq.
    destruct (onSend w (conn s) _ _ _) as [e1|].
    { intros _. track_log.
      destruct (tracked (conn s)) as [a j p]. cbn in *. subst. discriminate. }
    destruct (onReceive w _) as [ms2 [e2|]]; cbn [fst snd].
    { intros _. track_log.
      destruct (tracked (conn s)) as [a j p]. cbn in *. subst. discriminate. }
    destruct (onSend w _ _ _ _) as [e3|].
    { intros _. track_log.
      destruct (tracked (conn s)) as [a j p]. cbn in *. subst. discriminate. }
    destruct (onReceive w _) as [ms4 [e4|]]; cbn [fst snd].
    { intros _. rewrite Stop_eq. track_log.
      destruct (tracked (conn s)) as [a j p]. cbn in *. subst.
      destruct (onLeaveGroup w _ _); destruct (onSend w _ _ _ _); cbn; discriminate. }
    destruct (onJoinGroup w _ _) as [e5|]; [|intros H; cbn in H; congruence].
    intros _. rewrite Stop_eq. track_log.
    destruct (tracked (conn s)) as [a j p]. cbn in *. subst.
    destruct (onLeaveGroup w _ _); destruct (onSend w _ _ _ _); cbn; discriminate.
  - intros Hidle H1 H2 H3 H4 H5 H7.
    apply stateOf_Idle in Hidle as [Ha Hj].
    rewrite Start_eq, !Stop_eq. cbn [conn fam withConn].
    know_nil H1. know_received H2. know_nil H3. know_received H4.
    match type of H5 with
    | ?t <> None => set (r5 := t) in *; clearbody r5; destruct r5 as [e5|];
                    [clear H5|congruence]
    end.
    know_nil H7.
    split; [reflexivity|]. track_log.
    destruct (tracked (conn s)) as [a j p]. cbn in *. subst.
    destruct (onLeaveGroup w _ _); reflexivity.
Qed.

Lemma Start_states_witness :
  (fst (Start joinFailsOnceWorld true false idleSession)
     = Some (Errorf "join" (PlainError "no buffer space available")) /\
   stateOf (conn (snd (Start joinFailsOnceWorld true false idleSession))) = Idle) /\
  fst (Start joinFailsOnceWorld true false
         (snd (Start joinFailsOnceWorld true false idleSession))) = None /\
  stateOf (conn (snd (Start joinFailsOnceWorld true false
                        (snd (Start joinFailsOnceWorld true false idleSession)))))
    = Monitoring.
Proof.
  split.
  - destruct (Start_states joinFailsOnceWorld idleSession true false)
      as (_ & _ & _ & H & _).
    apply H; try reflexivity. discriminate.
  - destruct (Start_states joinFailsOnceWorld
                (snd (Start joinFailsOnceWorld true false idleSession)) true false)
      as (H1 & H2 & _).
    assert (Hnil : fst (Start joinFailsOnceWorld true false
                          (snd (Start joinFailsOnceWorld true false idleSession)))
                   = None).
    { apply H1. repeat split; reflexivity. }
    split; [exact Hnil|exact (H2 Hnil)].
Defined.

(** The join fails and the rollback's request is refused: Start
    returns the join error and leaves the kernel alerting with the
    group not joined. *)
Lemma Start_join_failure_half_started :
  stateOf (conn idleSession) = Idle /\
  fst (Start refusingWorld true false idleSession)
    = Some (Errorf "join" (PlainError "no buffer space available")) /\
  stateOf (conn (snd (Start refusingWorld true false idleSession))) = HalfStarted /\
  stateOf (conn (snd (Start refusingWorld true false idleSession))) <> Idle /\
  stateOf (conn (snd (Start refusingWorld true false idleSession))) <> Monitoring.
Proof. repeat split; try reflexivity; vm_compute; discriminate. Qed.

(** ** ReadUntil *)




Lemma readLoop_round (w : World) (deadline : Time) (f : PacketAlertFunc)
    (fuel : nat) (seen : list PacketAlert) (s : Session) :
  let c0 := armed w deadline (conn s) in
  let r := onReceive w c0 in
  let s1 := withConn s (c0 ++ [Receive (fst r) (snd r)]) in
  readLoop w (S fuel) deadline f seen s =
    match snd r with
    | Some e =>
        (if isTimeout e then Some None else Some (Some (Errorf "recv" e)), seen, s1)
    | None =>
        match rangeMessages f (fst r) seen with
        | (Some res, seen') => (Some res, seen', s1)
        | (None, seen') => readLoop w fuel deadline f seen' s1
        end
    end.
Proof.
  cbv zeta. cbn [readLoop]. unfold armed, bind.
  destruct (IsZero deadline); cbn [negb];
    unfold connSetReadDeadline, connReceive, call, ret, withConn;
    cbn [conn fam group fst snd];
    destruct (onReceive w _) as [ms [e|]]; cbn [fst snd];
    try (destruct (isTimeout e); reflexivity);
    destruct (rangeMessages f ms seen) as [[res|] seen']; reflexivity.
Qed.







Lemma ReadUntil_eq (w : World) (fuel : nat) (deadline : Time) (f : PacketAlertFunc)
    (s : Session) :
  ReadUntil w fuel deadline f s
    = readLoop w fuel deadline f []
        (withConn s (conn s ++ [SetReadBuffer 4096 (onSetReadBuffer w (conn s) 4096)])).
Proof. reflexivity. Qed.




(** Two batches and then a timeout: the two packet alerts are handed
    to [f] in order, the summary alerts are not, and the result is nil;
    a callback that answers false at the second alert ends the loop
    there, before the timeout; an alert that cannot be decoded ends it
    with an error. *)
Example ReadUntil_two_batches :
  let w := scriptedWorld [([summaryMessage; packetMessage1], None);
                          ([packetMessage2; summaryMessage], None)] in
  (let '(res, seen, s') := ReadUntil w 3 1000 always idleSession in
   (res, map Packet seen, receives (conn s')))
    = (Some None, [Ok [Byte.x45; Byte.x00]; Ok [Byte.x60]], 3%nat) /\
  (let '(res, seen, s') := ReadUntil w 3 1000 upTo2 idleSession in
   (res, map Packet seen, receives (conn s')))
    = (Some None, [Ok [Byte.x45; Byte.x00]; Ok [Byte.x60]], 2%nat) /\
  (let '(res, seen, s') :=
     ReadUntil (scriptedWorld [([packetMessage1; badPacketMessage; packetMessage2], None)])
       3 1000 always idleSession in
   (res, map Packet seen, receives (conn s')))
    = (Some (Some (Errorf "parse alert packet" (Errorf "decode" errInvalidAttribute))),
       [Ok [Byte.x45; Byte.x00]], 1%nat).
Proof. repeat split; vm_compute; reflexivity. Qed.

(** ** The earlier copy of decodeAlert *)

(** With a decoder that reads attributes on demand, the earlier copy
    returns on the malformed stream, without an error, the set with
    the program counter that came before the bad record; the later
    copy returns nothing but the error. *)
Example Earlier_decodeAlert_keeps_prefix :
  Earlier.decodeAlert truncatedAlert
    = (Some (<[ATTR_PC := VUint64 0x0807060504030201]> ∅), None) /\
  decodeAlert truncatedAlert = (None, Some errInvalidAttribute).
Proof. split; vm_compute; reflexivity. Qed.

(** * Further properties *)

(** ** Decoding record by record *)

Lemma UintN_place (n : nat) (b : list byte) (i : Z) (a : netlink.Attribute) :
  netlink.UintN n (netlink.mkDecoder b i a None)
    = (fst (netlink.UintN n (netlink.mkDecoder [] 0 a None)),
       netlink.mkDecoder b i a
         (netlink.ad_err (snd (netlink.UintN n (netlink.mkDecoder [] 0 a None))))).
Proof.
  unfold netlink.UintN, netlink.data, netlink.Type', netlink.setErr.
  cbn [netlink.ad_err netlink.ad_a netlink.ad_b netlink.ad_i].
  destruct (_ =? _); reflexivity.
Qed.

Lemma Nested_place {S : Type}
    (body : netlink.AttributeDecoder -> S -> netlink.AttributeDecoder * S)
    (b : list byte) (i : Z) (a : netlink.Attribute) (s : S) :
  netlink.Nested body (netlink.mkDecoder b i a None) s
    = (netlink.mkDecoder b i a
         (netlink.ad_err (fst (netlink.Nested body (netlink.mkDecoder [] 0 a None) s))),
       snd (netlink.Nested body (netlink.mkDecoder [] 0 a None) s)).
Proof.
  unfold netlink.Nested, netlink.data, netlink.setErr, netlink.NewAttributeDecoder.
  cbn [netlink.ad_err netlink.ad_a netlink.ad_b netlink.ad_i].
  match goal with
  | |- context [netlink.forNext ?n ?bd ?d ?x] =>
      destruct (netlink.forNext n bd d x) as [[nad' s']|]; [|reflexivity]
  end.
  destruct (netlink.Err nad'); reflexivity.
Qed.

Ltac place_uint n :=
  unfold netlink.Uint8, netlink.Uint16, netlink.Uint32, netlink.Uint64;
  match goal with
  | |- context [netlink.UintN n (netlink.mkDecoder ?b ?i ?a None)] =>
      rewrite (UintN_place n b i a);
      destruct (netlink.UintN n (netlink.mkDecoder [] 0 a None)) as [v d];
      reflexivity
  end.

Lemma decodeConfig_body_place : PlaceFree decodeConfig_body.
Proof.
  intros b i a s. unfold stepOf, decodeConfig_body, netlink.Type'.
  cbn [netlink.ad_a].
  destruct (_ =? ATTR_ALERT_MODE); [place_uint 1%nat|].
  destruct (_ =? ATTR_TRUNC_LEN); [place_uint 4%nat|].
  destruct (_ =? ATTR_QUEUE_LEN); [place_uint 4%nat|].
  reflexivity.
Qed.

Lemma decodeAlert_port_body_place : PlaceFree decodeAlert_port_body.
Proof.
  intros b i a s. unfold stepOf, decodeAlert_port_body, netlink.Type'.
  cbn [netlink.ad_a].
  destruct (_ =? NATTR_PORT_NETDEV_IFINDEX); [place_uint 4%nat|].
  destruct (_ =? NATTR_PORT_NETDEV_NAME); reflexivity.
Qed.

Lemma decodeAlert_body_place : PlaceFree decodeAlert_body.
Proof.
  intros b i a s. unfold stepOf, decodeAlert_body, netlink.Type'.
  cbn [netlink.ad_a].
  destruct (_ =? ATTR_PC); [place_uint 8%nat|].
  destruct (_ =? ATTR_SYMBOL); [reflexivity|].
  destruct (_ =? ATTR_IN_PORT).
  { rewrite (Nested_place decodeAlert_port_body b i a ∅).
    destruct (netlink.Nested _ _ _) as [d m]. reflexivity. }
  destruct (_ =? ATTR_TIMESTAMP); [place_uint 8%nat|].
  destruct (_ =? ATTR_PROTO); [place_uint 2%nat|].
  destruct (_ =? ATTR_PAYLOAD); [reflexivity|].
  destruct (_ =? ATTR_ORIG_LEN); [place_uint 4%nat|].
  destruct (_ =? ATTR_ORIGIN); [place_uint 2%nat|].
  reflexivity.
Qed.

Lemma encodeRecords_cons (a : netlink.Attribute) (rest : list netlink.Attribute) :
  encodeRecords (a :: rest) = netlink.marshal a ++ encodeRecords rest.
Proof. reflexivity. Qed.

Lemma encodeRecords_app (l1 l2 : list netlink.Attribute) :
  encodeRecords (l1 ++ l2) = encodeRecords l1 ++ encodeRecords l2.
Proof. unfold encodeRecords. rewrite map_app, concat_app. reflexivity. Qed.

Lemma length_encodeRecords (records : list netlink.Attribute) :
  (length records <= length (encodeRecords records))%nat.
Proof.
  induction records as [|a rest IH]; [cbn; lia|].
  rewrite encodeRecords_cons, length_app. cbn [length].
  pose proof (len_marshal a) as H. pose proof (nlaAlign_bounds (len (netlink.Data a))).
  pose proof (len_nonneg (netlink.Data a)).
  unfold len, netlink.nlaHeaderLen in *. lia.
Qed.

(** The loop over a stream of marshalled records runs the body on the
    records in turn and stops at the first error. *)
Lemma forNext_records {S : Type}
    (body : netlink.AttributeDecoder -> S -> netlink.AttributeDecoder * S) :
  PlaceFree body ->
  forall records fuel pre a0 s,
    Forall fits records -> (length records < fuel)%nat ->
    exists ad,
      netlink.forNext fuel body
        (netlink.mkDecoder (pre ++ encodeRecords records) (len pre) a0 None) s
        = Some (ad, snd (runRecords body records s)) /\
      netlink.ad_err ad = fst (runRecords body records s).
Proof.
  intros HP. induction records as [|a rest IH]; intros fuel pre a0 s Hfit Hfuel.
  - destruct fuel as [|fuel]; [lia|].
    cbn [encodeRecords map concat runRecords fst snd]. rewrite app_nil_r.
    rewrite forNext_end. eauto.
  - destruct fuel as [|fuel]; [cbn in Hfuel; lia|].
    inversion Hfit as [|? ? Ha Hrest]; subst.
    rewrite encodeRecords_cons.
    rewrite (forNext_marshal body fuel pre (encodeRecords rest) a a0 s Ha).
    fold (asRead a). rewrite HP. cbn [runRecords].
    destruct (stepOf body (asRead a) s) as [[e|] s'] eqn:Estep; cbn [fst snd].
    + destruct fuel as [|fuel]; [cbn in Hfuel; lia|].
      cbn [netlink.forNext]. unfold netlink.Next. cbn [netlink.ad_err].
      eauto.
    + specialize (IH fuel (pre ++ netlink.marshal a)
                    (asRead a) s' Hrest ltac:(cbn in Hfuel; lia)).
      rewrite <- app_assoc in IH. exact IH.
Qed.

(** The two decoders on a stream of marshalled records. *)
Lemma decode_records
    (body : netlink.AttributeDecoder -> gmap Z Value -> netlink.AttributeDecoder * gmap Z Value)
    (records : list netlink.Attribute) :
  PlaceFree body -> Forall fits records ->
  decode_finish
    (netlink.forNext (S (length (encodeRecords records))) body
       (netlink.mkDecoder (encodeRecords records) 0 (netlink.mkAttribute 0 0 []) None) ∅)
    = match runRecords body records ∅ with
      | (Some e, _) => (None, Some e)
      | (None, ret) => (Some ret, None)
      end.
Proof.
  intros HP Hfit.
  destruct (forNext_records body HP records (S (length (encodeRecords records)))
              [] (netlink.mkAttribute 0 0 []) ∅ Hfit) as (ad & Hrun & Herr).
  { pose proof (length_encodeRecords records). lia. }
  cbn [app] in Hrun. change (len (@nil byte)) with 0 in Hrun.
  rewrite Hrun. cbn [decode_finish].
  unfold netlink.Err. rewrite Herr.
  destruct (runRecords body records ∅) as [[e|] ret]; reflexivity.
Qed.

Lemma decodeAlert_records (records : list netlink.Attribute) :
  Forall fits records ->
  decodeAlert (encodeRecords records)
    = match runRecords decodeAlert_body records ∅ with
      | (Some e, _) => (None, Some e)
      | (None, ret) => (Some ret, None)
      end.
Proof. intros H. apply (decode_records _ _ decodeAlert_body_place H). Qed.

Lemma decodeConfig_records (records : list netlink.Attribute) :
  Forall fits records ->
  decodeConfig (encodeRecords records)
    = match runRecords decodeConfig_body records ∅ with
      | (Some e, _) => (None, Some e)
      | (None, ret) => (Some ret, None)
      end.
Proof. intros H. apply (decode_records _ _ decodeConfig_body_place H). Qed.

Lemma runRecords_app {S : Type}
    (body : netlink.AttributeDecoder -> S -> netlink.AttributeDecoder * S)
    (l1 l2 : list netlink.Attribute) (s : S) :
  runRecords body (l1 ++ l2) s
    = match runRecords body l1 s with
      | (Some e, s') => (Some e, s')
      | (None, s') => runRecords body l2 s'
      end.
Proof.
  revert s. induction l1 as [|a l1 IH]; intros s; [reflexivity|].
  cbn [app runRecords]. destruct (stepOf body (asRead a) s) as [[e|] s']; [reflexivity|].
  apply IH.
Qed.

Lemma Forall_fits_app (l1 l2 : list netlink.Attribute) :
  Forall fits (l1 ++ l2) <-> Forall fits l1 /\ Forall fits l2.
Proof. apply Forall_app. Qed.

(** *** Unknown attribute types *)

Lemma stepOf_alert_unknown (a : netlink.Attribute) (m : gmap Z Value) :
  handledByAlert (netlink.Type_ a) = false ->
  stepOf decodeAlert_body (asRead a) m = (None, m).
Proof.
  unfold handledByAlert, stepOf, decodeAlert_body, netlink.Type', asRead.
  cbn [existsb netlink.ad_a netlink.Type_]. intros H.
  repeat (apply orb_false_elim in H as [H1 H]; rewrite H1; clear H1).
  reflexivity.
Qed.

Lemma stepOf_config_unknown (a : netlink.Attribute) (m : gmap Z Value) :
  handledByConfig (netlink.Type_ a) = false ->
  stepOf decodeConfig_body (asRead a) m = (None, m).
Proof.
  unfold handledByConfig, stepOf, decodeConfig_body, netlink.Type', asRead.
  cbn [existsb netlink.ad_a netlink.Type_]. intros H.
  repeat (apply orb_false_elim in H as [H1 H]; rewrite H1; clear H1).
  reflexivity.
Qed.

(** X1.  A record of a type the decoder has no case for is passed
    over: the result of decodeAlert, and of decodeConfig, on a stream
    of records is the same with and without it, wherever it stands. *)
Theorem decoders_skip_unknown_types
    (l1 l2 : list netlink.Attribute) (a : netlink.Attribute) :
  Forall fits (l1 ++ a :: l2) ->
  (handledByAlert (netlink.Type_ a) = false ->
   decodeAlert (encodeRecords (l1 ++ a :: l2)) = decodeAlert (encodeRecords (l1 ++ l2))) /\
  (handledByConfig (netlink.Type_ a) = false ->
   decodeConfig (encodeRecords (l1 ++ a :: l2)) = decodeConfig (encodeRecords (l1 ++ l2))).
Proof.
  intros Hfit.
  assert (Hfit' : Forall fits (l1 ++ l2)).
  { apply Forall_fits_app in Hfit as [H1 H2]. apply Forall_fits_app.
    inversion H2; subst. auto. }
  split; intros Hun.
  - rewrite !decodeAlert_records by assumption.
    rewrite !runRecords_app. cbn [runRecords].
    destruct (runRecords decodeAlert_body l1 ∅) as [[e|] m]; [reflexivity|].
    rewrite (stepOf_alert_unknown a m Hun). reflexivity.
  - rewrite !decodeConfig_records by assumption.
    rewrite !runRecords_app. cbn [runRecords].
    destruct (runRecords decodeConfig_body l1 ∅) as [[e|] m]; [reflexivity|].
    rewrite (stepOf_config_unknown a m Hun). reflexivity.
Qed.

Lemma decoders_skip_unknown_types_witness :
  decodeAlert (encodeRecords ([uintRecord 8 ATTR_PC 7]
                 ++ uintRecord 4 ATTR_HW_TRAP_COUNT 3 :: [bytesRecord ATTR_PAYLOAD payload10]))
    = decodeAlert (encodeRecords ([uintRecord 8 ATTR_PC 7]
                     ++ [bytesRecord ATTR_PAYLOAD payload10])) /\
  decodeConfig (encodeRecords ([uintRecord 1 ATTR_ALERT_MODE 1]
                  ++ uintRecord 8 ATTR_PC 7 :: [uintRecord 4 ATTR_QUEUE_LEN 4096]))
    = decodeConfig (encodeRecords ([uintRecord 1 ATTR_ALERT_MODE 1]
                      ++ [uintRecord 4 ATTR_QUEUE_LEN 4096])).
Proof.
  split.
  - refine (proj1 (decoders_skip_unknown_types [uintRecord 8 ATTR_PC 7]
                     [bytesRecord ATTR_PAYLOAD payload10]
                     (uintRecord 4 ATTR_HW_TRAP_COUNT 3) _) eq_refl).
    repeat constructor; vm_compute; congruence.
  - refine (proj2 (decoders_skip_unknown_types [uintRecord 1 ATTR_ALERT_MODE 1]
                     [uintRecord 4 ATTR_QUEUE_LEN 4096]
                     (uintRecord 8 ATTR_PC 7) _) eq_refl).
    repeat constructor; vm_compute; congruence.
Defined.

(** *** Attributes of the wrong width *)

(** Settle the tests between two constants. *)
Ltac decide_tests :=
  repeat match goal with
  | |- context [Z.eqb ?x ?y] =>
      let b := eval vm_compute in (Z.eqb x y) in
      match b with
      | true => change (Z.eqb x y) with true
      | false => change (Z.eqb x y) with false
      end
  end; cbv iota.

Lemma UintN_wrong_width (n : nat) (ad : netlink.AttributeDecoder) :
  netlink.ad_err ad = None -> len (netlink.data ad) <> Z.of_nat n ->
  exists e, netlink.UintN n ad = (0, netlink.setErr ad (Some e)).
Proof.
  intros He Hl. unfold netlink.UintN. rewrite He.
  destruct (Z.eqb_spec (len (netlink.data ad)) (Z.of_nat n)); [contradiction|].
  eauto.
Qed.

Ltac wrong_width n Hl :=
  unfold netlink.Uint8, netlink.Uint16, netlink.Uint32, netlink.Uint64;
  match goal with
  | |- context [netlink.UintN n ?ad] =>
      let e := fresh "e" in
      let H := fresh "H" in
      destruct (UintN_wrong_width n ad eq_refl Hl) as [e H]; rewrite H;
      cbv beta iota; cbn [netlink.setErr netlink.ad_err];
      eexists; eexists; reflexivity
  end.

Lemma stepOf_alert_wrong_width (a : netlink.Attribute) (m : gmap Z Value) (n : Z) :
  alertWidth (netlink.Type_ a) = Some n -> len (netlink.Data a) <> n ->
  exists e m', stepOf decodeAlert_body (asRead a) m = (Some e, m').
Proof.
  unfold alertWidth, stepOf, decodeAlert_body, netlink.Type', asRead.
  cbn [netlink.ad_a netlink.Type_].
  set (t := Z.land (netlink.Type_ a) netlink.attrTypeMask).
  intros Hw Hl.
  destruct (Z.eqb_spec t ATTR_PC) as [E|_].
  { inversion Hw; subst n. try rewrite E. decide_tests. wrong_width 8%nat Hl. }
  destruct (Z.eqb_spec t ATTR_TIMESTAMP) as [E|_].
  { inversion Hw; subst n. try rewrite E. decide_tests. wrong_width 8%nat Hl. }
  cbn [orb] in Hw.
  destruct (Z.eqb_spec t ATTR_PROTO) as [E|_].
  { inversion Hw; subst n. try rewrite E. decide_tests. wrong_width 2%nat Hl. }
  destruct (Z.eqb_spec t ATTR_ORIGIN) as [E|_].
  { inversion Hw; subst n. try rewrite E. decide_tests. wrong_width 2%nat Hl. }
  cbn [orb] in Hw.
  destruct (Z.eqb_spec t ATTR_ORIG_LEN) as [E|_]; [|discriminate].
  inversion Hw; subst n. try rewrite E. decide_tests. wrong_width 4%nat Hl.
Qed.

Lemma stepOf_config_wrong_width (a : netlink.Attribute) (m : gmap Z Value) (n : Z) :
  configWidth (netlink.Type_ a) = Some n -> len (netlink.Data a) <> n ->
  exists e m', stepOf decodeConfig_body (asRead a) m = (Some e, m').
Proof.
  unfold configWidth, stepOf, decodeConfig_body, netlink.Type', asRead.
  cbn [netlink.ad_a netlink.Type_].
  set (t := Z.land (netlink.Type_ a) netlink.attrTypeMask).
  intros Hw Hl.
  destruct (Z.eqb_spec t ATTR_ALERT_MODE) as [E|_].
  { inversion Hw; subst n. try rewrite E. decide_tests. wrong_width 1%nat Hl. }
  destruct (Z.eqb_spec t ATTR_TRUNC_LEN) as [E|_].
  { inversion Hw; subst n. try rewrite E. decide_tests. wrong_width 4%nat Hl. }
  cbn [orb] in Hw.
  destruct (Z.eqb_spec t ATTR_QUEUE_LEN) as [E|_]; [|discriminate].
  inversion Hw; subst n. try rewrite E. decide_tests. wrong_width 4%nat Hl.
Qed.

(** X2.  A numeric attribute whose data do not have the width the
    decoder reads it with (8 bytes for the program counter and the
    timestamp, 2 for protocol and origin, 4 for the original length;
    1 for the alert mode, 4 for the truncation and queue lengths)
    makes decodeAlert, respectively decodeConfig, return an error and
    a nil map, whatever the other records hold. *)
Theorem decoders_reject_wrong_width
    (l1 l2 : list netlink.Attribute) (a : netlink.Attribute) (n : Z) :
  Forall fits (l1 ++ a :: l2) -> len (netlink.Data a) <> n ->
  (alertWidth (netlink.Type_ a) = Some n ->
   exists e, decodeAlert (encodeRecords (l1 ++ a :: l2)) = (None, Some e)) /\
  (configWidth (netlink.Type_ a) = Some n ->
   exists e, decodeConfig (encodeRecords (l1 ++ a :: l2)) = (None, Some e)).
Proof.
  intros Hfit Hl. split; intros Hw.
  - rewrite decodeAlert_records by assumption.
    rewrite runRecords_app. cbn [runRecords].
    destruct (runRecords decodeAlert_body l1 ∅) as [[e|] m]; [eauto|].
    destruct (stepOf_alert_wrong_width a m n Hw Hl) as (e & m' & ->). eauto.
  - rewrite decodeConfig_records by assumption.
    rewrite runRecords_app. cbn [runRecords].
    destruct (runRecords decodeConfig_body l1 ∅) as [[e|] m]; [eauto|].
    destruct (stepOf_config_wrong_width a m n Hw Hl) as (e & m' & ->). eauto.
Qed.

Lemma decoders_reject_wrong_width_witness :
  (exists e,
     decodeAlert (encodeRecords ([bytesRecord ATTR_PAYLOAD payload10]
                    ++ uintRecord 4 ATTR_PC 7 :: [uintRecord 2 ATTR_PROTO 0x0800]))
       = (None, Some e)) /\
  (exists e,
     decodeConfig (encodeRecords ([uintRecord 1 ATTR_ALERT_MODE 1]
                     ++ uintRecord 2 ATTR_TRUNC_LEN 100 :: []))
       = (None, Some e)).
Proof.
  split.
  - refine (proj1 (decoders_reject_wrong_width [bytesRecord ATTR_PAYLOAD payload10]
                     [uintRecord 2 ATTR_PROTO 0x0800]
                     (uintRecord 4 ATTR_PC 7) 8 _ _) eq_refl).
    + repeat constructor; vm_compute; congruence.
    + vm_compute; congruence.
  - refine (proj2 (decoders_reject_wrong_width [uintRecord 1 ATTR_ALERT_MODE 1]
                     [] (uintRecord 2 ATTR_TRUNC_LEN 100) 4 _ _) eq_refl).
    + repeat constructor; vm_compute; congruence.
    + vm_compute; congruence.
Defined.

(** *** Records that decode *)

Lemma UintN_uintRecord (n : nat) (typ v : Z) (b : list byte) (i : Z) :
  0 <= v < 2 ^ (Z.of_nat n * 8) ->
  netlink.UintN n (netlink.mkDecoder b i (asRead (uintRecord n typ v)) None)
    = (v, netlink.mkDecoder b i (asRead (uintRecord n typ v)) None).
Proof.
  intros Hv. unfold netlink.UintN, netlink.data, asRead, uintRecord.
  cbn [netlink.ad_err netlink.ad_a netlink.Data].
  replace (len (netlink.nlencPutUint n v) =? Z.of_nat n) with true
    by (unfold netlink.nlencPutUint, len; rewrite length_le_split, Z.eqb_refl;
        reflexivity).
  rewrite nlencUint_Put by exact Hv. reflexivity.
Qed.

Lemma fits_uintRecord (n : nat) (typ v : Z) :
  0 <= typ < 2 ^ 16 -> (n <= 8)%nat -> fits (uintRecord n typ v).
Proof.
  intros Ht Hn. split; [exact Ht|]. unfold uintRecord, netlink.nlencPutUint, len.
  cbn [netlink.Data]. rewrite length_le_split. unfold netlink.nlaHeaderLen. lia.
Qed.

Ltac step_uint n Hv :=
  unfold stepOf, decodeAlert_body, decodeConfig_body, decodeAlert_port_body,
    netlink.Type';
  cbn [netlink.ad_a netlink.Type_ asRead uintRecord];
  decide_tests;
  unfold netlink.Uint8, netlink.Uint16, netlink.Uint32, netlink.Uint64;
  match goal with
  | |- context [netlink.UintN n (netlink.mkDecoder ?b ?i
                                   (asRead (uintRecord n ?typ ?v)) None)] =>
      rewrite (UintN_uintRecord n typ v b i Hv); reflexivity
  end.

Lemma step_ORIGIN (v : Z) (m : gmap Z Value) :
  0 <= v < 2 ^ 16 ->
  stepOf decodeAlert_body (asRead (uintRecord 2 ATTR_ORIGIN v)) m
    = (None, <[ATTR_ORIGIN := VUint16 v]> m).
Proof. intros Hv. step_uint 2%nat Hv. Qed.

Lemma step_PC (v : Z) (m : gmap Z Value) :
  0 <= v < 2 ^ 64 ->
  stepOf decodeAlert_body (asRead (uintRecord 8 ATTR_PC v)) m
    = (None, <[ATTR_PC := VUint64 v]> m).
Proof. intros Hv. step_uint 8%nat Hv. Qed.

Lemma step_TIMESTAMP (v : Z) (m : gmap Z Value) :
  0 <= v < 2 ^ 64 ->
  stepOf decodeAlert_body (asRead (uintRecord 8 ATTR_TIMESTAMP v)) m
    = (None, <[ATTR_TIMESTAMP := VUint64 v]> m).
Proof. intros Hv. step_uint 8%nat Hv. Qed.

Lemma step_ORIG_LEN (v : Z) (m : gmap Z Value) :
  0 <= v < 2 ^ 32 ->
  stepOf decodeAlert_body (asRead (uintRecord 4 ATTR_ORIG_LEN v)) m
    = (None, <[ATTR_ORIG_LEN := VUint32 v]> m).
Proof. intros Hv. step_uint 4%nat Hv. Qed.

Lemma step_PROTO (v : Z) (m : gmap Z Value) :
  0 <= v < 2 ^ 16 ->
  stepOf decodeAlert_body (asRead (uintRecord 2 ATTR_PROTO v)) m
    = (None, <[ATTR_PROTO := VUint16 v]> m).
Proof. intros Hv. step_uint 2%nat Hv. Qed.

Lemma step_PAYLOAD (b : list byte) (m : gmap Z Value) :
  stepOf decodeAlert_body (asRead (bytesRecord ATTR_PAYLOAD b)) m
    = (None, <[ATTR_PAYLOAD := VBytes b]> m).
Proof. reflexivity. Qed.

Lemma trimRightNul_snoc (s : list byte) :
  netlink.trimRightNul (s ++ [Byte.x00]) = netlink.trimRightNul s.
Proof.
  induction s as [|x s IH]; [reflexivity|].
  cbn [app netlink.trimRightNul]. rewrite IH. reflexivity.
Qed.

Lemma step_SYMBOL (s : list byte) (m : gmap Z Value) :
  stepOf decodeAlert_body (asRead (stringRecord ATTR_SYMBOL s)) m
    = (None, <[ATTR_SYMBOL := VString (netlink.trimRightNul s)]> m).
Proof.
  unfold stepOf, decodeAlert_body, netlink.Type', netlink.String', netlink.data.
  cbn [netlink.ad_a netlink.Type_ netlink.ad_err netlink.Data asRead stringRecord].
  decide_tests. rewrite trimRightNul_snoc. reflexivity.
Qed.

Lemma step_IFINDEX (v : Z) (a : gmap Z Value) :
  0 <= v < 2 ^ 32 ->
  stepOf decodeAlert_port_body (asRead (uintRecord 4 NATTR_PORT_NETDEV_IFINDEX v)) a
    = (None, <[NATTR_PORT_NETDEV_IFINDEX := VUint32 v]> a).
Proof. intros Hv. step_uint 4%nat Hv. Qed.

Lemma step_IFNAME (s : list byte) (a : gmap Z Value) :
  stepOf decodeAlert_port_body (asRead (stringRecord NATTR_PORT_NETDEV_NAME s)) a
    = (None, <[NATTR_PORT_NETDEV_NAME := VString (netlink.trimRightNul s)]> a).
Proof.
  unfold stepOf, decodeAlert_port_body, netlink.Type', netlink.String', netlink.data.
  cbn [netlink.ad_a netlink.Type_ netlink.ad_err netlink.Data asRead stringRecord].
  decide_tests. rewrite trimRightNul_snoc. reflexivity.
Qed.

(** A nested port attribute: the inner records are decoded on their
    own, and their error, if any, becomes the error of the alert. *)
Lemma step_IN_PORT (inner : list netlink.Attribute) (m : gmap Z Value) :
  Forall fits inner ->
  stepOf decodeAlert_body (asRead (nestedRecord ATTR_IN_PORT inner)) m
    = (fst (runRecords decodeAlert_port_body inner ∅),
       <[ATTR_IN_PORT := VMap (snd (runRecords decodeAlert_port_body inner ∅))]> m).
Proof.
  intros Hfit.
  unfold stepOf, decodeAlert_body, netlink.Type'.
  cbn [netlink.ad_a netlink.Type_ asRead nestedRecord]. decide_tests.
  unfold netlink.Nested, netlink.data, netlink.NewAttributeDecoder.
  unfold asRead, nestedRecord. cbn [netlink.ad_err netlink.ad_a netlink.Data].
  destruct (forNext_records decodeAlert_port_body decodeAlert_port_body_place inner
              (S (length (encodeRecords inner))) [] (netlink.mkAttribute 0 0 []) ∅ Hfit)
    as (ad & Hrun & Herr).
  { pose proof (length_encodeRecords inner). lia. }
  cbn [app] in Hrun. change (len (@nil byte)) with 0 in Hrun. rewrite Hrun.
  unfold netlink.Err. rewrite Herr.
  destruct (fst (runRecords decodeAlert_port_body inner ∅)); reflexivity.
Qed.

Lemma step_ALERT_MODE (v : Z) (m : gmap Z Value) :
  0 <= v < 2 ^ 8 ->
  stepOf decodeConfig_body (asRead (uintRecord 1 ATTR_ALERT_MODE v)) m
    = (None, <[ATTR_ALERT_MODE := VUint8 v]> m).
Proof. intros Hv. step_uint 1%nat Hv. Qed.

Lemma step_TRUNC_LEN (v : Z) (m : gmap Z Value) :
  0 <= v < 2 ^ 32 ->
  stepOf decodeConfig_body (asRead (uintRecord 4 ATTR_TRUNC_LEN v)) m
    = (None, <[ATTR_TRUNC_LEN := VUint32 v]> m).
Proof. intros Hv. step_uint 4%nat Hv. Qed.

Lemma step_QUEUE_LEN (v : Z) (m : gmap Z Value) :
  0 <= v < 2 ^ 32 ->
  stepOf decodeConfig_body (asRead (uintRecord 4 ATTR_QUEUE_LEN v)) m
    = (None, <[ATTR_QUEUE_LEN := VUint32 v]> m).
Proof. intros Hv. step_uint 4%nat Hv. Qed.

(** *** What an alert decodes to *)

(** X3.  Round trip of a whole alert: from the records the kernel
    writes (origin, program counter, symbol, input port with
    interface index and name, timestamp, original length, protocol,
    payload) PacketAlertFromRaw builds an alert whose accessors give
    the program counter, the symbol without its trailing NULs, the
    interface index, the protocol, the original length and the payload
    back. *)
Theorem alert_round_trip
    (origin pc : Z) (symbol : list byte) (ifindex : Z) (ifname : list byte)
    (timestamp origlen proto : Z) (payload : list byte) :
  0 <= origin < 2 ^ 16 -> 0 <= pc < 2 ^ 64 -> 0 <= ifindex < 2 ^ 32 ->
  0 <= timestamp < 2 ^ 64 -> 0 <= origlen < 2 ^ 32 -> 0 <= proto < 2 ^ 16 ->
  fits (stringRecord NATTR_PORT_NETDEV_NAME ifname) ->
  Forall fits (alertRecords origin pc symbol ifindex ifname timestamp origlen
                 proto payload) ->
  exists pa,
    PacketAlertFromRaw
      (encodeRecords (alertRecords origin pc symbol ifindex ifname timestamp origlen
                        proto payload)) = (pa, None) /\
    PC pa = Ok pc /\ Symbol pa = Ok (netlink.trimRightNul symbol) /\
    Link pa = Ok ifindex /\ Proto pa = Ok proto /\ Length pa = Ok origlen /\
    Packet pa = Ok payload.
Proof.
  intros Ho Hpc Hif Hts Hol Hpr Hname Hfit.
  unfold PacketAlertFromRaw. rewrite decodeAlert_records by exact Hfit.
  unfold alertRecords. cbn [runRecords].
  rewrite step_ORIGIN by exact Ho. rewrite step_PC by exact Hpc.
  rewrite step_SYMBOL. rewrite step_IN_PORT.
  2:{ constructor; [apply fits_uintRecord; [split; [compute; discriminate|reflexivity]|lia]|].
      constructor; [exact Hname|constructor]. }
  cbn [runRecords]. rewrite step_IFINDEX by exact Hif. rewrite step_IFNAME.
  cbn [fst snd].
  rewrite step_TIMESTAMP by exact Hts. rewrite step_ORIG_LEN by exact Hol.
  rewrite step_PROTO by exact Hpr. rewrite step_PAYLOAD.
  eexists. split; [reflexivity|].
  unfold PC, Symbol, Link, Proto, Length, Packet, attr. cbn [attrs].
  repeat split.
Qed.

Lemma alert_round_trip_witness :
  exists pa,
    PacketAlertFromRaw
      (encodeRecords (alertRecords 0 0xffffffff81234567 [Byte.x6b; Byte.x66] 2
                        [Byte.x6c; Byte.x6f] 1600000000 1500 0x0800 payload20))
      = (pa, None) /\
    PC pa = Ok 0xffffffff81234567 /\
    Symbol pa = Ok (netlink.trimRightNul [Byte.x6b; Byte.x66]) /\
    Link pa = Ok 2 /\ Proto pa = Ok 0x0800 /\ Length pa = Ok 1500 /\
    Packet pa = Ok payload20.
Proof.
  refine (alert_round_trip 0 0xffffffff81234567 [Byte.x6b; Byte.x66] 2
            [Byte.x6c; Byte.x6f] 1600000000 1500 0x0800 payload20
            _ _ _ _ _ _ _ _); try lia.
  - split; vm_compute; [split|]; congruence.
  - repeat constructor; vm_compute; congruence.
Defined.

Lemma decodeAlert_ok_run (l : list netlink.Attribute) (m : gmap Z Value) :
  Forall fits l -> decodeAlert (encodeRecords l) = (Some m, None) ->
  runRecords decodeAlert_body l ∅ = (None, m).
Proof.
  intros Hfit H. rewrite decodeAlert_records in H by exact Hfit.
  destruct (runRecords decodeAlert_body l ∅) as [[e|] m']; inversion H. reflexivity.
Qed.

(** X4.  The value of a later record replaces the one of an earlier
    record of the same type: after any records that decode, a final
    protocol (or payload) record decides what Proto (or Packet)
    returns. *)
Theorem decodeAlert_last_record_wins
    (l : list netlink.Attribute) (m : gmap Z Value) (p : Z) (payload : list byte) :
  Forall fits l -> decodeAlert (encodeRecords l) = (Some m, None) ->
  (0 <= p < 2 ^ 16 ->
   decodeAlert (encodeRecords (l ++ [uintRecord 2 ATTR_PROTO p]))
     = (Some (<[ATTR_PROTO := VUint16 p]> m), None) /\
   Proto (fst (PacketAlertFromRaw (encodeRecords (l ++ [uintRecord 2 ATTR_PROTO p]))))
     = Ok p) /\
  (fits (bytesRecord ATTR_PAYLOAD payload) ->
   decodeAlert (encodeRecords (l ++ [bytesRecord ATTR_PAYLOAD payload]))
     = (Some (<[ATTR_PAYLOAD := VBytes payload]> m), None) /\
   Packet (fst (PacketAlertFromRaw (encodeRecords (l ++ [bytesRecord ATTR_PAYLOAD payload]))))
     = Ok payload).
Proof.
  intros Hfit Hdec. pose proof (decodeAlert_ok_run l m Hfit Hdec) as Hrun.
  split.
  - intros Hp.
    assert (H : decodeAlert (encodeRecords (l ++ [uintRecord 2 ATTR_PROTO p]))
                = (Some (<[ATTR_PROTO := VUint16 p]> m), None)).
    { rewrite decodeAlert_records.
      - rewrite runRecords_app, Hrun. cbn [runRecords].
        rewrite step_PROTO by exact Hp. reflexivity.
      - apply Forall_fits_app. split; [exact Hfit|].
        constructor; [|constructor].
        apply fits_uintRecord; [split; [compute; discriminate|reflexivity]|lia]. }
    split; [exact H|]. unfold PacketAlertFromRaw. rewrite H.
    unfold Proto, attr. cbn [fst attrs]. rewrite lookup_insert_eq. reflexivity.
  - intros Hpl.
    assert (H : decodeAlert (encodeRecords (l ++ [bytesRecord ATTR_PAYLOAD payload]))
                = (Some (<[ATTR_PAYLOAD := VBytes payload]> m), None)).
    { rewrite decodeAlert_records.
      - rewrite runRecords_app, Hrun. cbn [runRecords].
        rewrite step_PAYLOAD. reflexivity.
      - apply Forall_fits_app. split; [exact Hfit|]. constructor; [exact Hpl|constructor]. }
    split; [exact H|]. unfold PacketAlertFromRaw. rewrite H.
    unfold Packet, attr. cbn [fst attrs]. rewrite lookup_insert_eq. reflexivity.
Qed.

Lemma decodeAlert_last_record_wins_witness :
  Proto (fst (PacketAlertFromRaw
                (encodeRecords ([uintRecord 2 ATTR_PROTO 0x0800; uintRecord 8 ATTR_PC 7]
                                  ++ [uintRecord 2 ATTR_PROTO 0x86DD]))))
    = Ok 0x86DD.
Proof.
  refine (proj2 (proj1 (decodeAlert_last_record_wins
            [uintRecord 2 ATTR_PROTO 0x0800; uintRecord 8 ATTR_PC 7]
            (<[ATTR_PC := VUint64 7]> (<[ATTR_PROTO := VUint16 0x0800]> ∅))
            0x86DD [] _ _) _)).
  - repeat constructor; vm_compute; congruence.
  - vm_compute. reflexivity.
  - lia.
Defined.

(** *** Config *)

Lemma decodeConfig_truncated (raw : list byte) :
  Truncated raw -> exists e, decodeConfig raw = (None, Some e).
Proof.
  intros Ht. unfold decodeConfig, netlink.NewAttributeDecoder.
  destruct (forNext_total decodeConfig_body decodeConfig_body_framed
              (S (length raw))
              (netlink.mkDecoder raw 0 (netlink.mkAttribute 0 0 []) None) ∅)
    as [[dec ret'] Hrun].
  { simpl. unfold len. lia. }
  rewrite Hrun. simpl.
  assert (Herr : netlink.ad_err dec <> None).
  { eapply (forNext_truncated decodeConfig_body decodeConfig_body_framed);
      [|left|exact Hrun]; [simpl; lia|exact Ht]. }
  unfold netlink.Err. destruct (netlink.ad_err dec) as [e|]; [|congruence].
  exists e. reflexivity.
Qed.

Lemma decodeConfig_configRecords (mode trunc queue : Z) :
  0 <= mode < 2 ^ 8 -> 0 <= trunc < 2 ^ 32 -> 0 <= queue < 2 ^ 32 ->
  decodeConfig (encodeRecords (configRecords mode trunc queue))
    = (Some (<[ATTR_QUEUE_LEN := VUint32 queue]>
               (<[ATTR_TRUNC_LEN := VUint32 trunc]>
                  (<[ATTR_ALERT_MODE := VUint8 mode]> ∅))), None).
Proof.
  intros Hm Ht Hq. rewrite decodeConfig_records.
  - unfold configRecords. cbn [runRecords].
    rewrite step_ALERT_MODE by exact Hm. rewrite step_TRUNC_LEN by exact Ht.
    rewrite step_QUEUE_LEN by exact Hq. reflexivity.
  - repeat (constructor;
              [apply fits_uintRecord; [split; [compute; discriminate|reflexivity]|lia]|]).
    constructor.
Qed.

(** X5.  Round trip of the configuration: when the request is sent and
    the first message received holds the records of a configuration
    (alert mode, truncation length, queue length), Config returns
    exactly these three values, under the three attribute codes and
    with the widths 8, 32 and 32 bits.  The request setPacketMode
    sends is such a sequence of records, for mode 1 (packet), length
    100 and queue 4096. *)
Theorem Config_returns_kernel_values (w : World) (s : Session)
    (mode trunc queue : Z) (m0 : Message) (rest : list Message) :
  let m := mkMessage CMD_CONFIG_GET 0 [] in
  let c1 := conn s ++ [Send m (fam s) netlink.Request None] in
  0 <= mode < 2 ^ 8 -> 0 <= trunc < 2 ^ 32 -> 0 <= queue < 2 ^ 32 ->
  onSend w (conn s) m (fam s) netlink.Request = None ->
  onReceive w c1 = (m0 :: rest, None) ->
  Data m0 = encodeRecords (configRecords mode trunc queue) ->
  fst (Config w s)
    = Ok (Some (<[ATTR_QUEUE_LEN := VUint32 queue]>
                  (<[ATTR_TRUNC_LEN := VUint32 trunc]>
                     (<[ATTR_ALERT_MODE := VUint8 mode]> ∅))), None) /\
  packetModeBytes = encodeRecords (configRecords ALERT_MODE_PACKET 100 4096).
Proof.
  cbv zeta. intros Hm Ht Hq Hsend Hrecv Hdata.
  split; [|reflexivity].
  run_session. rewrite Hsend. cbn [conn fam group]. rewrite Hrecv.
  cbn [fst snd]. rewrite Hdata.
  rewrite decodeConfig_configRecords by assumption. reflexivity.
Qed.

Lemma Config_returns_kernel_values_witness :
  fst (Config configWorld idleSession)
    = Ok (Some (<[ATTR_QUEUE_LEN := VUint32 4096]>
                  (<[ATTR_TRUNC_LEN := VUint32 100]>
                     (<[ATTR_ALERT_MODE := VUint8 1]> ∅))), None).
Proof.
  refine (proj1 (Config_returns_kernel_values configWorld idleSession 1 100 4096
                   (mkMessage CMD_CONFIG_NEW 2 packetModeBytes) []
                   _ _ _ eq_refl eq_refl eq_refl)); lia.
Defined.

(** X6.  Config never returns a snapshot together with an error: it
    panics, or returns a map and nil, or returns a nil map and an error
    wrapped as "config: ...".  It returns such an error when the
    request cannot be sent, when the receive fails, and when the first
    message is a malformed attribute stream. *)
Theorem Config_outcomes (w : World) (s : Session) :
  let m := mkMessage CMD_CONFIG_GET 0 [] in
  let r1 := onSend w (conn s) m (fam s) netlink.Request in
  let c1 := conn s ++ [Send m (fam s) netlink.Request r1] in
  ((exists why, fst (Config w s) = Panic why) \/
   (exists conf, fst (Config w s) = Ok (Some conf, None)) \/
   (exists e, fst (Config w s) = Ok (None, Some (Errorf "config" e)))) /\
  (forall e, r1 = Some e ->
     Config w s = (Ok (None, Some (Errorf "config" e)), withConn s c1)) /\
  (forall e, r1 = None -> snd (onReceive w c1) = Some e ->
     fst (Config w s) = Ok (None, Some (Errorf "config" e))) /\
  (forall m0 rest, r1 = None -> onReceive w c1 = (m0 :: rest, None) ->
     Truncated (Data m0) ->
     exists e, fst (Config w s) = Ok (None, Some (Errorf "config" e))).
Proof.
  cbv zeta. run_session.
  destruct (onSend w (conn s) _ _ _) as [e1|] eqn:E1.
  { split; [right; right; eauto|].
    split; [intros e He; inversion He; reflexivity|].
    split; [discriminate|discriminate]. }
  destruct (onReceive w _) as [ms [e2|]] eqn:E2; cbn [fst snd].
  { split; [right; right; eauto|].
    split; [discriminate|].
    split; [intros e _ He; inversion He; reflexivity|].
    intros m0 rest _ H. discriminate. }
  destruct ms as [|m0 ms].
  { split; [left; eauto|].
    split; [discriminate|]. split; [discriminate|].
    intros m0 rest _ H. discriminate. }
  split.
  { destruct (decodeConfig_returns (Data m0)) as [[conf ->]|[e ->]]; cbn [fst];
      [right; left; eauto|right; right; eauto]. }
  split; [discriminate|]. split; [discriminate|].
  intros m0' rest _ H Ht. inversion H; subst m0' rest.
  destruct (decodeConfig_truncated (Data m0) Ht) as [e ->]. eauto.
Qed.

Lemma Config_outcomes_witness :
  exists e,
    fst (Config malformedReplyWorld idleSession)
      = Ok (None, Some (Errorf "config" e)).
Proof.
  refine (proj2 (proj2 (proj2 (Config_outcomes malformedReplyWorld idleSession)))
            (mkMessage CMD_CONFIG_NEW 2 truncatedAlert) [] eq_refl eq_refl _).
  exact truncatedAlert_Truncated.
Defined.

(** *** The values decodeAlert stores *)

Lemma forNext_invariant {S : Type} (P : S -> Prop)
    (body : netlink.AttributeDecoder -> S -> netlink.AttributeDecoder * S) :
  (forall ad s, P s -> P (snd (body ad s))) ->
  forall fuel ad s r, P s -> netlink.forNext fuel body ad s = Some r -> P (snd r).
Proof.
  intros Hbody. induction fuel as [|fuel IH]; intros ad s r Hs H; [discriminate|].
  cbn [netlink.forNext] in H. destruct (netlink.Next ad) as [more ad1].
  destruct more.
  - specialize (Hbody ad1 s Hs). destruct (body ad1 s) as [ad2 s2].
    eapply IH; [exact Hbody|exact H].
  - inversion H; subst. exact Hs.
Qed.

Lemma WellTyped_empty (OK : Z -> Value -> Prop) : WellTyped OK ∅.
Proof. intros k v H. rewrite lookup_empty in H. discriminate. Qed.

Lemma WellTyped_insert (OK : Z -> Value -> Prop) (m : gmap Z Value) (k : Z) (v : Value) :
  WellTyped OK m -> OK k v -> WellTyped OK (<[k := v]> m).
Proof.
  intros Hm Hv k' v' H. destruct (decide (k = k')) as [<-|Hne].
  - rewrite lookup_insert_eq in H. inversion H; subst. exact Hv.
  - rewrite lookup_insert_ne in H by exact Hne. apply Hm. exact H.
Qed.

Lemma UintN_range (n : nat) (ad : netlink.AttributeDecoder) :
  0 <= fst (netlink.UintN n ad) < 2 ^ (8 * Z.of_nat n).
Proof.
  assert (H0 : 0 <= 0 < 2 ^ (8 * Z.of_nat n)).
  { split; [lia|]. apply Z.pow_pos_nonneg; lia. }
  unfold netlink.UintN. destruct (netlink.ad_err ad); [exact H0|].
  destruct (Z.eqb_spec (len (netlink.data ad)) (Z.of_nat n)) as [E|_]; [|exact H0].
  cbn [fst]. unfold netlink.nlencUint.
  pose proof (le_combine_bound (netlink.data ad)) as Hb.
  unfold len in E. rewrite <- E. exact Hb.
Qed.

Ltac typed_uint n dec Hm :=
  unfold netlink.Uint8, netlink.Uint16, netlink.Uint32, netlink.Uint64;
  let H := fresh "Hr" in
  pose proof (UintN_range n dec) as H;
  let v := fresh "v" in
  let d' := fresh "d" in
  destruct (netlink.UintN n dec) as [v d']; cbn [fst snd] in *;
  apply WellTyped_insert; [exact Hm|]; eexists; split; [reflexivity|exact H].

Lemma decodeAlert_port_body_typed (d : netlink.AttributeDecoder) (a : gmap Z Value) :
  WellTyped portValueOK a -> WellTyped portValueOK (snd (decodeAlert_port_body d a)).
Proof.
  intros Hm. unfold decodeAlert_port_body.
  destruct (_ =? NATTR_PORT_NETDEV_IFINDEX); [typed_uint 4%nat d Hm|].
  destruct (_ =? NATTR_PORT_NETDEV_NAME); [|exact Hm].
  cbn [snd]. apply WellTyped_insert; [exact Hm|]. eexists. reflexivity.
Qed.

Lemma Nested_port_typed (dec : netlink.AttributeDecoder) :
  WellTyped portValueOK (snd (netlink.Nested decodeAlert_port_body dec ∅)).
Proof.
  unfold netlink.Nested. destruct (netlink.ad_err dec); [apply WellTyped_empty|].
  unfold netlink.NewAttributeDecoder.
  match goal with
  | |- context [netlink.forNext ?n ?b ?d ?x] =>
      destruct (netlink.forNext n b d x) as [[nad' a]|] eqn:E;
        [|apply WellTyped_empty]
  end.
  apply (forNext_invariant (WellTyped portValueOK)) in E;
    [|intros; apply decodeAlert_port_body_typed; assumption|apply WellTyped_empty].
  destruct (netlink.Err nad'); exact E.
Qed.

Lemma decodeAlert_body_typed (dec : netlink.AttributeDecoder) (ret : gmap Z Value) :
  WellTyped alertValueOK ret -> WellTyped alertValueOK (snd (decodeAlert_body dec ret)).
Proof.
  intros Hm. unfold decodeAlert_body.
  destruct (_ =? ATTR_PC); [typed_uint 8%nat dec Hm|].
  destruct (_ =? ATTR_SYMBOL).
  { cbn [snd]. apply WellTyped_insert; [exact Hm|]. eexists. reflexivity. }
  destruct (_ =? ATTR_IN_PORT).
  { pose proof (Nested_port_typed dec) as Hn.
    destruct (netlink.Nested _ _ _) as [d a]. cbn [snd] in *.
    apply WellTyped_insert; [exact Hm|]. exists a. split; [reflexivity|exact Hn]. }
  destruct (_ =? ATTR_TIMESTAMP); [typed_uint 8%nat dec Hm|].
  destruct (_ =? ATTR_PROTO); [typed_uint 2%nat dec Hm|].
  destruct (_ =? ATTR_PAYLOAD).
  { cbn [snd]. apply WellTyped_insert; [exact Hm|]. eexists. reflexivity. }
  destruct (_ =? ATTR_ORIG_LEN); [typed_uint 4%nat dec Hm|].
  destruct (_ =? ATTR_ORIGIN); [typed_uint 2%nat dec Hm|].
  exact Hm.
Qed.

Lemma decodeAlert_typed (raw : list byte) (m : gmap Z Value) (err : option error) :
  decodeAlert raw = (Some m, err) -> WellTyped alertValueOK m.
Proof.
  unfold decodeAlert, netlink.NewAttributeDecoder.
  match goal with
  | |- context [netlink.forNext ?n ?b ?d ?x] =>
      destruct (netlink.forNext n b d x) as [[dec ret]|] eqn:E; [|discriminate]
  end.
  cbn [decode_finish]. destruct (netlink.Err dec); [discriminate|].
  intros H. inversion H; subst.
  apply (forNext_invariant (WellTyped alertValueOK)) in E;
    [exact E|intros; apply decodeAlert_body_typed; assumption|apply WellTyped_empty].
Qed.

(** X7.  No accessor panics on an alert that PacketAlertFromRaw
    returned, whatever the bytes were (also when it returned an error,
    where the alert is the zero alert): decodeAlert stores under every
    key a value of the dynamic type its accessor asserts.  The numbers
    are within their widths: 64 bits for PC, 16 for Proto, 32 for
    Length and Link. *)
Theorem accessors_never_panic (raw : list byte) :
  let pa := fst (PacketAlertFromRaw raw) in
  (exists v, PC pa = Ok v /\ 0 <= v < 2 ^ 64) /\
  (exists s, Symbol pa = Ok s) /\
  (exists v, Proto pa = Ok v /\ 0 <= v < 2 ^ 16) /\
  (exists v, Length pa = Ok v /\ 0 <= v < 2 ^ 32) /\
  (exists v, Link pa = Ok v /\ 0 <= v < 2 ^ 32) /\
  (exists b, Packet pa = Ok b) /\
  (exists b, L3Packet pa = Ok b) /\
  (exists b, Is4 pa = Ok b) /\
  (exists b, Is16 pa = Ok b).
Proof.
  cbv zeta. unfold PacketAlertFromRaw.
  destruct (decodeAlert raw) as [ma [e|]] eqn:E; cbn [fst].
  { unfold PC, Symbol, Proto, Length, Link, Packet, L3Packet, Is4, Is16, Packet,
      Proto, attr. cbn [attrs]. cbn.
    repeat split; eexists; try split; try reflexivity; lia. }
  destruct ma as [m|].
  2:{ unfold PC, Symbol, Proto, Length, Link, Packet, L3Packet, Is4, Is16, Packet,
        Proto, attr. cbn [attrs]. cbn.
      repeat split; eexists; try split; try reflexivity; lia. }
  pose proof (decodeAlert_typed raw m None E) as Hm.
  assert (HPC : exists v, PC (mkPacketAlert (Some m)) = Ok v /\ 0 <= v < 2 ^ 64).
  { unfold PC, attr. cbn [attrs]. destruct (m !! ATTR_PC) as [v|] eqn:L.
    - destruct (Hm _ _ L) as (n & -> & Hn). eauto.
    - exists 0. split; [reflexivity|lia]. }
  assert (HSym : exists s, Symbol (mkPacketAlert (Some m)) = Ok s).
  { unfold Symbol, attr. cbn [attrs]. destruct (m !! ATTR_SYMBOL) as [v|] eqn:L.
    - destruct (Hm _ _ L) as (s & ->). eauto.
    - eauto. }
  assert (HProto : exists v, Proto (mkPacketAlert (Some m)) = Ok v /\ 0 <= v < 2 ^ 16).
  { unfold Proto, attr. cbn [attrs]. destruct (m !! ATTR_PROTO) as [v|] eqn:L.
    - destruct (Hm _ _ L) as (n & -> & Hn). eauto.
    - exists 0. split; [reflexivity|lia]. }
  assert (HLen : exists v, Length (mkPacketAlert (Some m)) = Ok v /\ 0 <= v < 2 ^ 32).
  { unfold Length, attr. cbn [attrs]. destruct (m !! ATTR_ORIG_LEN) as [v|] eqn:L.
    - destruct (Hm _ _ L) as (n & -> & Hn). eauto.
    - exists 0. split; [reflexivity|lia]. }
  assert (HLink : exists v, Link (mkPacketAlert (Some m)) = Ok v /\ 0 <= v < 2 ^ 32).
  { unfold Link, attr. cbn [attrs]. destruct (m !! ATTR_IN_PORT) as [v|] eqn:L.
    - destruct (Hm _ _ L) as (a & -> & Ha).
      destruct (a !! 0) as [v'|] eqn:L'.
      + destruct (Ha _ _ L') as (n & -> & Hn). eauto.
      + exists 0. split; [reflexivity|lia].
    - exists 0. split; [reflexivity|lia]. }
  assert (HPkt : exists b, Packet (mkPacketAlert (Some m)) = Ok b).
  { unfold Packet, attr. cbn [attrs]. destruct (m !! ATTR_PAYLOAD) as [v|] eqn:L.
    - destruct (Hm _ _ L) as (b & ->). eauto.
    - eauto. }
  repeat split; try assumption.
  - destruct HPkt as [b Hb]. unfold L3Packet. rewrite Hb.
    destruct (len b <=? 14); eauto.
  - destruct HProto as (v & Hv & _). unfold Is4. rewrite Hv. eauto.
  - destruct HProto as (v & Hv & _). unfold Is16. rewrite Hv. eauto.
Qed.

(** ** What the session methods call *)

Ltac call_ok Hsend :=
  first [ exact I | apply Hsend; [reflexivity | auto 6] | reflexivity ].
Ltac calls_ok Hsend :=
  repeat (apply Forall_cons_2; [call_ok Hsend|]);
  first [ apply Forall_nil_2 | assumption ].

(** X8.  Config, Start and Stop only add calls to the connection, and
    only these: requests to the family of the session, with the
    request flag and one of the commands CMD_CONFIG, CMD_START,
    CMD_STOP, CMD_CONFIG_GET; receives; and joining or leaving the
    group GRP_ALERT.  They never look a family up and never touch the
    read buffer or the read deadline. *)
Theorem session_methods_calls (w : World) (s : Session) (sw hw : bool) :
  (exists calls, conn (snd (Config w s)) = conn s ++ calls /\
                 Forall (sessionCall (fam s)) calls) /\
  (exists calls, conn (snd (Start w sw hw s)) = conn s ++ calls /\
                 Forall (sessionCall (fam s)) calls) /\
  (exists calls, conn (snd (Stop w sw hw s)) = conn s ++ calls /\
                 Forall (sessionCall (fam s)) calls).
Proof.
  assert (Hsend : forall cmd data flags r,
            Z.land flags netlink.Request = netlink.Request ->
            cmd = CMD_CONFIG \/ cmd = CMD_START \/ cmd = CMD_STOP \/ cmd = CMD_CONFIG_GET ->
            sessionCall (fam s) (Send (mkMessage cmd 0 data) (fam s) flags r)).
  { intros. cbn. auto. }
  assert (HStop : forall c, exists calls,
            conn (snd (Stop w sw hw (withConn s c))) = c ++ calls /\
            Forall (sessionCall (fam s)) calls).
  { intros c. rewrite Stop_eq. cbn [snd conn withConn fam]. rewrite <- app_assoc.
    eexists. split; [reflexivity|]. calls_ok Hsend. }
  split; [|split].
  - run_session.
    destruct (onSend w (conn s) _ _ _).
    { eexists. split; [reflexivity|]. calls_ok Hsend. }
    destruct (onReceive w _) as [ms [e|]].
    { cbn [snd conn]. rewrite <- app_assoc. eexists. split; [reflexivity|].
      calls_ok Hsend. }
    destruct ms as [|m0 ms];
      [|destruct (decodeConfig (Data m0)) as [conf [e|]]];
      cbn [snd conn]; rewrite <- app_assoc; eexists; (split; [reflexivity|]);
      calls_ok Hsend.
  - rewrite Start_eq.
    destruct (onSend w (conn s) _ _ _).
    { eexists. split; [reflexivity|]. calls_ok Hsend. }
    destruct (snd (onReceive w _)).
    { cbn [snd conn withConn]. rewrite <- app_assoc. eexists. split; [reflexivity|].
      calls_ok Hsend. }
    destruct (onSend w _ _ _ _).
    { cbn [snd conn withConn]. rewrite <- !app_assoc. eexists. split; [reflexivity|].
      calls_ok Hsend. }
    destruct (snd (onReceive w _)).
    { cbn [snd].
      match goal with
      | |- exists calls', conn (snd (Stop w sw hw ?x)) = _ /\ _ =>
          destruct (HStop (conn x)) as (calls' & Hc' & Hf')
      end.
      cbn [conn withConn] in Hc'. rewrite Hc', <- !app_assoc.
      eexists. split; [reflexivity|]. cbn [app]. calls_ok Hsend. }
    destruct (onJoinGroup w _ _).
    { cbn [snd].
      match goal with
      | |- exists calls', conn (snd (Stop w sw hw ?x)) = _ /\ _ =>
          destruct (HStop (conn x)) as (calls' & Hc' & Hf')
      end.
      cbn [conn withConn] in Hc'. rewrite Hc', <- !app_assoc.
      eexists. split; [reflexivity|]. cbn [app]. calls_ok Hsend. }
    cbn [snd conn withConn]. rewrite <- !app_assoc. eexists. split; [reflexivity|].
    cbn [app]. calls_ok Hsend.
  - destruct (HStop (conn s)) as (calls & Hc & Hf).
    replace (withConn s (conn s)) with s in Hc by (destruct s; reflexivity).
    eauto.
Qed.

(** *** The group identifier *)

Lemma sameButGroup_withConn (s s' : Session) (c : Conn) :
  sameButGroup s s' -> sameButGroup (withConn s c) (withConn s' c).
Proof. intros [_ Hf]. split; [reflexivity|exact Hf]. Qed.

Lemma Stop_sameButGroup (w : World) (sw hw : bool) (s s' : Session) :
  sameButGroup s s' ->
  fst (Stop w sw hw s) = fst (Stop w sw hw s') /\
  sameButGroup (snd (Stop w sw hw s)) (snd (Stop w sw hw s')).
Proof.
  intros H. rewrite !Stop_eq. destruct H as [Hc Hf]. rewrite Hc, Hf.
  split; [reflexivity|]. split; [reflexivity|exact Hf].
Qed.

Lemma Start_sameButGroup (w : World) (sw hw : bool) (s s' : Session) :
  sameButGroup s s' ->
  fst (Start w sw hw s) = fst (Start w sw hw s') /\
  sameButGroup (snd (Start w sw hw s)) (snd (Start w sw hw s')).
Proof.
  intros H. rewrite !Start_eq. pose proof H as [Hc Hf]. rewrite Hc, Hf.
  destruct (onSend w (conn s') _ _ _);
    [split; [reflexivity|apply sameButGroup_withConn; exact H]|].
  destruct (snd (onReceive w _));
    [split; [reflexivity|apply sameButGroup_withConn; exact H]|].
  destruct (onSend w _ _ _ _);
    [split; [reflexivity|apply sameButGroup_withConn; exact H]|].
  destruct (snd (onReceive w _)).
  { split; [reflexivity|]. cbn [snd].
    apply Stop_sameButGroup, sameButGroup_withConn. exact H. }
  destruct (onJoinGroup w _ _);
    [|split; [reflexivity|apply sameButGroup_withConn; exact H]].
  split; [reflexivity|]. cbn [snd].
  apply Stop_sameButGroup, sameButGroup_withConn. exact H.
Qed.

Lemma Config_sameButGroup (w : World) (s s' : Session) :
  sameButGroup s s' ->
  fst (Config w s) = fst (Config w s') /\
  sameButGroup (snd (Config w s)) (snd (Config w s')).
Proof.
  intros [Hc Hf]. run_session. rewrite Hc, Hf.
  destruct (onSend w (conn s') _ _ _);
    [split; [reflexivity|split; reflexivity]|].
  destruct (onReceive w _) as [ms [e|]];
    [split; [reflexivity|split; reflexivity]|].
  destruct ms as [|m0 ms]; [split; [reflexivity|split; reflexivity]|].
  destruct (decodeConfig (Data m0)) as [conf [e|]];
    split; try reflexivity; split; reflexivity.
Qed.

Lemma readLoop_sameButGroup (w : World) (deadline : Time) (f : PacketAlertFunc) :
  forall fuel seen s s',
    sameButGroup s s' ->
    fst (readLoop w fuel deadline f seen s) = fst (readLoop w fuel deadline f seen s') /\
    sameButGroup (snd (readLoop w fuel deadline f seen s))
      (snd (readLoop w fuel deadline f seen s')).
Proof.
  induction fuel as [|fuel IH]; intros seen s s' H; [split; [reflexivity|exact H]|].
  rewrite !readLoop_round. pose proof H as [Hc Hf]. rewrite Hc.
  destruct (snd (onReceive w _)) as [e|].
  { split; [reflexivity|apply sameButGroup_withConn; exact H]. }
  destruct (rangeMessages f _ seen) as [[r|] seen'].
  { split; [reflexivity|apply sameButGroup_withConn; exact H]. }
  apply IH, sameButGroup_withConn. exact H.
Qed.

(** X9.  No method reads the group identifier NewSession stored: on
    two sessions that differ only in it, Config, Start, Stop and
    ReadUntil return the same result and make the same calls.  (Start
    and Stop join and leave the constant GRP_ALERT.) *)
Theorem group_identifier_unused (w : World) (c : Conn) (family g g' : Z)
    (sw hw : bool) (fuel : nat) (deadline : Time) (f : PacketAlertFunc) :
  let s := mkSession c family g in
  let s' := mkSession c family g' in
  (fst (Config w s) = fst (Config w s') /\
   conn (snd (Config w s)) = conn (snd (Config w s'))) /\
  (fst (Start w sw hw s) = fst (Start w sw hw s') /\
   conn (snd (Start w sw hw s)) = conn (snd (Start w sw hw s'))) /\
  (fst (Stop w sw hw s) = fst (Stop w sw hw s') /\
   conn (snd (Stop w sw hw s)) = conn (snd (Stop w sw hw s'))) /\
  (fst (ReadUntil w fuel deadline f s) = fst (ReadUntil w fuel deadline f s') /\
   conn (snd (ReadUntil w fuel deadline f s))
     = conn (snd (ReadUntil w fuel deadline f s'))).
Proof.
  cbv zeta.
  assert (H : sameButGroup (mkSession c family g) (mkSession c family g'))
    by (split; reflexivity).
  split; [|split; [|split]].
  - destruct (Config_sameButGroup w _ _ H) as [H1 [H2 _]]. auto.
  - destruct (Start_sameButGroup w sw hw _ _ H) as [H1 [H2 _]]. auto.
  - destruct (Stop_sameButGroup w sw hw _ _ H) as [H1 [H2 _]]. auto.
  - rewrite !ReadUntil_eq.
    destruct (readLoop_sameButGroup w deadline f fuel []
                (withConn (mkSession c family g)
                   (c ++ [SetReadBuffer 4096 (onSetReadBuffer w c 4096)]))
                (withConn (mkSession c family g')
                   (c ++ [SetReadBuffer 4096 (onSetReadBuffer w c 4096)])))
      as [H1 [H2 _]]; [split; reflexivity|]. auto.
Qed.

(** *** The calls of ReadUntil *)

Lemma Rounds_app (deadline : Time) (a b : list Call) :
  Rounds deadline a -> Rounds deadline b -> Rounds deadline (a ++ b).
Proof.
  intros Ha Hb. induction Ha; cbn [app]; [exact Hb| |]; constructor; assumption.
Qed.

Lemma readLoop_rounds (w : World) (deadline : Time) (f : PacketAlertFunc) :
  forall fuel seen s,
    exists calls,
      conn (snd (readLoop w fuel deadline f seen s)) = conn s ++ calls /\
      Rounds deadline calls.
Proof.
  induction fuel as [|fuel IH]; intros seen s.
  { exists []. rewrite app_nil_r. split; [reflexivity|constructor]. }
  rewrite readLoop_round.
  set (r := onReceive w (armed w deadline (conn s))).
  assert (Hround : exists calls,
            armed w deadline (conn s) ++ [Receive (fst r) (snd r)] = conn s ++ calls /\
            Rounds deadline calls).
  { unfold armed. destruct (IsZero deadline) eqn:Ez.
    - eexists. split; [reflexivity|]. constructor; [exact Ez|constructor].
    - rewrite <- app_assoc. eexists. split; [reflexivity|].
      cbn [app]. constructor; [exact Ez|constructor]. }
  destruct Hround as (calls & Hc & Hr).
  destruct (snd r) as [e|].
  { cbn [snd conn withConn]. eauto. }
  destruct (rangeMessages f (fst r) seen) as [[res|] seen'].
  { cbn [snd conn withConn]. eauto. }
  destruct (IH seen' (withConn s (armed w deadline (conn s) ++ [Receive (fst r) None])))
    as (calls2 & Hc2 & Hr2).
  cbn [conn withConn] in Hc2. rewrite Hc2, Hc, <- app_assoc.
  eexists. split; [reflexivity|]. apply Rounds_app; assumption.
Qed.

(** X10.  ReadUntil only reads: it sets the read buffer to 4096 bytes
    once, and then makes nothing but Receive calls, each one right
    after setting the read deadline to the deadline it was given, or,
    when that is the zero Time, without ever setting a deadline.  It
    sends nothing and joins or leaves no group. *)
Theorem ReadUntil_calls (w : World) (fuel : nat) (deadline : Time)
    (f : PacketAlertFunc) (s : Session) :
  exists calls,
    conn (snd (ReadUntil w fuel deadline f s))
      = conn s ++ SetReadBuffer 4096 (onSetReadBuffer w (conn s) 4096) :: calls /\
    Rounds deadline calls.
Proof.
  rewrite ReadUntil_eq.
  destruct (readLoop_rounds w deadline f fuel []
              (withConn s (conn s ++ [SetReadBuffer 4096 (onSetReadBuffer w (conn s) 4096)])))
    as (calls & Hc & Hr).
  cbn [conn withConn] in Hc. rewrite Hc, <- app_assoc. eauto.
Qed.

(** *** The answers of the callback *)

Lemma AllTrue_snoc (f : PacketAlertFunc) (seen : list PacketAlert) (pa : PacketAlert) :
  AllTrue f seen -> f seen pa = true -> AllTrue f (seen ++ [pa]).
Proof.
  intros Hall Hpa pre pa' post H.
  destruct post as [|x post] using rev_ind.
  - apply app_inj_tail in H as [-> ->]. exact Hpa.
  - clear IHpost. rewrite app_comm_cons, app_assoc in H.
    apply app_inj_tail in H as [H _]. eapply Hall. exact H.
Qed.

Lemma TrueButLast_snoc (f : PacketAlertFunc) (seen : list PacketAlert) (pa : PacketAlert) :
  AllTrue f seen -> TrueButLast f (seen ++ [pa]).
Proof.
  intros Hall pre pa' post H Hne.
  destruct post as [|x post] using rev_ind; [congruence|].
  clear IHpost. rewrite app_comm_cons, app_assoc in H.
  apply app_inj_tail in H as [H _]. eapply Hall. exact H.
Qed.

Lemma AllTrue_TrueButLast (f : PacketAlertFunc) (seen : list PacketAlert) :
  AllTrue f seen -> TrueButLast f seen.
Proof. intros H pre pa post E _. eapply H. exact E. Qed.

Lemma rangeMessages_answers (f : PacketAlertFunc) :
  forall ms seen r seen',
    AllTrue f seen -> rangeMessages f ms seen = (r, seen') ->
    TrueButLast f seen' /\ (r = None -> AllTrue f seen').
Proof.
  induction ms as [|m ms IH]; intros seen r seen' Hall H.
  - inversion H; subst. split; [apply AllTrue_TrueButLast; exact Hall|auto].
  - cbn [rangeMessages] in H.
    destruct (Command m =? CMD_PACKET_ALERT); cbn [negb] in H;
      [|eapply IH; eassumption].
    destruct (PacketAlertFromRaw (Data m)) as [pa [e|]].
    + inversion H; subst. split; [apply AllTrue_TrueButLast; exact Hall|discriminate].
    + destruct (f seen pa) eqn:Ef; cbn [negb] in H.
      * eapply IH; [apply AllTrue_snoc; eassumption|exact H].
      * inversion H; subst. split; [apply TrueButLast_snoc; exact Hall|discriminate].
Qed.

Lemma readLoop_answers (w : World) (deadline : Time) (f : PacketAlertFunc) :
  forall fuel seen s r seen' s',
    AllTrue f seen -> readLoop w fuel deadline f seen s = (r, seen', s') ->
    TrueButLast f seen' /\ (r <> Some None -> r = None -> AllTrue f seen').
Proof.
  induction fuel as [|fuel IH]; intros seen s r seen' s' Hall H.
  - inversion H; subst. split; [apply AllTrue_TrueButLast; exact Hall|auto].
  - rewrite readLoop_round in H.
    destruct (snd (onReceive w _)) as [e|].
    { inversion H; subst. split; [apply AllTrue_TrueButLast; exact Hall|].
      intros _ Hr. destruct (isTimeout e); discriminate. }
    destruct (rangeMessages f _ seen) as [[res|] sn] eqn:ER.
    + inversion H; subst.
      apply (rangeMessages_answers f _ _ _ _ Hall) in ER as [Hb _].
      split; [exact Hb|discriminate].
    + apply (rangeMessages_answers f _ _ _ _ Hall) in ER as [_ Ha].
      eapply IH; [apply Ha; reflexivity|exact H].
Qed.

Lemma readLoop_failed_receive (w : World) (deadline : Time) (f : PacketAlertFunc) :
  forall fuel seen s r seen' s' c ms e,
    AllTrue f seen -> readLoop w fuel deadline f seen s = (Some r, seen', s') ->
    conn s' = c ++ [Receive ms (Some e)] -> AllTrue f seen'.
Proof.
  induction fuel as [|fuel IH]; intros seen s r seen' s' c ms e Hall E Hlast.
  - inversion E.
  - rewrite readLoop_round in E.
    destruct (snd (onReceive w _)) as [e'|] eqn:Ee.
    { destruct (isTimeout e'); inversion E; subst; exact Hall. }
    destruct (rangeMessages f _ seen) as [[res|] sn] eqn:ER.
    + inversion E; subst. cbn [conn withConn] in Hlast.
      apply app_inj_tail in Hlast as [_ Hlast]. inversion Hlast.
    + apply (rangeMessages_answers f _ _ _ _ Hall) in ER as [_ Ha].
      eapply IH; [apply Ha; reflexivity|exact E|exact Hlast].
Qed.

Lemma readLoop_out_of_fuel (w : World) (deadline : Time) (f : PacketAlertFunc) :
  forall fuel seen s seen' s',
    readLoop w fuel deadline f seen s = (None, seen', s') ->
    conn s' = conn s \/ exists c ms, conn s' = c ++ [Receive ms None].
Proof.
  induction fuel as [|fuel IH]; intros seen s seen' s' E.
  - inversion E; subst. left. reflexivity.
  - rewrite readLoop_round in E. right.
    destruct (snd (onReceive w _)) as [e'|] eqn:Ee;
      [destruct (isTimeout e'); discriminate E|].
    destruct (rangeMessages f _ seen) as [[res|] sn] eqn:ER; [discriminate E|].
    apply IH in E as [E|E]; [|exact E].
    rewrite E. cbn [conn withConn]. eauto.
Qed.

(** X11.  ReadUntil never calls f again once f has answered false:
    of the alerts f was called on, all but the last got the answer
    true.  When ReadUntil returns because a receive failed (timeout or
    not), the last one got the answer true as well. *)
Theorem ReadUntil_stops_at_false (w : World) (fuel : nat) (deadline : Time)
    (f : PacketAlertFunc) (s : Session) :
  let '(r, seen, s') := ReadUntil w fuel deadline f s in
  TrueButLast f seen /\
  ((exists c ms e, conn s' = c ++ [Receive ms (Some e)]) -> AllTrue f seen).
Proof.
  destruct (ReadUntil w fuel deadline f s) as [[r seen] s'] eqn:E.
  rewrite ReadUntil_eq in E.
  assert (Hnil : AllTrue f []).
  { intros pre pa post H. destruct pre; discriminate. }
  split; [eapply readLoop_answers; eassumption|].
  intros (c & ms & e & Hlast).
  destruct r as [r|]; [eapply readLoop_failed_receive; eassumption|].
  apply readLoop_out_of_fuel in E as [E|(c' & ms' & E)];
    rewrite E in Hlast; cbn [conn withConn] in Hlast;
    apply app_inj_tail in Hlast as [_ Hlast]; inversion Hlast.
Qed.

(** *** Monitoring state across the methods *)

Lemma Stop_tracked (w : World) (s : Session) (sw hw : bool) :
  let r1 := onLeaveGroup w (conn s) GRP_ALERT in
  let r2 := onSend w (conn s ++ [LeaveGroup GRP_ALERT r1])
              (mkMessage CMD_STOP 0 (flagBytes sw hw)) (fam s) netlink.Request in
  let t := tracked (conn s) in
  let t' := tracked (conn (snd (Stop w sw hw s))) in
  alerting t' = match r2 with Some _ => alerting t | None => false end /\
  joined t' = match r1 with Some _ => joined t | None => false end.
Proof.
  cbv zeta. rewrite Stop_eq. cbn [snd conn withConn]. rewrite !tracked_snoc.
  destruct (onLeaveGroup w (conn s) GRP_ALERT) as [e1|];
    destruct (onSend w _ _ _ _) as [e2|]; cbn; auto.
Qed.

(** X12.  A Stop on an idle session leaves it idle, whatever its two
    calls return; and a Stop whose two calls are both accepted leaves
    the session idle, whatever state it was in. *)
Theorem Stop_reaches_Idle (w : World) (s : Session) (sw hw : bool) :
  let r1 := onLeaveGroup w (conn s) GRP_ALERT in
  let r2 := onSend w (conn s ++ [LeaveGroup GRP_ALERT r1])
              (mkMessage CMD_STOP 0 (flagBytes sw hw)) (fam s) netlink.Request in
  stateOf (conn s) = Idle \/ (r1 = None /\ r2 = None) ->
  stateOf (conn (snd (Stop w sw hw s))) = Idle.
Proof.
  cbv zeta. intros H.
  destruct (Stop_tracked w s sw hw) as [Ha Hj]. cbv zeta in Ha, Hj.
  unfold stateOf. rewrite Ha, Hj.
  destruct H as [H|[H1 H2]].
  - apply stateOf_Idle in H as [-> ->].
    destruct (onSend w _ _ _ _), (onLeaveGroup w _ _); reflexivity.
  - rewrite H1. rewrite H1 in H2. rewrite H2. reflexivity.
Qed.

Lemma Stop_reaches_Idle_witness :
  stateOf (conn (snd (Stop quietWorld true false idleSession))) = Idle.
Proof.
  exact (Stop_reaches_Idle quietWorld idleSession true false (or_introl eq_refl)).
Defined.

Lemma Rounds_tracked (deadline : Time) (calls : list Call) :
  Rounds deadline calls ->
  forall t, starting t = false ->
    let t' := fold_left track calls t in
    alerting t' = alerting t /\ joined t' = joined t /\ starting t' = false.
Proof.
  induction 1 as [|ms e rest Hz Hr IH|r ms e rest Hz Hr IH]; intros t Ht; cbv zeta.
  - auto.
  - cbn [fold_left]. destruct e as [e|]; cbn [track]; [|rewrite Ht];
      (edestruct IH as (Ha & Hj & Hs); [|rewrite Ha, Hj, Hs; auto]); auto.
  - cbn [fold_left]. destruct e as [e|]; cbn [track]; [|rewrite Ht];
      (edestruct IH as (Ha & Hj & Hs); [|rewrite Ha, Hj, Hs; auto]); auto.
Qed.

(** X13.  Reading changes no monitoring state: the state after Config
    is the state before it, and so is the state after ReadUntil when
    no start request is waiting for its reply (as after any Start that
    returned). *)
Theorem reads_keep_state (w : World) (s : Session) (fuel : nat) (deadline : Time)
    (f : PacketAlertFunc) :
  stateOf (conn (snd (Config w s))) = stateOf (conn s) /\
  (starting (tracked (conn s)) = false ->
   stateOf (conn (snd (ReadUntil w fuel deadline f s))) = stateOf (conn s)).
Proof.
  split.
  - run_session.
    destruct (onSend w (conn s) _ _ _) as [e|]; [track_log; reflexivity|].
    destruct (onReceive w _) as [ms [e|]]; [track_log; reflexivity|].
    destruct ms as [|m0 ms]; [track_log; reflexivity|].
    destruct (decodeConfig (Data m0)) as [conf [e|]]; track_log; reflexivity.
  - intros Hs. rewrite ReadUntil_eq.
    destruct (readLoop_rounds w deadline f fuel []
                (withConn s (conn s ++ [SetReadBuffer 4096 (onSetReadBuffer w (conn s) 4096)])))
      as (calls & Hc & Hr).
    cbn [conn withConn] in Hc. rewrite Hc, <- app_assoc. unfold stateOf.
    replace (tracked (conn s ++ [SetReadBuffer 4096 (onSetReadBuffer w (conn s) 4096)]
                        ++ calls))
      with (fold_left track calls (tracked (conn s)))
      by (unfold tracked; rewrite fold_left_app; reflexivity).
    destruct (Rounds_tracked deadline calls Hr _ Hs) as (Ha & Hj & _).
    cbv zeta in Ha, Hj. rewrite Ha, Hj. reflexivity.
Qed.

Lemma reads_keep_state_witness :
  stateOf (conn (snd (ReadUntil quietWorld 3 0 always idleSession)))
    = stateOf (conn idleSession).
Proof.
  exact (proj2 (reads_keep_state quietWorld idleSession 3 0 always) eq_refl).
Defined.

(** *** The errors the methods return *)

(** X14.  Every error a method returns was made by fmt.Errorf with one
    of the method's own prefixes: none is the error of the socket
    itself, so none is a net.Error, and a timeout met inside
    NewSession, Config, Start or Stop is not recognisable as one by
    the caller.  No error of Start or Stop has the prefix encode:
    encoding the two flags never fails. *)
Theorem errors_are_prefixed (w : World) (s : Session) (sw hw : bool)
    (fuel : nat) (deadline : Time) (f : PacketAlertFunc) :
  prefixed ["session"%string] (snd (NewSession w)) /\
  match fst (Config w s) with
  | Ok (_, e) => prefixed ["config"%string] e
  | Panic _ => True
  end /\
  prefixed ["packet mode"%string; "req"%string; "req ack"%string; "join"%string]
    (fst (Start w sw hw s)) /\
  prefixed ["req"%string] (fst (Stop w sw hw s)) /\
  match fst (fst (ReadUntil w fuel deadline f s)) with
  | Some e => prefixed ["recv"%string; "parse alert packet"%string] e
  | None => True
  end.
Proof.
  split; [|split; [|split; [|split]]].
  - unfold NewSession. destruct (onDial w); [left; reflexivity|].
    run_session. destruct (onGetFamily w _ _) as [fam0 [e|]]; [left; reflexivity|].
    destruct (Groups fam0) as [|g [|g' gs]]; cbn; auto.
  - run_session.
    destruct (onSend w (conn s) _ _ _) as [e|]; [left; reflexivity|].
    destruct (onReceive w _) as [ms [e|]]; [left; reflexivity|].
    destruct ms as [|m0 ms]; [exact I|].
    destruct (decodeConfig (Data m0)) as [conf [e|]]; cbn; auto.
  - rewrite Start_eq.
    destruct (onSend w (conn s) _ _ _); [cbn; auto|].
    destruct (snd (onReceive w _)); [cbn; auto|].
    destruct (onSend w _ _ _ _); [cbn; auto|].
    destruct (snd (onReceive w _)); [cbn; auto|].
    destruct (onJoinGroup w _ _); cbn; auto 6.
  - rewrite Stop_eq. destruct (onSend w _ _ _ _); cbn; auto.
  - rewrite ReadUntil_eq.
    generalize (@nil PacketAlert).
    generalize (withConn s (conn s ++ [SetReadBuffer 4096 (onSetReadBuffer w (conn s) 4096)])).
    induction fuel as [|fuel IH]; intros s0 seen; [exact I|].
    rewrite readLoop_round.
    destruct (snd (onReceive w _)) as [e|].
    { destruct (isTimeout e); cbn; auto. }
    destruct (rangeMessages f _ seen) as [[res|] seen'] eqn:ER; [|apply IH].
    cbn [fst]. clear IH.
    revert seen ER. generalize (fst (onReceive w (armed w deadline (conn s0)))).
    induction l as [|m ms IHm]; intros seen ER; [discriminate ER|].
    cbn [rangeMessages] in ER.
    destruct (Command m =? CMD_PACKET_ALERT); cbn [negb] in ER; [|eauto].
    destruct (PacketAlertFromRaw (Data m)) as [pa [e|]].
    + inversion ER; subst. right; left; reflexivity.
    + destruct (f seen pa); cbn [negb] in ER; [eauto|].
      inversion ER; subst. exact I.
Qed.

(** ** The interface list *)

Lemma find_snoc {A : Type} (p : A -> bool) (l : list A) (x : A) :
  find p (l ++ [x]) =
    match find p l with
    | Some y => Some y
    | None => if p x then Some x else None
    end.
Proof.
  induction l as [|y l IH]; cbn [app find]; [reflexivity|].
  destruct (p y); [reflexivity|exact IH].
Qed.

Lemma rangeLinks_all (msg : list rtnetlink.LinkMessage) :
  forallb hasAttributes msg = true ->
  forall ret, exists ret',
    rangeLinks msg ret = Ok ret' /\
    forall i, ret' !! i =
      match lastLink msg i with
      | Some l => rtnetlink.Name <$> rtnetlink.Attributes l
      | None => ret !! i
      end.
Proof.
  induction msg as [|l msg IH]; intros Hall ret.
  - exists ret. split; reflexivity.
  - cbn [forallb] in Hall. apply andb_prop in Hall as [Hl Hall].
    unfold hasAttributes in Hl. cbn [rangeLinks].
    destruct (rtnetlink.Attributes l) as [a|] eqn:Ea; [|discriminate Hl].
    destruct (IH Hall (<[rtnetlink.Index l := rtnetlink.Name a]> ret)) as (ret' & Hr & Hlook).
    exists ret'. split; [exact Hr|].
    intros i. rewrite Hlook. unfold lastLink. cbn [rev]. rewrite find_snoc.
    destruct (find _ (rev msg)); [reflexivity|].
    destruct (rtnetlink.Index l =? i) eqn:Ei.
    + apply Z.eqb_eq in Ei. subst i. rewrite lookup_insert_eq, Ea. reflexivity.
    + apply Z.eqb_neq in Ei. rewrite lookup_insert_ne by exact Ei. reflexivity.
Qed.

Lemma rangeLinks_nil_pointer (msg : list rtnetlink.LinkMessage) :
  forallb hasAttributes msg = false ->
  forall ret, exists why, rangeLinks msg ret = Panic why.
Proof.
  induction msg as [|l msg IH]; intros Hall ret; [discriminate Hall|].
  cbn [forallb] in Hall. cbn [rangeLinks]. unfold hasAttributes in Hall at 1.
  destruct (rtnetlink.Attributes l) as [a|]; [|eauto].
  apply IH. exact Hall.
Qed.

(** X15.  When the dial and the list call succeed, LinkList returns a
    map that gives, for every index, the name of the last listed link
    with that index, and nothing for an index that is not listed; but
    it panics, instead of returning, exactly when some listed link
    carries no attributes.  Either way its last call closes the
    connection. *)
Theorem LinkList_names (w : rtnetlink.World) (msg : list rtnetlink.LinkMessage) :
  rtnetlink.onDial w = None ->
  rtnetlink.onList w = (msg, None) ->
  (if forallb hasAttributes msg
   then exists ret,
          fst (LinkList w) = Ok (Some ret, None) /\
          forall i, ret !! i =
            match lastLink msg i with
            | Some l => rtnetlink.Name <$> rtnetlink.Attributes l
            | None => None
            end
   else exists why, fst (LinkList w) = Panic why) /\
  snd (LinkList w)
    = [rtnetlink.Dial None; rtnetlink.List msg None;
       rtnetlink.Close (rtnetlink.onClose w)].
Proof.
  intros Hdial Hlist. unfold LinkList. rewrite Hdial, Hlist. cbn [fst snd app].
  split; [|reflexivity].
  destruct (forallb hasAttributes msg) eqn:Hall.
  - destruct (rangeLinks_all msg Hall ∅) as (ret & Hr & Hlook).
    exists ret. rewrite Hr. split; [reflexivity|].
    intros i. rewrite Hlook. destruct (lastLink msg i); [reflexivity|].
    apply lookup_empty.
  - destruct (rangeLinks_nil_pointer msg Hall ∅) as (why & Hr).
    exists why. rewrite Hr. reflexivity.
Qed.

Lemma LinkList_names_witness :
  exists ret,
    fst (LinkList linkWorld) = Ok (Some ret, None) /\
    forall i, ret !! i =
      match lastLink twoLinks i with
      | Some l => rtnetlink.Name <$> rtnetlink.Attributes l
      | None => None
      end.
Proof.
  exact (proj1 (LinkList_names linkWorld twoLinks eq_refl eq_refl)).
Defined.

(** ** The earlier decodeAlert of netlink.go *)



(** A loop entered with an error ends at once, with that error. *)
Lemma forNext_stuck {S : Type}
    (body : netlink.AttributeDecoder -> S -> netlink.AttributeDecoder * S)
    (fuel : nat) (ad d : netlink.AttributeDecoder) (s m : S) (e : error) :
  netlink.ad_err ad = Some e ->
  netlink.forNext fuel body ad s = Some (d, m) -> netlink.ad_err d = Some e.
Proof.
  intros He H. destruct fuel as [|fuel]; [discriminate H|].
  cbn [netlink.forNext] in H. unfold netlink.Next in H. rewrite He in H.
  inversion H; subst. exact He.
Qed.

Lemma UintN_no_error (n : nat) (ad ad' : netlink.AttributeDecoder) (v : Z) :
  netlink.UintN n ad = (v, ad') -> netlink.ad_err ad' = None -> ad' = ad.
Proof.
  unfold netlink.UintN. intros H He.
  destruct (netlink.ad_err ad); [inversion H; reflexivity|].
  destruct (_ =? _); inversion H; subst; [reflexivity|discriminate He].
Qed.

Ltac same_uint n dec :=
  let v := fresh "v" in
  let d := fresh "d" in
  let E := fresh "E" in
  intros H He;
  change netlink.Uint64 with (netlink.UintN 8) in *;
  change netlink.Uint32 with (netlink.UintN 4) in *;
  change netlink.Uint16 with (netlink.UintN 2) in *;
  destruct (netlink.UintN n dec) as [v d] eqn:E;
  inversion H; subst;
  rewrite (UintN_no_error _ _ _ _ E He);
  unfold timestampAsMethod;
  rewrite alter_insert_ne by (cbv; discriminate);
  reflexivity.

(** One round of the two loops: where the later body leaves no error,
    the earlier body leaves the same decoder. *)
Lemma decodeAlert_body_Earlier (dec dec' : netlink.AttributeDecoder)
    (ret ret' : gmap Z Value) :
  decodeAlert_body dec ret = (dec', ret') -> netlink.ad_err dec' = None ->
  Earlier.decodeAlert_body dec (timestampAsMethod ret) = (dec', timestampAsMethod ret').
Proof.
  unfold decodeAlert_body, Earlier.decodeAlert_body.
  destruct (_ =? ATTR_PC); [same_uint 8%nat dec|].
  destruct (_ =? ATTR_SYMBOL).
  { intros H _. inversion H; subst. unfold timestampAsMethod.
    rewrite alter_insert_ne by (cbv; discriminate). reflexivity. }
  destruct (_ =? ATTR_IN_PORT).
  { intros H _. destruct (netlink.Nested _ dec ∅) as [d a].
    inversion H; subst. unfold timestampAsMethod.
    rewrite alter_insert_ne by (cbv; discriminate). reflexivity. }
  destruct (_ =? ATTR_TIMESTAMP).
  { intros H He. change netlink.Uint64 with (netlink.UintN 8) in *.
    destruct (netlink.UintN 8 dec) as [v d] eqn:E.
    inversion H; subst. rewrite (UintN_no_error _ _ _ _ E He).
    unfold timestampAsMethod. rewrite alter_insert_eq, insert_alter_eq. reflexivity. }
  destruct (_ =? ATTR_PROTO); [same_uint 2%nat dec|].
  destruct (_ =? ATTR_PAYLOAD).
  { intros H _. inversion H; subst. unfold timestampAsMethod.
    rewrite alter_insert_ne by (cbv; discriminate). reflexivity. }
  destruct (_ =? ATTR_ORIG_LEN); [same_uint 4%nat dec|].
  destruct (_ =? ATTR_ORIGIN); [same_uint 2%nat dec|].
  intros H _. inversion H; subst. reflexivity.
Qed.

Lemma forNext_Earlier :
  forall fuel dec ret d m,
    netlink.forNext fuel decodeAlert_body dec ret = Some (d, m) ->
    netlink.ad_err d = None ->
    netlink.forNext fuel Earlier.decodeAlert_body dec (timestampAsMethod ret)
      = Some (d, timestampAsMethod m).
Proof.
  induction fuel as [|fuel IH]; intros dec ret d m H He; [discriminate H|].
  cbn [netlink.forNext] in *.
  destruct (netlink.Next dec) as [more ad1].
  destruct more; [|inversion H; subst; reflexivity].
  destruct (decodeAlert_body ad1 ret) as [ad2 ret2] eqn:EB.
  assert (He2 : netlink.ad_err ad2 = None).
  { destruct (netlink.ad_err ad2) as [e|] eqn:E2; [|reflexivity].
    rewrite (forNext_stuck _ _ _ _ _ _ _ E2 H) in He. discriminate He. }
  rewrite (decodeAlert_body_Earlier _ _ _ _ EB He2).
  apply IH; assumption.
Qed.

(** X17.  Where the later decodeAlert succeeds, the earlier one
    returns the same map, but for the value under ATTR_TIMESTAMP (if
    there is one), which is the method value dec.Uint64 and not a
    number. *)
Theorem Earlier_decodeAlert_agrees (raw : list byte) (m : gmap Z Value) :
  decodeAlert raw = (Some m, None) ->
  Earlier.decodeAlert raw = (Some (timestampAsMethod m), None).
Proof.
  unfold decodeAlert, Earlier.decodeAlert.
  cbn [netlink.NewAttributeDecoder].
  destruct (netlink.forNext _ decodeAlert_body _ ∅) as [[d ret]|] eqn:E;
    cbn [decode_finish]; [|discriminate].
  unfold netlink.Err. destruct (netlink.ad_err d) eqn:He; [discriminate|].
  intros H. inversion H; subst.
  apply forNext_Earlier in E; [|exact He].
  change (timestampAsMethod ∅) with (∅ : gmap Z Value) in E.
  rewrite E. reflexivity.
Qed.

Lemma Earlier_decodeAlert_agrees_witness :
  Earlier.decodeAlert timedAlert
    = (Some (timestampAsMethod
               (<[ATTR_PROTO := VUint16 0x0800]>
                  (<[ATTR_TIMESTAMP := VUint64 1700000000]> ∅))), None).
Proof.
  refine (Earlier_decodeAlert_agrees timedAlert _ _).
  vm_compute. reflexivity.
Defined.

(** ** The earlier session methods of netlink.go *)

(** X18.  The earlier Start and Stop make one call each: they send
    the request with the two drop flags, unacknowledged, and return
    what the send returns, unwrapped; they set no packet mode, wait
    for no reply and join or leave no group.  The later Stop is the
    earlier one run after leaving the alert group, with its error
    wrapped in req. *)
Theorem Earlier_Start_Stop (w : World) (s : Session) (sw hw : bool) :
  let request cmd := mkMessage cmd 0 (flagBytes sw hw) in
  let sent cmd := onSend w (conn s) (request cmd) (fam s) netlink.Request in
  let left := withConn s (conn s ++ [LeaveGroup GRP_ALERT
                                       (onLeaveGroup w (conn s) GRP_ALERT)]) in
  EarlierSession.Start w sw hw s
    = (sent CMD_START,
       withConn s (conn s ++ [Send (request CMD_START) (fam s) netlink.Request
                                (sent CMD_START)])) /\
  EarlierSession.Stop w sw hw s
    = (sent CMD_STOP,
       withConn s (conn s ++ [Send (request CMD_STOP) (fam s) netlink.Request
                                (sent CMD_STOP)])) /\
  Stop w sw hw s
    = (wrap "req" (fst (EarlierSession.Stop w sw hw left)),
       snd (EarlierSession.Stop w sw hw left)).
Proof.
  cbv zeta. unfold EarlierSession.Start, EarlierSession.Stop, EarlierSession.req.
  rewrite Stop_eq. cbv zeta. rewrite dropFlags_eq.
  unfold connSend, call, withConn. cbn [conn fam group fst snd].
  split; [reflexivity|split; reflexivity].
Qed.




